(** * SubAgenticAI: trust governance and mediated communication

    A shallow embedding of the Python package [subagentic_ai]
    (trust_level.py, trust_broker.py, trust_profile.py,
    communication_authorization.py, sub_agent.py, front_line_agent.py)
    together with the properties its design document states.

    Modelling conventions.
    - Python [float] scores are embedded twice.  The module [Binary64]
      embeds [TrustLevel] and [TrustProfile] over binary64 numbers, with the
      roundings of the code: [statistics.mean] sums its data as exact
      fractions and rounds the quotient once, the difference [e - avg] is
      rounded, comparisons are exact.  The acceptance rule is stated over
      it.  The other modules take scores as exact rationals ([Q]), the
      roundings abstracted; they carry the order and monotonicity
      properties, which do not turn on a rounding.
    - Python [str] is [string]; [str.lower] is modelled on the ASCII range.
    - [datetime] is an integer number of microseconds ([Z]) counted from
      1970-01-01 00:00:00, [timedelta] is a number of microseconds.  The
      sum of a [datetime] and a [timedelta] raises [OverflowError] when it
      leaves the years 1 to 9999.  Every call of [datetime.utcnow()]
      consumes one reading of an explicit clock.
    - [async def] methods are awaited one after the other; they are modelled
      as sequential computations.
    - A method is a computation over the state of its receiver ([self]) and
      the clock, which either returns a value or raises. *)

From Stdlib Require Import ZArith QArith Qminmax Qabs String Ascii List Lia Lqa.
From Stdlib Require PrimFloat SpecFloat FloatOps.
From stdpp Require Import base gmap strings list pretty.

Open Scope Z_scope.

(** ** Exceptions, the clock and the method monad *)

(** The exceptions the package can raise: [RuntimeError] on an illegal
    lifecycle transition, [StatisticsError] from [statistics.mean],
    [OverflowError] from the sum of a [datetime] and a [timedelta]. *)
Inductive exn : Type :=
| RuntimeError (msg : string)
| StatisticsError (msg : string)
| OverflowError (msg : string).

Inductive outcome (A : Type) : Type :=
| Return (a : A)
| Raise (e : exn).
Arguments Return {A} a.
Arguments Raise {A} e.

(** The wall clock: [ticks i] is what the [i]-th call of
    [datetime.utcnow()] answers, [reads] counts the calls made so far. *)
Record Clock : Type := MkClock { ticks : nat -> Z; reads : nat }.

Definition clock_monotone (k : Clock) : Prop :=
  forall i j : nat, (i <= j)%nat -> ticks k i <= ticks k j.

(** A clock that stands still at [t]. *)
Definition frozen_clock (t : Z) : Clock := MkClock (fun _ => t) 0.

(** A clock that advances by one microsecond per reading, from [t]. *)
Definition ticking_clock (t : Z) : Clock := MkClock (fun i => t + Z.of_nat i) 0.

(** A method of an object with state [S]. *)
Definition M (S A : Type) : Type := S -> Clock -> outcome A * S * Clock.

Definition ret {S A} (a : A) : M S A := fun s k => (Return a, s, k).

Definition bind {S A B} (m : M S A) (f : A -> M S B) : M S B :=
  fun s k =>
    match m s k with
    | (Return a, s', k') => f a s' k'
    | (Raise e, s', k') => (Raise e, s', k')
    end.

Definition raise {S A} (e : exn) : M S A := fun s k => (Raise e, s, k).

Definition get {S} : M S S := fun s k => (Return s, s, k).

Definition put {S} (s : S) : M S unit := fun _ k => (Return tt, s, k).

Definition modify {S} (f : S -> S) : M S unit := fun s k => (Return tt, f s, k).

Definition utcnow {S} : M S Z :=
  fun s k => (Return (ticks k (reads k)), s, MkClock (ticks k) (Datatypes.S (reads k))).

(** Lifting of a computation that cannot touch the receiver. *)
Definition lift_outcome {S A} (o : outcome A) : M S A := fun s k => (o, s, k).

(** The monad structure, so that methods are written with stdpp's
    [x ← m; k] and [m;; k]. *)
#[global] Instance M_ret {S} : MRet (M S) := fun A a => ret a.
#[global] Instance M_bind {S} : MBind (M S) := fun A B f m => bind m f.

(** Projections of a run. *)
Definition result_of {A S} (r : outcome A * S * Clock) : outcome A := r.1.1.
Definition state_of {A S} (r : outcome A * S * Clock) : S := r.1.2.
Definition clock_of {A S} (r : outcome A * S * Clock) : Clock := r.2.

(** The error monad alone, for code that raises but has no state. *)
Definition obind {A B} (o : outcome A) (f : A -> outcome B) : outcome B :=
  match o with
  | Return a => f a
  | Raise e => Raise e
  end.

(** ** Strings *)

(** [str.lower()] on ASCII letters. *)
Definition lower_ascii (c : ascii) : ascii :=
  let n := nat_of_ascii c in
  if ((65 <=? n)%nat && (n <=? 90)%nat)%bool then ascii_of_nat (n + 32) else c.

Fixpoint lower (s : string) : string :=
  match s with
  | EmptyString => EmptyString
  | String c rest => String (lower_ascii c) (lower rest)
  end.

(** [needle in hay] for strings. *)
Fixpoint contains (needle hay : string) : bool :=
  if String.prefix needle hay then true
  else match hay with
       | EmptyString => false
       | String _ rest => contains needle rest
       end.

(** [str(b)] for a [bool]. *)
Definition str_bool (b : bool) : string := if b then "True" else "False".

(** ** mission_status.py and security_level.py *)

Inductive MissionStatus : Type :=
| CREATED | ACTIVE | PAUSED | COMPLETED | FAILED | RETIRED.

#[global] Instance MissionStatus_eq_dec : EqDecision MissionStatus.
Proof. solve_decision. Defined.

(** [str(status)], as the f-strings of the log messages print it. *)
Definition str_status (s : MissionStatus) : string :=
  match s with
  | CREATED => "MissionStatus.CREATED"
  | ACTIVE => "MissionStatus.ACTIVE"
  | PAUSED => "MissionStatus.PAUSED"
  | COMPLETED => "MissionStatus.COMPLETED"
  | FAILED => "MissionStatus.FAILED"
  | RETIRED => "MissionStatus.RETIRED"
  end.

Inductive SecurityLevel : Type :=
| PUBLIC | INTERNAL | CONFIDENTIAL | SECRET | TOP_SECRET.

Definition SecurityLevel_value (l : SecurityLevel) : Z :=
  match l with
  | PUBLIC => 0 | INTERNAL => 1 | CONFIDENTIAL => 2 | SECRET => 3 | TOP_SECRET => 4
  end.

Definition str_security_level (l : SecurityLevel) : string :=
  match l with
  | PUBLIC => "SecurityLevel.PUBLIC"
  | INTERNAL => "SecurityLevel.INTERNAL"
  | CONFIDENTIAL => "SecurityLevel.CONFIDENTIAL"
  | SECRET => "SecurityLevel.SECRET"
  | TOP_SECRET => "SecurityLevel.TOP_SECRET"
  end.

(** ** trust_level.py *)

(** [max(0.0, min(1.0, x))]. *)
Definition clamp01 (x : Q) : Q := Qmax 0 (Qmin 1 x).

Module TrustLevel.

Record t : Type := Mk { sender_trust : Q; content_trust : Q }.

(** The dataclass constructor followed by [__post_init__]. *)
Definition init (sender content : Q) : t :=
  Mk (clamp01 sender) (clamp01 content).

Definition meets_threshold (self threshold : t) : bool :=
  Qle_bool (sender_trust threshold) (sender_trust self)
  && Qle_bool (content_trust threshold) (content_trust self).

End TrustLevel.

(** ** trust_broker.py *)

(** The [ITrustBroker] interface: an evaluator is what its three queries
    answer.  The record is the behaviour of the broker object at the time
    a profile consults it. *)
Module ITrustBroker.

Record t : Type := Mk {
  broker_id : string;
  name : string;
  evaluate_sender_trust : string -> Q;
  evaluate_content_trust : string -> Q;
  is_flagged : string -> string -> bool
}.

(** The documented range of both scores ("Trust level between 0.0 and
    1.0"). *)
Definition in_range (b : t) : Prop :=
  (forall sender_id, (0 <= evaluate_sender_trust b sender_id <= 1)%Q) /\
  (forall content, (0 <= evaluate_content_trust b content <= 1)%Q).

End ITrustBroker.

Module SimpleTrustBroker.

Definition MALICIOUS_CONTENT_PENALTY : Q := 3 # 10.
Definition SUSPICIOUS_CONTENT_PENALTY : Q := 6 # 10.
Definition VERIFIED_CONTENT_BONUS : Q := 12 # 10.

Record t : Type := Mk {
  _broker_id : string;
  _name : string;
  _baseline_trust : Q;
  _sender_reputations : gmap string Q;
  _flagged_senders : gset string
}.

Definition init (broker_id name : string) (baseline_trust : Q) : t :=
  Mk broker_id name (clamp01 baseline_trust) ∅ ∅.

Definition evaluate_sender_trust (self : t) (sender_id : string) : Q :=
  default (_baseline_trust self) (_sender_reputations self !! sender_id).

Definition evaluate_content_trust (self : t) (content : string) : Q :=
  let trust_score := _baseline_trust self in
  let trust_score :=
    if contains "malicious" (lower content)
    then (trust_score * MALICIOUS_CONTENT_PENALTY)%Q
    else if contains "suspicious" (lower content)
         then (trust_score * SUSPICIOUS_CONTENT_PENALTY)%Q
         else trust_score in
  let trust_score :=
    if contains "verified" (lower content)
    then Qmin 1 (trust_score * VERIFIED_CONTENT_BONUS)
    else trust_score in
  clamp01 trust_score.

Definition is_flagged (self : t) (sender_id content : string) : bool :=
  if decide (sender_id ∈ _flagged_senders self) then true
  else if contains "malicious" (lower content) then true
  else false.

Definition set_sender_reputation (self : t) (sender_id : string) (reputation : Q) : t :=
  Mk (_broker_id self) (_name self) (_baseline_trust self)
     (<[sender_id := clamp01 reputation]> (_sender_reputations self))
     (_flagged_senders self).

Definition flag_sender (self : t) (sender_id : string) : t :=
  Mk (_broker_id self) (_name self) (_baseline_trust self)
     (_sender_reputations self) ({[sender_id]} ∪ _flagged_senders self).

Definition unflag_sender (self : t) (sender_id : string) : t :=
  Mk (_broker_id self) (_name self) (_baseline_trust self)
     (_sender_reputations self) (_flagged_senders self ∖ {[sender_id]}).

(** A [SimpleTrustBroker] seen through the interface. *)
Definition as_broker (self : t) : ITrustBroker.t :=
  ITrustBroker.Mk (_broker_id self) (_name self)
    (evaluate_sender_trust self) (evaluate_content_trust self) (is_flagged self).

End SimpleTrustBroker.

(** ** trust_profile.py *)

#[global] Instance outcome_ret : MRet outcome := fun A a => Return a.
#[global] Instance outcome_bind : MBind outcome := fun A B f o => obind o f.

(** [sum(data)] over exact fractions. *)
Definition Qsum (data : list Q) : Q := fold_right Qplus 0%Q data.

(** [statistics.mean]; it raises [StatisticsError] on empty data. *)
Definition mean (data : list Q) : outcome Q :=
  match data with
  | [] => Raise (StatisticsError "mean requires at least one data point")
  | _ :: _ => Return (Qsum data / inject_Z (Z.of_nat (length data)))%Q
  end.

Module TrustProfile.

Definition DEFAULT_MINIMUM_BROKER_AGREEMENT : Z := 2.

Record t : Type := Mk {
  security_level : SecurityLevel;
  required_trust_threshold : TrustLevel.t;
  trust_brokers : list ITrustBroker.t;
  minimum_broker_agreement : Z;
  agreement_tolerance : Q
}.

(** The dataclass constructor followed by [__post_init__]: the agreement
    count is raised to 2, the tolerance is clamped to [0, 1]. *)
Definition init (security_level : SecurityLevel)
    (required_trust_threshold : TrustLevel.t)
    (trust_brokers : list ITrustBroker.t)
    (minimum_broker_agreement : Z) (agreement_tolerance : Q) : t :=
  Mk security_level required_trust_threshold trust_brokers
     (if minimum_broker_agreement <? DEFAULT_MINIMUM_BROKER_AGREEMENT
      then DEFAULT_MINIMUM_BROKER_AGREEMENT else minimum_broker_agreement)
     (clamp01 agreement_tolerance).

(** [sum(1 for e in evaluations if abs(e - avg) <= tolerance)]. *)
Definition within_tolerance (tolerance avg : Q) (evaluations : list Q) : nat :=
  length (List.filter (fun e => Qle_bool (Qabs (e - avg)) tolerance) evaluations).

Definition _has_independent_agreement (self : t) (evaluations : list Q) : outcome bool :=
  if Z.of_nat (length evaluations) <? minimum_broker_agreement self
  then Return false
  else
    avg ← mean evaluations;
    Return (minimum_broker_agreement self
            <=? Z.of_nat (within_tolerance (agreement_tolerance self) avg evaluations)).

(** The [for broker in self.trust_brokers] loop: [None] is the early
    [return False] on a flag, otherwise the two score lists as appended. *)
Fixpoint evaluate_brokers (brokers : list ITrustBroker.t) (sender_id content : string)
    (sender_trusts content_trusts : list Q) : option (list Q * list Q) :=
  match brokers with
  | [] => Some (sender_trusts, content_trusts)
  | broker :: rest =>
      if ITrustBroker.is_flagged broker sender_id content then None
      else
        let sender_trust := ITrustBroker.evaluate_sender_trust broker sender_id in
        let content_trust := ITrustBroker.evaluate_content_trust broker content in
        evaluate_brokers rest sender_id content
          (sender_trusts ++ [sender_trust]) (content_trusts ++ [content_trust])
  end.

Definition validate_inbound (self : t) (sender_id content : string) : outcome bool :=
  if Z.of_nat (length (trust_brokers self)) <? minimum_broker_agreement self
  then Return false
  else
    match evaluate_brokers (trust_brokers self) sender_id content [] [] with
    | None => Return false
    | Some (sender_trusts, content_trusts) =>
        agree_sender ← _has_independent_agreement self sender_trusts;
        if negb agree_sender then Return false
        else
          agree_content ← _has_independent_agreement self content_trusts;
          if negb agree_content then Return false
          else
            avg_sender_trust ← mean sender_trusts;
            avg_content_trust ← mean content_trusts;
            let evaluated_trust := TrustLevel.init avg_sender_trust avg_content_trust in
            Return (TrustLevel.meets_threshold evaluated_trust
                      (required_trust_threshold self))
    end.

End TrustProfile.

(** ** trust_level.py and trust_profile.py over binary64 scores *)

Module Binary64.

Section Floats.

Import PrimFloat.

(** [min(a, b)] and [max(a, b)] of two floats: the second argument is
    returned only when it is strictly below (above) the first, so a nan in
    second place gives the first. *)
Definition float_min (a b : float) : float := if ltb b a then b else a.
Definition float_max (a b : float) : float := if ltb a b then b else a.

(** [max(0.0, min(1.0, x))]. *)
Definition clamp01 (x : float) : float := float_max 0x0p+0%float (float_min 0x1p+0%float x).

(** [x.as_integer_ratio()] of a finite float, as an integer [n] and an
    exponent [e] with [x = n * 2^e]; [None] where Python raises, on nan
    and on the infinities. *)
Definition exact_ratio (x : float) : option (Z * Z) :=
  match FloatOps.Prim2SF x with
  | SpecFloat.S754_zero _ => Some (0, 0)
  | SpecFloat.S754_finite s m e => Some (if s then Zneg m else Zpos m, e)
  | SpecFloat.S754_infinity _ | SpecFloat.S754_nan => None
  end.

(** The exact sum of [a.1 * 2^a.2] and [b.1 * 2^b.2]. *)
Definition dyadic_add (a b : Z * Z) : Z * Z :=
  let e := Z.min a.2 b.2 in
  (a.1 * 2 ^ (a.2 - e) + b.1 * 2 ^ (b.2 - e), e).

(** [float(n)] for an [int]. *)
Definition float_of_int (n : Z) : float :=
  FloatOps.SF2Prim (SpecFloat.binary_normalize FloatOps.prec FloatOps.emax n 0 false).

(** [float(Fraction(total) / n)]: the exact quotient, rounded once to the
    nearest binary64 number, ties to even. *)
Definition float_of_ratio (total : Z * Z) (n : positive) : float :=
  let quotient sign m :=
    FloatOps.SF2Prim
      (SpecFloat.SFdiv FloatOps.prec FloatOps.emax
         (SpecFloat.S754_finite sign m total.2) (SpecFloat.S754_finite false n 0)) in
  match total.1 with
  | Z0 => 0x0p+0%float
  | Zpos m => quotient false m
  | Zneg m => quotient true m
  end.

(** [statistics._sum]: the finite data are summed as exact fractions, the
    nan and infinite data as floats, in a partial sum of their own. *)
Fixpoint _sum (data : list float) (finite : Z * Z) (special : option float)
    : (Z * Z) * option float :=
  match data with
  | [] => (finite, special)
  | x :: rest =>
      match exact_ratio x with
      | Some ratio => _sum rest (dyadic_add finite ratio) special
      | None => _sum rest finite (Some (add (default 0x0p+0%float special) x))
      end
  end.

(** [statistics.mean]: [StatisticsError] on empty data; when a nan or an
    infinity is among the data the finite data are ignored and the special
    partial sum is divided as a float; otherwise the exact sum is divided
    by the count and the quotient is rounded once. *)
Definition mean (data : list float) : outcome float :=
  match data with
  | [] => Raise (StatisticsError "mean requires at least one data point")
  | _ :: _ =>
      let n := Pos.of_nat (length data) in
      match _sum data (0, 0) None with
      | (_, Some total) => Return (div total (float_of_int (Zpos n)))
      | (total, None) => Return (float_of_ratio total n)
      end
  end.

End Floats.

Module TrustLevel.

Record t : Type := Mk { sender_trust : PrimFloat.float; content_trust : PrimFloat.float }.

(** The dataclass constructor followed by [__post_init__]. *)
Definition init (sender content : PrimFloat.float) : t :=
  Mk (clamp01 sender) (clamp01 content).

(** [self.sender_trust >= threshold.sender_trust and
    self.content_trust >= threshold.content_trust]. *)
Definition meets_threshold (self threshold : t) : bool :=
  PrimFloat.leb (sender_trust threshold) (sender_trust self)
  && PrimFloat.leb (content_trust threshold) (content_trust self).

End TrustLevel.

Module ITrustBroker.

Record t : Type := Mk {
  broker_id : string;
  name : string;
  evaluate_sender_trust : string -> PrimFloat.float;
  evaluate_content_trust : string -> PrimFloat.float;
  is_flagged : string -> string -> bool
}.

End ITrustBroker.

Module TrustProfile.

Definition DEFAULT_MINIMUM_BROKER_AGREEMENT : Z := 2.

Record t : Type := Mk {
  security_level : SecurityLevel;
  required_trust_threshold : TrustLevel.t;
  trust_brokers : list ITrustBroker.t;
  minimum_broker_agreement : Z;
  agreement_tolerance : PrimFloat.float
}.

(** The dataclass constructor followed by [__post_init__]. *)
Definition init (security_level : SecurityLevel)
    (required_trust_threshold : TrustLevel.t)
    (trust_brokers : list ITrustBroker.t)
    (minimum_broker_agreement : Z) (agreement_tolerance : PrimFloat.float) : t :=
  Mk security_level required_trust_threshold trust_brokers
     (if minimum_broker_agreement <? DEFAULT_MINIMUM_BROKER_AGREEMENT
      then DEFAULT_MINIMUM_BROKER_AGREEMENT else minimum_broker_agreement)
     (clamp01 agreement_tolerance).

(** [sum(1 for e in evaluations if abs(e - avg) <= tolerance)]. *)
Definition within_tolerance (tolerance avg : PrimFloat.float)
    (evaluations : list PrimFloat.float) : nat :=
  length (List.filter
            (fun e => PrimFloat.leb (PrimFloat.abs (PrimFloat.sub e avg)) tolerance)
            evaluations).

Definition _has_independent_agreement (self : t) (evaluations : list PrimFloat.float)
    : outcome bool :=
  if Z.of_nat (length evaluations) <? minimum_broker_agreement self
  then Return false
  else
    avg ← mean evaluations;
    Return (minimum_broker_agreement self
            <=? Z.of_nat (within_tolerance (agreement_tolerance self) avg evaluations)).

(** The [for broker in self.trust_brokers] loop: [None] is the early
    [return False] on a flag, otherwise the two score lists as appended. *)
Fixpoint evaluate_brokers (brokers : list ITrustBroker.t) (sender_id content : string)
    (sender_trusts content_trusts : list PrimFloat.float)
    : option (list PrimFloat.float * list PrimFloat.float) :=
  match brokers with
  | [] => Some (sender_trusts, content_trusts)
  | broker :: rest =>
      if ITrustBroker.is_flagged broker sender_id content then None
      else
        let sender_trust := ITrustBroker.evaluate_sender_trust broker sender_id in
        let content_trust := ITrustBroker.evaluate_content_trust broker content in
        evaluate_brokers rest sender_id content
          (sender_trusts ++ [sender_trust]) (content_trusts ++ [content_trust])
  end.

Definition validate_inbound (self : t) (sender_id content : string) : outcome bool :=
  if Z.of_nat (length (trust_brokers self)) <? minimum_broker_agreement self
  then Return false
  else
    match evaluate_brokers (trust_brokers self) sender_id content [] [] with
    | None => Return false
    | Some (sender_trusts, content_trusts) =>
        agree_sender ← _has_independent_agreement self sender_trusts;
        if negb agree_sender then Return false
        else
          agree_content ← _has_independent_agreement self content_trusts;
          if negb agree_content then Return false
          else
            avg_sender_trust ← mean sender_trusts;
            avg_content_trust ← mean content_trusts;
            let evaluated_trust := TrustLevel.init avg_sender_trust avg_content_trust in
            Return (TrustLevel.meets_threshold evaluated_trust
                      (required_trust_threshold self))
    end.

End TrustProfile.

End Binary64.

(** ** communication_authorization.py *)

(** Truth value of a [timedelta]: only the zero duration is falsy. *)
Definition timedelta_bool (d : Z) : bool := negb (d =? 0).

(** [datetime.min] and [datetime.max]: 0001-01-01 00:00:00 and
    9999-12-31 23:59:59.999999, in microseconds from 1970-01-01. *)
Definition datetime_min : Z := -62135596800000000.
Definition datetime_max : Z := 253402300799999999.

(** [t + d] for a [datetime] and a [timedelta]: the sum, or
    [OverflowError] when it is not a value of the type. *)
Definition datetime_add (t d : Z) : outcome Z :=
  if (datetime_min <=? t + d) && (t + d <=? datetime_max)
  then Return (t + d)
  else Raise (OverflowError "date value out of range").

Module CommunicationAuthorization.

Record t : Type := Mk {
  from_agent_id : string;
  to_agent_id : string;
  is_bidirectional : bool;
  allowed_data_scopes : list string;
  created_at : Z;
  expires_at : option Z
}.

(** [created_at + ttl if ttl else None]: the conditional tests the truth
    value of [ttl], so both [None] and a zero [timedelta] give no expiry;
    the sum is computed, and can overflow, only for a truthy [ttl]. *)
Definition expiry (created_at : Z) (ttl : option Z) : outcome (option Z) :=
  match ttl with
  | Some d =>
      if timedelta_bool d
      then match datetime_add created_at d with
           | Return expires_at => Return (Some expires_at)
           | Raise e => Raise e
           end
      else Return None
  | None => Return None
  end.

Definition create {S} (from_agent_id to_agent_id : string) (is_bidirectional : bool)
    (allowed_data_scopes : option (list string)) (ttl : option Z) : M S t :=
  created_at ← utcnow;
  expires_at ← lift_outcome (expiry created_at ttl);
  let scopes :=
    match allowed_data_scopes with
    | Some (s :: l) => s :: l
    | _ => ["*"%string]
    end in
  mret (Mk from_agent_id to_agent_id is_bidirectional scopes created_at expires_at).

(** [self.expires_at is not None and datetime.utcnow() > self.expires_at]:
    the clock is read only when an expiry is set. *)
Definition is_expired {S} (self : t) : M S bool :=
  match expires_at self with
  | None => mret false
  | Some e => now ← utcnow; mret (e <? now)
  end.

Definition is_authorized {S} (self : t) (from_id to_id : string) : M S bool :=
  expired ← is_expired self;
  if expired : bool then mret false
  else if bool_decide (from_agent_id self = from_id) && bool_decide (to_agent_id self = to_id)
  then mret true
  else if is_bidirectional self && bool_decide (from_agent_id self = to_id)
          && bool_decide (to_agent_id self = from_id)
  then mret true
  else mret false.

End CommunicationAuthorization.

(** ** Log entries *)

(** A log line [[timestamp] text]: the clock reading that stamps it and
    the text after the stamp. *)
Record LogEntry : Type := MkLogEntry { stamp : Z; text : string }.

(** [str(datetime.utcnow().timestamp())]: the text that names an instant
    in a key.  The code prints the instant as float seconds, so the texts
    of two instants that are close together can coincide; the text here
    stands for the code's, and no property below relies on different
    instants having different texts. *)
Definition str_timestamp (now : Z) : string := pretty now.

(** ** sub_agent.py *)

Module SubAgent.

Record t : Type := Mk {
  _id : string;
  _domain : string;
  _trust_profile : TrustProfile.t;
  _status : MissionStatus;
  _local_state : gmap string string;
  _activity_log : list LogEntry
}.

Definition set_status (status : MissionStatus) : M t unit :=
  modify (fun self =>
    Mk (_id self) (_domain self) (_trust_profile self) status
       (_local_state self) (_activity_log self)).

(** [self._local_state[key] = value]. *)
Definition local_state_setitem (key value : string) : M t unit :=
  modify (fun self =>
    Mk (_id self) (_domain self) (_trust_profile self) (_status self)
       (<[key := value]> (_local_state self)) (_activity_log self)).

(** [self._local_state.clear()]. *)
Definition local_state_clear : M t unit :=
  modify (fun self =>
    Mk (_id self) (_domain self) (_trust_profile self) (_status self)
       ∅ (_activity_log self)).

Definition _log_activity (activity : string) : M t unit :=
  now ← utcnow;
  modify (fun self =>
    Mk (_id self) (_domain self) (_trust_profile self) (_status self)
       (_local_state self) (_activity_log self ++ [MkLogEntry now activity])).

(** [SubAgent(agent_id, domain, trust_profile)]: [__init__] stamps the
    creation entry, so building the object reads the clock. *)
Definition new {S} (agent_id domain : string) (trust_profile : TrustProfile.t) : M S t :=
  now ← utcnow;
  mret (Mk agent_id domain trust_profile CREATED ∅
          [MkLogEntry now ("SubAgent created: " +:+ agent_id +:+ " for domain: " +:+ domain)]).

Definition start_mission : M t unit :=
  self ← get;
  if bool_decide (_status self ≠ CREATED)
  then raise (RuntimeError ("Cannot start mission from status: " +:+ str_status (_status self)))
  else
    set_status ACTIVE;;
    _log_activity "Mission started".

Definition process_task (task : string) : M t string :=
  self ← get;
  if bool_decide (_status self ≠ ACTIVE)
  then raise (RuntimeError ("Cannot process task in status: " +:+ str_status (_status self)))
  else
    _log_activity ("Processing task: " +:+ task);;
    let result := "Processed: " +:+ task +:+ " in domain: " +:+ _domain self in
    _log_activity ("Task completed: " +:+ result);;
    mret result.

Definition receive_information (sender_id information : string) : M t bool :=
  self ← get;
  if bool_decide (_status self ≠ ACTIVE)
  then
    _log_activity ("Rejected inbound information - status: " +:+ str_status (_status self));;
    mret false
  else
    is_valid ← lift_outcome
      (TrustProfile.validate_inbound (_trust_profile self) sender_id information);
    if is_valid : bool
    then
      now ← utcnow;
      local_state_setitem ("received_" +:+ str_timestamp now) information;;
      _log_activity ("Accepted information from: " +:+ sender_id);;
      mret true
    else
      _log_activity ("Rejected information from: " +:+ sender_id
                     +:+ " - trust validation failed");;
      mret false.

Definition send_information (recipient_id information : string) : M t bool :=
  self ← get;
  if bool_decide (_status self ≠ ACTIVE)
  then
    _log_activity ("Cannot send information - status: " +:+ str_status (_status self));;
    mret false
  else
    _log_activity ("Sending information to: " +:+ recipient_id +:+ " (SL: "
                   +:+ str_security_level (TrustProfile.security_level (_trust_profile self))
                   +:+ ")");;
    mret true.

Definition complete_mission : M t unit :=
  self ← get;
  if bool_decide (_status self ≠ ACTIVE) && bool_decide (_status self ≠ PAUSED)
  then raise (RuntimeError ("Cannot complete mission from status: " +:+ str_status (_status self)))
  else
    set_status COMPLETED;;
    _log_activity "Mission completed".

Definition retire : M t unit :=
  self ← get;
  if bool_decide (_status self = RETIRED)
  then mret tt
  else
    set_status RETIRED;;
    _log_activity "SubAgent retired";;
    local_state_clear.

Definition get_activity_log (self : t) : list LogEntry := _activity_log self.

Definition get_state_snapshot (self : t) : gmap string string := _local_state self.

End SubAgent.

(** ** front_line_agent.py *)

(** [try: body except Exception as e: handler(e)]. *)
Definition try_except {S A} (body : M S A) (handler : exn -> M S A) : M S A :=
  fun s k =>
    match body s k with
    | (Return a, s', k') => (Return a, s', k')
    | (Raise e, s', k') => handler e s' k'
    end.

(** [str(e)] for an exception. *)
Definition str_exn (e : exn) : string :=
  match e with
  | RuntimeError msg => msg
  | StatisticsError msg => msg
  | OverflowError msg => msg
  end.

Module FrontLineAgent.

(** [_active_sub_agents] holds the SubAgent objects the agent registered,
    each under its own id: the entry under a key is the current state of
    that object, and two keys never share an object. *)
Record t : Type := Mk {
  _id : string;
  _default_trust_profile : TrustProfile.t;
  _active_sub_agents : gmap string SubAgent.t;
  _communication_authorizations : list CommunicationAuthorization.t;
  _event_log : list LogEntry
}.

Definition set_active_sub_agents (agents : gmap string SubAgent.t) : M t unit :=
  modify (fun self =>
    Mk (_id self) (_default_trust_profile self) agents
       (_communication_authorizations self) (_event_log self)).

Definition set_communication_authorizations
    (auths : list CommunicationAuthorization.t) : M t unit :=
  modify (fun self =>
    Mk (_id self) (_default_trust_profile self) (_active_sub_agents self)
       auths (_event_log self)).

Definition _log_event (event_description : string) : M t unit :=
  now ← utcnow;
  modify (fun self =>
    Mk (_id self) (_default_trust_profile self) (_active_sub_agents self)
       (_communication_authorizations self)
       (_event_log self
          ++ [MkLogEntry now ("[FLA-" +:+ _id self +:+ "] " +:+ event_description)])).

(** A method call [obj.m(...)] on the SubAgent object registered under
    [agent_id], whose current state is [obj]: the call mutates the object
    in place, so the registry entry changes with it, also when it raises.
    The call returns the method's result with the object as it is left. *)
Definition call {A} (agent_id : string) (obj : SubAgent.t) (m : M SubAgent.t A)
    : M t (A * SubAgent.t) :=
  fun self k =>
    let '(r, obj', k') := m obj k in
    let self' :=
      Mk (_id self) (_default_trust_profile self)
         (<[agent_id := obj']> (_active_sub_agents self))
         (_communication_authorizations self) (_event_log self) in
    match r with
    | Return a => (Return (a, obj'), self', k')
    | Raise e => (Raise e, self', k')
    end.

Definition new {S} (agent_id : string) (default_trust_profile : TrustProfile.t) : M S t :=
  now ← utcnow;
  mret (Mk agent_id default_trust_profile ∅ []
          [MkLogEntry now ("[FLA-" +:+ agent_id +:+ "] " +:+ "FLA created: " +:+ agent_id)]).

Definition classify_domain (user_intent : string) : M t string :=
  _log_event ("Classifying domain for intent: " +:+ user_intent);;
  let intent := lower user_intent in
  if contains "data" intent || contains "analyze" intent then mret "DataAnalysis"%string
  else if contains "code" intent || contains "program" intent then mret "CodeGeneration"%string
  else if contains "security" intent || contains "audit" intent then mret "SecurityAudit"%string
  else if contains "research" intent || contains "find" intent then mret "Research"%string
  else mret "General"%string.

(** [uuid_hex] is what [uuid4().hex] answers for this call. *)
Definition create_sub_agent (uuid_hex : string) (domain : string)
    (trust_profile : option TrustProfile.t) : M t SubAgent.t :=
  self ← get;
  let agent_id := "SA-" +:+ domain +:+ "-" +:+ uuid_hex in
  let profile := default (_default_trust_profile self) trust_profile in
  sub_agent ← SubAgent.new agent_id domain profile;
  set_active_sub_agents (<[agent_id := sub_agent]> (_active_sub_agents self));;
  started ← call agent_id sub_agent SubAgent.start_mission;
  _log_event ("Created and started SubAgent: " +:+ agent_id +:+ " for domain: " +:+ domain);;
  mret started.2.

Definition reactivate_sub_agent (agent_id : string) : M t (option SubAgent.t) :=
  self ← get;
  let agent := _active_sub_agents self !! agent_id in
  match agent with
  | Some _ => _log_event ("Reactivated SubAgent: " +:+ agent_id)
  | None => _log_event ("Failed to reactivate SubAgent: " +:+ agent_id +:+ " - not found")
  end;;
  mret agent.

Definition authorize_communication (from_agent_id to_agent_id : string)
    (is_bidirectional : bool) (allowed_data_scopes : option (list string))
    (ttl : option Z) : M t unit :=
  let scopes :=
    match allowed_data_scopes with
    | Some (s :: l) => Some (s :: l)
    | _ => None
    end in
  authorization ← CommunicationAuthorization.create
    from_agent_id to_agent_id is_bidirectional scopes ttl;
  self ← get;
  set_communication_authorizations (_communication_authorizations self ++ [authorization]);;
  _log_event ("Authorized communication: " +:+ from_agent_id +:+ " -> " +:+ to_agent_id
              +:+ " (bidirectional: " +:+ str_bool is_bidirectional +:+ ")").

(** [next((auth for auth in auths if auth.is_authorized(from, to)), None)]:
    the grants are asked in order and the scan stops at the first that
    answers true. *)
Fixpoint next_authorized {S} (auths : list CommunicationAuthorization.t)
    (from_agent_id to_agent_id : string) : M S (option CommunicationAuthorization.t) :=
  match auths with
  | [] => mret None
  | auth :: rest =>
      ok ← CommunicationAuthorization.is_authorized auth from_agent_id to_agent_id;
      if ok : bool then mret (Some auth)
      else next_authorized rest from_agent_id to_agent_id
  end.

Definition mediate_communication (from_agent_id to_agent_id information : string)
    : M t bool :=
  self ← get;
  authorization ← next_authorized (_communication_authorizations self)
                    from_agent_id to_agent_id;
  match authorization with
  | None =>
      _log_event ("Communication blocked: " +:+ from_agent_id +:+ " -> " +:+ to_agent_id
                  +:+ " - not authorized");;
      mret false
  | Some _ =>
      match _active_sub_agents self !! from_agent_id with
      | None =>
          _log_event ("Communication failed: sender " +:+ from_agent_id +:+ " not found");;
          mret false
      | Some sender =>
          match _active_sub_agents self !! to_agent_id with
          | None =>
              _log_event ("Communication failed: receiver " +:+ to_agent_id
                          +:+ " not found");;
              mret false
          | Some receiver =>
              sent ← call from_agent_id sender
                       (SubAgent.send_information to_agent_id information);
              let '(sent_success, sender') := sent in
              if negb sent_success
              then
                _log_event "Communication failed: sender rejected outbound";;
                mret false
              else
                (* one object under one key: when both ids are the same the
                   receiver is the sender, as the send left it *)
                let receiver :=
                  if decide (from_agent_id = to_agent_id) then sender' else receiver in
                received ← call to_agent_id receiver
                             (SubAgent.receive_information from_agent_id information);
                let receive_success := received.1 in
                _log_event ("Communication mediated: " +:+ from_agent_id +:+ " -> "
                            +:+ to_agent_id +:+ " - success: " +:+ str_bool receive_success);;
                mret receive_success
          end
      end
  end.

(** Python returns [None]; the model also returns the retired object as
    the call leaves it ([None] when the id is unknown), which is what a
    caller still holding a reference to it observes. *)
Definition retire_sub_agent (agent_id : string) : M t (option SubAgent.t) :=
  self ← get;
  match _active_sub_agents self !! agent_id with
  | Some agent =>
      retired ← call agent_id agent SubAgent.retire;
      self ← get;
      set_active_sub_agents (delete agent_id (_active_sub_agents self));;
      set_communication_authorizations
        (List.filter
           (fun auth =>
              bool_decide (CommunicationAuthorization.from_agent_id auth ≠ agent_id)
              && bool_decide (CommunicationAuthorization.to_agent_id auth ≠ agent_id))
           (_communication_authorizations self));;
      _log_event ("Retired SubAgent: " +:+ agent_id);;
      mret (Some retired.2)
  | None => mret None
  end.

Definition process_user_task (uuid_hex : string) (user_intent task_details : string)
    : M t string :=
  _log_event ("Processing user task: " +:+ user_intent);;
  domain ← classify_domain user_intent;
  sub_agent ← create_sub_agent uuid_hex domain None;
  try_except
    (processed ← call (SubAgent._id sub_agent) sub_agent (SubAgent.process_task task_details);
     let '(result, sub_agent) := processed in
     call (SubAgent._id sub_agent) sub_agent SubAgent.complete_mission;;
     mret result)
    (fun e =>
       _log_event ("Task processing failed: " +:+ str_exn e);;
       raise e).

Definition get_active_sub_agents (self : t) : gmap string SubAgent.t :=
  _active_sub_agents self.

Definition get_event_log (self : t) : list LogEntry := _event_log self.

End FrontLineAgent.

(** * Specification vocabulary *)

(** The words of the design document: the arithmetic mean of a score
    sequence, the scores each evaluator gives, and the number of scores
    within a tolerance of a centre. *)
Definition arithmetic_mean (scores : list Q) : Q :=
  (Qsum scores / inject_Z (Z.of_nat (length scores)))%Q.

Definition sender_scores (brokers : list ITrustBroker.t) (sender_id : string) : list Q :=
  map (fun b => ITrustBroker.evaluate_sender_trust b sender_id) brokers.

Definition content_scores (brokers : list ITrustBroker.t) (content : string) : list Q :=
  map (fun b => ITrustBroker.evaluate_content_trust b content) brokers.

Fixpoint count_within (tolerance centre : Q) (scores : list Q) : nat :=
  match scores with
  | [] => 0%nat
  | e :: rest =>
      ((if Qlt_le_dec tolerance (Qabs (e - centre)) then 0 else 1)
       + count_within tolerance centre rest)%nat
  end.

Definition in_unit (x : Q) : Prop := (0 <= x <= 1)%Q.

(** The same words over binary64 scores: the scores each evaluator gives,
    the mean as [statistics.mean] rounds it, and the number of scores whose
    rounded distance from a centre is within a tolerance. *)
Definition binary64_sender_scores (brokers : list Binary64.ITrustBroker.t)
    (sender_id : string) : list PrimFloat.float :=
  map (fun b => Binary64.ITrustBroker.evaluate_sender_trust b sender_id) brokers.

Definition binary64_content_scores (brokers : list Binary64.ITrustBroker.t)
    (content : string) : list PrimFloat.float :=
  map (fun b => Binary64.ITrustBroker.evaluate_content_trust b content) brokers.

Definition rounded_mean (scores : list PrimFloat.float) : PrimFloat.float :=
  match Binary64.mean scores with
  | Return avg => avg
  | Raise _ => PrimFloat.zero
  end.

Fixpoint binary64_count_within (tolerance centre : PrimFloat.float)
    (scores : list PrimFloat.float) : nat :=
  match scores with
  | [] => 0%nat
  | e :: rest =>
      ((if PrimFloat.leb (PrimFloat.abs (PrimFloat.sub e centre)) tolerance then 1 else 0)
       + binary64_count_within tolerance centre rest)%nat
  end.

(** The rational number a binary64 score stands for (0 for a nan or an
    infinity, which stand for none). *)
Definition exact_value (x : PrimFloat.float) : Q :=
  match Binary64.exact_ratio x with
  | Some (n, e) => if 0 <=? e then inject_Z (n * 2 ^ e) else n # Z.to_pos (2 ^ (- e))
  | None => 0
  end.

(** The acceptance rule read in exact arithmetic over the scores as they
    are: enough evaluators, no flag, in each sequence enough scores within
    the tolerance of the arithmetic mean, and both means at or above the
    required threshold. *)
Definition exact_rule (p : Binary64.TrustProfile.t) (sender_id content : string) : Prop :=
  let brokers := Binary64.TrustProfile.trust_brokers p in
  let count := Binary64.TrustProfile.minimum_broker_agreement p in
  let tolerance := exact_value (Binary64.TrustProfile.agreement_tolerance p) in
  let threshold := Binary64.TrustProfile.required_trust_threshold p in
  let senders := map exact_value (binary64_sender_scores brokers sender_id) in
  let contents := map exact_value (binary64_content_scores brokers content) in
  count <= Z.of_nat (length brokers)
  /\ (forall b, b ∈ brokers -> Binary64.ITrustBroker.is_flagged b sender_id content = false)
  /\ count <= Z.of_nat (count_within tolerance (arithmetic_mean senders) senders)
  /\ count <= Z.of_nat (count_within tolerance (arithmetic_mean contents) contents)
  /\ (exact_value (Binary64.TrustLevel.sender_trust threshold) <= arithmetic_mean senders)%Q
  /\ (exact_value (Binary64.TrustLevel.content_trust threshold)
      <= arithmetic_mean contents)%Q.

(** An evaluator that answers fixed binary64 scores and never flags. *)
Definition binary64_broker (id : string) (sender content : PrimFloat.float)
    : Binary64.ITrustBroker.t :=
  Binary64.ITrustBroker.Mk id id (fun _ => sender) (fun _ => content) (fun _ _ => false).

Section Binary64Profiles.

Import PrimFloat.

(** Sender trust 0.3 and 0.5 under a tolerance of 0.1 and a threshold of
    (0, 0): both scores are at the distance 0.1 of their mean exactly, and
    at a rounded distance above it for the first. *)
Definition edge_profile : Binary64.TrustProfile.t :=
  Binary64.TrustProfile.init PUBLIC (Binary64.TrustLevel.init 0x0p+0%float 0x0p+0%float)
    [binary64_broker "a" 0x1.3333333333333p-2%float 0x1p-1%float;
     binary64_broker "b" 0x1p-1%float 0x1p-1%float]
    2 0x1.999999999999ap-4%float.

(** Sender trust -0.5 twice, outside the documented range, against a
    required sender trust of 0. *)
Definition negative_profile : Binary64.TrustProfile.t :=
  Binary64.TrustProfile.init PUBLIC (Binary64.TrustLevel.init 0x0p+0%float 0x0p+0%float)
    [binary64_broker "a" (-0x1p-1)%float 0x1p-1%float;
     binary64_broker "b" (-0x1p-1)%float 0x1p-1%float]
    2 0x1.999999999999ap-4%float.

(** Sender trust 0.5 and 0.49999999999999994 against a required sender
    trust of 0.5: the mean is below 0.5 and rounds to it. *)
Definition tie_profile : Binary64.TrustProfile.t :=
  Binary64.TrustProfile.init PUBLIC (Binary64.TrustLevel.init 0x1p-1%float 0x1p-1%float)
    [binary64_broker "a" 0x1p-1%float 0x1p-1%float;
     binary64_broker "b" 0x1.fffffffffffffp-2%float 0x1p-1%float]
    2 0x1.999999999999ap-4%float.

(** The convergent set-up over binary64 scores: sender trust 0.8, 0.82,
    0.79, content trust 0.75, 0.77, 0.76, tolerance 0.1, agreement count
    2, threshold (0.6, 0.6). *)
Definition binary64_convergent_profile : Binary64.TrustProfile.t :=
  Binary64.TrustProfile.init INTERNAL
    (Binary64.TrustLevel.init 0x1.3333333333333p-1%float 0x1.3333333333333p-1%float)
    [binary64_broker "TB-001" 0x1.999999999999ap-1%float 0x1.8p-1%float;
     binary64_broker "TB-002" 0x1.a3d70a3d70a3dp-1%float 0x1.8a3d70a3d70a4p-1%float;
     binary64_broker "TB-003" 0x1.947ae147ae148p-1%float 0x1.851eb851eb852p-1%float]
    2 0x1.999999999999ap-4%float.

End Binary64Profiles.

(** An evaluator that answers fixed scores and a fixed flag. *)
Definition fixed_broker (id : string) (sender content : Q) (flagged : bool) : ITrustBroker.t :=
  ITrustBroker.Mk id id (fun _ => sender) (fun _ => content) (fun _ _ => flagged).

(** The "convergent acceptance" set-up of the design document: three
    evaluators with sender trust 0.8, 0.82, 0.79 and content trust 0.75,
    0.77, 0.76, tolerance 0.1, agreement count 2, threshold (0.6, 0.6). *)
Definition convergent_brokers : list ITrustBroker.t :=
  [fixed_broker "TB-001" (80 # 100) (75 # 100) false;
   fixed_broker "TB-002" (82 # 100) (77 # 100) false;
   fixed_broker "TB-003" (79 # 100) (76 # 100) false].

Definition convergent_profile : TrustProfile.t :=
  TrustProfile.init INTERNAL (TrustLevel.init (6 # 10) (6 # 10)) convergent_brokers 2 (1 # 10).

(** The same evaluators, the second of which flags every message. *)
Definition vetoed_brokers : list ITrustBroker.t :=
  [fixed_broker "TB-001" (80 # 100) (75 # 100) false;
   fixed_broker "TB-002" (82 # 100) (77 # 100) true;
   fixed_broker "TB-003" (79 # 100) (76 # 100) false].

(** The "agreement floor" set-up of the design document: sender trust
    0.9, 0.1, 0.5 around a mean of 0.5, tolerance 0.1, agreement count 2. *)
Definition divergent_brokers : list ITrustBroker.t :=
  [fixed_broker "TB-001" (9 # 10) (7 # 10) false;
   fixed_broker "TB-002" (1 # 10) (7 # 10) false;
   fixed_broker "TB-003" (5 # 10) (7 # 10) false].

(** The evaluators and the profile that demo.py sets up. *)
Definition demo_broker1 : SimpleTrustBroker.t :=
  SimpleTrustBroker.flag_sender
    (SimpleTrustBroker.set_sender_reputation
       (SimpleTrustBroker.init "TB-001" "Trust Broker Alpha" (7 # 10))
       "sender-reliable" (9 # 10))
    "sender-malicious".

Definition demo_broker2 : SimpleTrustBroker.t :=
  SimpleTrustBroker.set_sender_reputation
    (SimpleTrustBroker.init "TB-002" "Trust Broker Beta" (75 # 100))
    "sender-reliable" (85 # 100).

Definition demo_broker3 : SimpleTrustBroker.t :=
  SimpleTrustBroker.set_sender_reputation
    (SimpleTrustBroker.init "TB-003" "Trust Broker Gamma" (8 # 10))
    "sender-reliable" (88 # 100).

Definition demo_profile : TrustProfile.t :=
  TrustProfile.init INTERNAL (TrustLevel.init (6 # 10) (6 # 10))
    [SimpleTrustBroker.as_broker demo_broker1;
     SimpleTrustBroker.as_broker demo_broker2;
     SimpleTrustBroker.as_broker demo_broker3]
    2 (15 # 100).

(** The state a [SimpleTrustBroker] keeps through its constructor and its
    administrative calls: baseline and reputations within [0, 1]. *)
Definition broker_wf (b : SimpleTrustBroker.t) : Prop :=
  in_unit (SimpleTrustBroker._baseline_trust b)
  /\ forall sender_id q,
       SimpleTrustBroker._sender_reputations b !! sender_id = Some q -> in_unit q.

(** A front line agent as [FrontLineAgent("FLA-001", profile)] leaves it,
    its creation entry stamped 0. *)
Definition demo_fla : FrontLineAgent.t :=
  FrontLineAgent.Mk "FLA-001" demo_profile ∅ []
    [MkLogEntry 0 "[FLA-FLA-001] FLA created: FLA-001"].

(** Two units are created, communication from the first to the second is
    authorized with [ttl], and a message is mediated along the grant. *)
Definition grant_session (ttl : option Z) : M FrontLineAgent.t bool :=
  research ← FrontLineAgent.create_sub_agent "0a" "Research" None;
  analysis ← FrontLineAgent.create_sub_agent "0b" "Analysis" None;
  FrontLineAgent.authorize_communication (SubAgent._id research) (SubAgent._id analysis)
    false None ttl;;
  FrontLineAgent.mediate_communication (SubAgent._id research) (SubAgent._id analysis)
    "Research findings: market trends are positive".

(** A session that meets every outcome of a mediation: no grant, a
    delivery, the reverse of a one-way grant, an unknown receiver, an
    unknown sender, a message the receiver's evaluators flag, and a
    mediation after the sender was retired. *)
Definition mediation_session : M FrontLineAgent.t (list bool) :=
  research ← FrontLineAgent.create_sub_agent "0a" "Research" None;
  analysis ← FrontLineAgent.create_sub_agent "0b" "Analysis" None;
  let a := SubAgent._id research in
  let b := SubAgent._id analysis in
  r1 ← FrontLineAgent.mediate_communication a b "findings";
  FrontLineAgent.authorize_communication a b false None None;;
  r2 ← FrontLineAgent.mediate_communication a b "findings";
  r3 ← FrontLineAgent.mediate_communication b a "findings";
  FrontLineAgent.authorize_communication a "SA-Ghost" true None None;;
  r4 ← FrontLineAgent.mediate_communication a "SA-Ghost" "findings";
  r5 ← FrontLineAgent.mediate_communication "SA-Ghost" a "findings";
  r6 ← FrontLineAgent.mediate_communication a b "a malicious payload";
  FrontLineAgent.retire_sub_agent a;;
  r7 ← FrontLineAgent.mediate_communication a b "findings";
  r8 ← FrontLineAgent.mediate_communication b a "findings";
  mret [r1; r2; r3; r4; r5; r6; r7; r8].

(** The direction test of [is_authorized], on its own. *)
Definition direction_matches (g : CommunicationAuthorization.t) (from_id to_id : string) : bool :=
  (bool_decide (CommunicationAuthorization.from_agent_id g = from_id)
   && bool_decide (CommunicationAuthorization.to_agent_id g = to_id))
  || (CommunicationAuthorization.is_bidirectional g
      && bool_decide (CommunicationAuthorization.from_agent_id g = to_id)
      && bool_decide (CommunicationAuthorization.to_agent_id g = from_id)).

(** Whether a grant answers true when it is asked at the instant [now]. *)
Definition authorized_at (g : CommunicationAuthorization.t) (from_id to_id : string)
    (now : Z) : bool :=
  negb (match CommunicationAuthorization.expires_at g with
        | Some e => e <? now
        | None => false
        end)
  && direction_matches g from_id to_id.

(** Asking a grant reads the clock once when the grant has an expiry. *)
Definition clock_reads (g : CommunicationAuthorization.t) : nat :=
  match CommunicationAuthorization.expires_at g with
  | Some _ => 1
  | None => 0
  end.

(** The instant at which the grant at position [i] is asked, when the scan
    starts on clock [k] and reaches it. *)
Definition ask_time (auths : list CommunicationAuthorization.t) (k : Clock) (i : nat) : Z :=
  ticks k (reads k + sum_list (clock_reads <$> take i auths)).

(** [g] is the first stored grant, in insertion order, that matches
    (from, to) when asked. *)
Definition first_match (auths : list CommunicationAuthorization.t)
    (from_id to_id : string) (k : Clock) (g : CommunicationAuthorization.t) : Prop :=
  exists i : nat,
    auths !! i = Some g
    /\ authorized_at g from_id to_id (ask_time auths k i) = true
    /\ forall (j : nat) g', (j < i)%nat -> auths !! j = Some g' ->
         authorized_at g' from_id to_id (ask_time auths k j) = false.

(** No stored grant matches (from, to) when asked. *)
Definition no_match (auths : list CommunicationAuthorization.t)
    (from_id to_id : string) (k : Clock) : Prop :=
  forall (i : nat) g, auths !! i = Some g ->
    authorized_at g from_id to_id (ask_time auths k i) = false.

(** The event log of [fla'] is that of [fla] with one more entry, whose
    text is [description] under the agent's scope tag. *)
Definition logged (fla fla' : FrontLineAgent.t) (description : string) : Prop :=
  exists stamp : Z,
    FrontLineAgent._event_log fla'
    = FrontLineAgent._event_log fla
      ++ [MkLogEntry stamp ("[FLA-" +:+ FrontLineAgent._id fla +:+ "] " +:+ description)].

(** The calls a client can make on a front line agent. *)
Inductive operation : Type :=
| ClassifyDomain (user_intent : string)
| CreateSubAgent (uuid_hex domain : string) (trust_profile : option TrustProfile.t)
| ReactivateSubAgent (agent_id : string)
| AuthorizeCommunication (from_agent_id to_agent_id : string) (is_bidirectional : bool)
    (allowed_data_scopes : option (list string)) (ttl : option Z)
| MediateCommunication (from_agent_id to_agent_id information : string)
| RetireSubAgent (agent_id : string)
| ProcessUserTask (uuid_hex user_intent task_details : string).

(** One call, its result dropped. *)
Definition perform (op : operation) : M FrontLineAgent.t unit :=
  match op with
  | ClassifyDomain user_intent =>
      FrontLineAgent.classify_domain user_intent;; mret tt
  | CreateSubAgent uuid_hex domain trust_profile =>
      FrontLineAgent.create_sub_agent uuid_hex domain trust_profile;; mret tt
  | ReactivateSubAgent agent_id =>
      FrontLineAgent.reactivate_sub_agent agent_id;; mret tt
  | AuthorizeCommunication from_agent_id to_agent_id is_bidirectional scopes ttl =>
      FrontLineAgent.authorize_communication from_agent_id to_agent_id is_bidirectional
        scopes ttl
  | MediateCommunication from_agent_id to_agent_id information =>
      FrontLineAgent.mediate_communication from_agent_id to_agent_id information;; mret tt
  | RetireSubAgent agent_id =>
      FrontLineAgent.retire_sub_agent agent_id;; mret tt
  | ProcessUserTask uuid_hex user_intent task_details =>
      FrontLineAgent.process_user_task uuid_hex user_intent task_details;; mret tt
  end.

(** A client's session: the calls are made in order; one that raises
    leaves the agent as it was when the exception left it, and the client
    goes on. *)
Fixpoint session (ops : list operation) (fla : FrontLineAgent.t) (k : Clock)
    : FrontLineAgent.t * Clock :=
  match ops with
  | [] => (fla, k)
  | op :: rest =>
      let r := perform op fla k in
      session rest (state_of r) (clock_of r)
  end.

(** The id under which a call registers a new SubAgent, if it does. *)
Definition registered_id (op : operation) (fla : FrontLineAgent.t) (k : Clock)
    : option string :=
  match op with
  | CreateSubAgent uuid_hex domain _ => Some ("SA-" +:+ domain +:+ "-" +:+ uuid_hex)
  | ProcessUserTask uuid_hex user_intent _ =>
      match result_of (FrontLineAgent.classify_domain user_intent fla k) with
      | Return domain => Some ("SA-" +:+ domain +:+ "-" +:+ uuid_hex)
      | Raise _ => None
      end
  | _ => None
  end.

(** No call of the session registers a SubAgent under [agent_id]. *)
Fixpoint never_registers (agent_id : string) (ops : list operation)
    (fla : FrontLineAgent.t) (k : Clock) : Prop :=
  match ops with
  | [] => True
  | op :: rest =>
      registered_id op fla k <> Some agent_id
      /\ let r := perform op fla k in
         never_registers agent_id rest (state_of r) (clock_of r)
  end.

(** [m] keeps the property [P] of the receiver, whether it returns or
    raises. *)
Definition preserves {S A} (P : S -> Prop) (m : M S A) : Prop :=
  forall s k, P s -> P (state_of (m s k)).

(** No SubAgent is registered under [agent_id]. *)
Definition absent (agent_id : string) (fla : FrontLineAgent.t) : Prop :=
  FrontLineAgent._active_sub_agents fla !! agent_id = None.

(** The same profile with another required threshold. *)
Definition with_threshold (p : TrustProfile.t) (threshold : TrustLevel.t) : TrustProfile.t :=
  TrustProfile.Mk (TrustProfile.security_level p) threshold
    (TrustProfile.trust_brokers p) (TrustProfile.minimum_broker_agreement p)
    (TrustProfile.agreement_tolerance p).

(** The administrative calls of a [SimpleTrustBroker]. *)
Inductive admin_call : Type :=
| SetSenderReputation (sender_id : string) (reputation : Q)
| FlagSender (sender_id : string)
| UnflagSender (sender_id : string).

Definition administer (b : SimpleTrustBroker.t) (c : admin_call) : SimpleTrustBroker.t :=
  match c with
  | SetSenderReputation sender_id reputation =>
      SimpleTrustBroker.set_sender_reputation b sender_id reputation
  | FlagSender sender_id => SimpleTrustBroker.flag_sender b sender_id
  | UnflagSender sender_id => SimpleTrustBroker.unflag_sender b sender_id
  end.

(** A broker as its constructor and a sequence of administrative calls
    leave it. *)
Definition administered (broker_id name : string) (baseline : Q) (calls : list admin_call)
    : SimpleTrustBroker.t :=
  fold_left administer calls (SimpleTrustBroker.init broker_id name baseline).

(** The same profile with another tolerance, or another agreement count. *)
Definition with_tolerance (p : TrustProfile.t) (tolerance : Q) : TrustProfile.t :=
  TrustProfile.Mk (TrustProfile.security_level p) (TrustProfile.required_trust_threshold p)
    (TrustProfile.trust_brokers p) (TrustProfile.minimum_broker_agreement p) tolerance.

Definition with_agreement (p : TrustProfile.t) (count : Z) : TrustProfile.t :=
  TrustProfile.Mk (TrustProfile.security_level p) (TrustProfile.required_trust_threshold p)
    (TrustProfile.trust_brokers p) count (TrustProfile.agreement_tolerance p).

(** The same profile over other evaluators. *)
Definition with_brokers (p : TrustProfile.t) (brokers : list ITrustBroker.t) : TrustProfile.t :=
  TrustProfile.Mk (TrustProfile.security_level p) (TrustProfile.required_trust_threshold p)
    brokers (TrustProfile.minimum_broker_agreement p) (TrustProfile.agreement_tolerance p).

(** The methods a holder of a SubAgent can call. *)
Inductive agent_call : Type :=
| StartMission
| ProcessTask (task : string)
| ReceiveInformation (sender_id information : string)
| SendInformation (recipient_id information : string)
| CompleteMission
| Retire.

(** One method call, its result dropped. *)
Definition invoke (c : agent_call) : M SubAgent.t unit :=
  match c with
  | StartMission => SubAgent.start_mission
  | ProcessTask task => SubAgent.process_task task;; mret tt
  | ReceiveInformation sender_id information =>
      SubAgent.receive_information sender_id information;; mret tt
  | SendInformation recipient_id information =>
      SubAgent.send_information recipient_id information;; mret tt
  | CompleteMission => SubAgent.complete_mission
  | Retire => SubAgent.retire
  end.

(** The calls made in order on one SubAgent; a call that raises leaves the
    agent as it was when the exception left it, and the holder goes on. *)
Fixpoint agent_session (calls : list agent_call) (a : SubAgent.t) (k : Clock)
    : SubAgent.t * Clock :=
  match calls with
  | [] => (a, k)
  | c :: rest =>
      let r := invoke c a k in
      agent_session rest (state_of r) (clock_of r)
  end.

(** What no method of a SubAgent changes: its id, domain and trust
    profile stay, and its activity log only grows at the end. *)
Definition agent_frame (a a' : SubAgent.t) : Prop :=
  SubAgent._id a' = SubAgent._id a
  /\ SubAgent._domain a' = SubAgent._domain a
  /\ SubAgent._trust_profile a' = SubAgent._trust_profile a
  /\ SubAgent._activity_log a `prefix_of` SubAgent._activity_log a'.

(** The status changes the methods of a SubAgent make: [start_mission],
    [complete_mission] and [retire]. *)
Inductive lifecycle_step : MissionStatus -> MissionStatus -> Prop :=
| step_start : lifecycle_step CREATED ACTIVE
| step_complete : lifecycle_step ACTIVE COMPLETED
| step_complete_paused : lifecycle_step PAUSED COMPLETED
| step_retire status : status <> RETIRED -> lifecycle_step status RETIRED.

(** What no call on a front line agent changes: its id and default trust
    profile stay, and its event log only grows at the end. *)
Definition fla_frame (fla fla' : FrontLineAgent.t) : Prop :=
  FrontLineAgent._id fla' = FrontLineAgent._id fla
  /\ FrontLineAgent._default_trust_profile fla' = FrontLineAgent._default_trust_profile fla
  /\ FrontLineAgent._event_log fla `prefix_of` FrontLineAgent._event_log fla'.

(** A call of a client: on the front line agent, or on a unit the agent
    has registered.  The client holds the unit objects themselves
    ([create_sub_agent] and [reactivate_sub_agent] return them,
    [get_active_sub_agents] lists them), so a method it calls on a
    registered unit changes the entry of the registry.  A call on an
    object that is not registered does not touch the agent. *)
Inductive client_call : Type :=
| OnAgent (op : operation)
| OnUnit (agent_id : string) (c : agent_call).

Definition client_perform (c : client_call) : M FrontLineAgent.t unit :=
  match c with
  | OnAgent op => perform op
  | OnUnit agent_id c =>
      self ← get;
      match FrontLineAgent._active_sub_agents self !! agent_id with
      | Some unit => FrontLineAgent.call agent_id unit (invoke c);; mret tt
      | None => mret tt
      end
  end.

(** The calls of a client in order; one that raises leaves the agent and
    the units as they were when the exception left them. *)
Fixpoint client_session (calls : list client_call) (fla : FrontLineAgent.t) (k : Clock)
    : FrontLineAgent.t * Clock :=
  match calls with
  | [] => (fla, k)
  | c :: rest =>
      let r := client_perform c fla k in
      client_session rest (state_of r) (clock_of r)
  end.

(** The client never calls [retire] on a unit itself. *)
Definition no_direct_retire (calls : list client_call) : Prop :=
  Forall (fun c => match c with OnUnit _ Retire => False | _ => True end) calls.

(** The registry of a front line agent holds each unit under the unit's
    own id, which is ["SA-" + domain + "-" + suffix] for the unit's domain,
    and holds only units whose status is one of the [allowed] ones. *)
Definition registry_ok (allowed : MissionStatus -> Prop) (fla : FrontLineAgent.t) : Prop :=
  forall id a,
    FrontLineAgent._active_sub_agents fla !! id = Some a ->
    SubAgent._id a = id
    /\ (exists suffix, id = "SA-" +:+ SubAgent._domain a +:+ "-" +:+ suffix)
    /\ allowed (SubAgent._status a).

(** The same grant with other data scopes, and the same agent with other
    stored grants. *)
Definition with_scopes (g : CommunicationAuthorization.t) (scopes : list string)
    : CommunicationAuthorization.t :=
  CommunicationAuthorization.Mk
    (CommunicationAuthorization.from_agent_id g) (CommunicationAuthorization.to_agent_id g)
    (CommunicationAuthorization.is_bidirectional g) scopes
    (CommunicationAuthorization.created_at g) (CommunicationAuthorization.expires_at g).

Definition with_authorizations (fla : FrontLineAgent.t)
    (auths : list CommunicationAuthorization.t) : FrontLineAgent.t :=
  FrontLineAgent.Mk (FrontLineAgent._id fla) (FrontLineAgent._default_trust_profile fla)
    (FrontLineAgent._active_sub_agents fla) auths (FrontLineAgent._event_log fla).

(** A front line agent with two ACTIVE units and a COMPLETED one, all
    under the convergent profile. *)
Definition research_unit : SubAgent.t :=
  SubAgent.Mk "SA-Research-0a" "Research" convergent_profile ACTIVE ∅ [].

Definition analysis_unit : SubAgent.t :=
  SubAgent.Mk "SA-Analysis-0b" "Analysis" convergent_profile ACTIVE ∅ [].

Definition finished_unit : SubAgent.t :=
  SubAgent.Mk "SA-General-0c" "General" convergent_profile COMPLETED ∅ [].

Definition staffed_fla : FrontLineAgent.t :=
  FrontLineAgent.Mk "FLA-001" convergent_profile
    (<["SA-Research-0a" := research_unit]>
       (<["SA-Analysis-0b" := analysis_unit]>
          (<["SA-General-0c" := finished_unit]> ∅)))
    [] [].

(** [staffed_fla] with a bidirectional grant between the research unit
    and the completed unit that never expires. *)
Definition finished_grant_fla : FrontLineAgent.t :=
  with_authorizations staffed_fla
    [CommunicationAuthorization.Mk "SA-Research-0a" "SA-General-0c" true ["*"%string] 0 None].

(** [staffed_fla] with a one-way grant from the research unit to the
    analysis unit that never expires. *)
Definition granted_fla : FrontLineAgent.t :=
  with_authorizations staffed_fla
    [CommunicationAuthorization.Mk "SA-Research-0a" "SA-Analysis-0b" false ["*"%string] 0 None].

(** * Proof tactics *)

(** Unfolds the monad operations of a method run. *)
Ltac unfold_M :=
  unfold mbind, mret, M_bind, M_ret, bind, ret, raise, get, put, modify, utcnow,
    lift_outcome in *.

(** Unfolds the SubAgent methods down to the monad operations. *)
Ltac run_agent :=
  unfold SubAgent.start_mission, SubAgent.process_task, SubAgent.complete_mission,
    SubAgent.receive_information, SubAgent.send_information, SubAgent.retire,
    SubAgent._log_activity, SubAgent.set_status, SubAgent.local_state_setitem,
    SubAgent.local_state_clear;
  unfold_M.

(** Runs a SubAgent method on an agent whose status is known. *)
Ltac run_method := run_agent; cbn.

(** Case analysis on the status of [a]. *)
Ltac by_status a :=
  let E := fresh "E" in
  destruct (SubAgent._status a) eqn:E; cbn; rewrite ?E; done.

(** Unfolds the FrontLineAgent methods down to the monad operations. *)
Ltac run_fla :=
  unfold FrontLineAgent.classify_domain, FrontLineAgent.create_sub_agent,
    FrontLineAgent.reactivate_sub_agent, FrontLineAgent.authorize_communication,
    FrontLineAgent.mediate_communication, FrontLineAgent.retire_sub_agent,
    FrontLineAgent.process_user_task, FrontLineAgent.set_active_sub_agents,
    FrontLineAgent.set_communication_authorizations, FrontLineAgent._log_event,
    FrontLineAgent.call, CommunicationAuthorization.create, SubAgent.new, try_except;
  unfold_M; cbn beta.

(** * Properties *)

(** ** The consensus rule of [TrustProfile.validate_inbound] *)

Section Consensus.

Lemma evaluate_brokers_spec brokers sender_id content sts cts :
  TrustProfile.evaluate_brokers brokers sender_id content sts cts =
  if existsb (fun b => ITrustBroker.is_flagged b sender_id content) brokers
  then None
  else Some (sts ++ sender_scores brokers sender_id, cts ++ content_scores brokers content).
Proof.
  revert sts cts. induction brokers as [|b rest IH]; intros sts cts; simpl.
  - by rewrite !app_nil_r.
  - destruct (ITrustBroker.is_flagged b sender_id content); simpl; [done|].
    rewrite IH. destruct (existsb _ rest); [done|].
    by rewrite <- !app_assoc.
Qed.

Lemma existsb_flagged_false brokers sender_id content :
  existsb (fun b => ITrustBroker.is_flagged b sender_id content) brokers = false <->
  (forall b, b ∈ brokers -> ITrustBroker.is_flagged b sender_id content = false).
Proof.
  induction brokers as [|b rest IH]; simpl.
  - split; [intros _ b Hb; inversion Hb | done].
  - rewrite orb_false_iff, IH. split.
    + intros [Hb Hrest] b' Hin. apply elem_of_cons in Hin as [->|Hin]; auto.
    + intros H. split; [apply H; left | intros b' Hin; apply H; by right].
Qed.

Lemma within_tolerance_count tolerance centre scores :
  TrustProfile.within_tolerance tolerance centre scores
  = count_within tolerance centre scores.
Proof.
  unfold TrustProfile.within_tolerance.
  induction scores as [|e rest IH]; [done|].
  cbn [List.filter count_within].
  destruct (Qlt_le_dec tolerance (Qabs (e - centre))) as [Hlt|Hle].
  - destruct (Qle_bool (Qabs (e - centre)) tolerance) eqn:E; [|exact IH].
    apply Qle_bool_iff in E. exfalso. by apply (Qlt_not_le _ _ Hlt).
  - apply Qle_bool_iff in Hle. rewrite Hle. cbn [length]. by rewrite IH.
Qed.

Lemma mean_nonempty scores :
  scores <> [] -> mean scores = Return (arithmetic_mean scores).
Proof. by destruct scores. Qed.

Lemma has_independent_agreement_spec (p : TrustProfile.t) scores :
  (1 <= TrustProfile.minimum_broker_agreement p <= Z.of_nat (length scores)) ->
  TrustProfile._has_independent_agreement p scores
  = Return (TrustProfile.minimum_broker_agreement p
            <=? Z.of_nat (count_within (TrustProfile.agreement_tolerance p)
                            (arithmetic_mean scores) scores)).
Proof.
  intros [Hmin Hlen]. unfold TrustProfile._has_independent_agreement.
  destruct (Z.ltb_spec (Z.of_nat (length scores)) (TrustProfile.minimum_broker_agreement p));
    [lia|].
  rewrite mean_nonempty by (intros ->; simpl in *; lia).
  simpl. by rewrite within_tolerance_count.
Qed.

Lemma score_lengths brokers sender_id content :
  length (sender_scores brokers sender_id) = length brokers /\
  length (content_scores brokers content) = length brokers.
Proof. unfold sender_scores, content_scores. by rewrite !length_map. Qed.

(** What [validate_inbound] computes for a profile whose agreement count
    is positive, as one boolean; the evaluated means are clamped by the
    [TrustLevel] constructor. *)
Lemma validate_inbound_spec (p : TrustProfile.t) sender_id content :
  1 <= TrustProfile.minimum_broker_agreement p ->
  let brokers := TrustProfile.trust_brokers p in
  let ss := sender_scores brokers sender_id in
  let cs := content_scores brokers content in
  TrustProfile.validate_inbound p sender_id content =
  Return
    ((TrustProfile.minimum_broker_agreement p <=? Z.of_nat (length brokers))
     && negb (existsb (fun b => ITrustBroker.is_flagged b sender_id content) brokers)
     && (TrustProfile.minimum_broker_agreement p
         <=? Z.of_nat (count_within (TrustProfile.agreement_tolerance p)
                         (arithmetic_mean ss) ss))
     && (TrustProfile.minimum_broker_agreement p
         <=? Z.of_nat (count_within (TrustProfile.agreement_tolerance p)
                         (arithmetic_mean cs) cs))
     && TrustLevel.meets_threshold
          (TrustLevel.init (arithmetic_mean ss) (arithmetic_mean cs))
          (TrustProfile.required_trust_threshold p)).
Proof.
  intros Hmin brokers ss cs. unfold TrustProfile.validate_inbound.
  fold brokers.
  destruct (Z.ltb_spec (Z.of_nat (length brokers)) (TrustProfile.minimum_broker_agreement p))
    as [Hlt|Hge].
  { destruct (Z.leb_spec (TrustProfile.minimum_broker_agreement p) (Z.of_nat (length brokers)));
      [lia|done]. }
  destruct (Z.leb_spec (TrustProfile.minimum_broker_agreement p) (Z.of_nat (length brokers)));
    [|lia].
  rewrite evaluate_brokers_spec. fold ss cs.
  destruct (existsb _ brokers); [done|].
  cbn [app negb andb].
  destruct (score_lengths brokers sender_id content) as [Hls Hlc]. fold ss cs in Hls, Hlc.
  rewrite !has_independent_agreement_spec by lia.
  assert (ss <> []) by (intros E; rewrite E in Hls; simpl in Hls; lia).
  assert (cs <> []) by (intros E; rewrite E in Hlc; simpl in Hlc; lia).
  rewrite !mean_nonempty by done.
  cbn [mbind outcome_bind obind].
  destruct (_ <=? Z.of_nat (count_within _ (arithmetic_mean ss) ss)); [|done].
  cbn [negb andb].
  destruct (_ <=? Z.of_nat (count_within _ (arithmetic_mean cs) cs)); done.
Qed.

(** *** Rational arithmetic of the means *)

Lemma clamp01_in_unit x : in_unit (clamp01 x).
Proof.
  unfold in_unit, clamp01. split.
  - apply Q.le_max_l.
  - apply Q.max_lub; [discriminate | apply Q.le_min_l].
Qed.

Lemma clamp01_id x : in_unit x -> (clamp01 x == x)%Q.
Proof.
  intros [H0 H1]. unfold clamp01.
  rewrite (Q.min_r 1 x) by done. by apply Q.max_r.
Qed.

Lemma Qsum_bounds scores :
  Forall in_unit scores ->
  (0 <= Qsum scores <= inject_Z (Z.of_nat (length scores)))%Q.
Proof.
  induction 1 as [|x l [Hx0 Hx1] _ [IH0 IH1]]; cbn [Qsum fold_right length].
  - split; discriminate.
  - fold (Qsum l). split.
    + rewrite <- (Qplus_0_l 0). by apply Qplus_le_compat.
    + rewrite Nat2Z.inj_succ, <- Z.add_1_l, inject_Z_plus.
      by apply Qplus_le_compat.
Qed.

Lemma arithmetic_mean_in_unit scores :
  scores <> [] -> Forall in_unit scores -> in_unit (arithmetic_mean scores).
Proof.
  intros Hne Hall. destruct (Qsum_bounds scores Hall) as [H0 H1].
  assert (0 < inject_Z (Z.of_nat (length scores)))%Q as Hpos.
  { replace 0%Q with (inject_Z 0) by done. rewrite <- Zlt_Qlt.
    destruct scores; [done | simpl; lia]. }
  unfold arithmetic_mean, in_unit. split.
  - apply Qle_shift_div_l; [done|]. by rewrite Qmult_0_l.
  - apply Qle_shift_div_r; [done|]. by rewrite Qmult_1_l.
Qed.

Lemma Qle_bool_clamp01 a x :
  in_unit x -> Qle_bool a (clamp01 x) = true <-> (a <= x)%Q.
Proof. intros Hx. by rewrite Qle_bool_iff, (clamp01_id x Hx). Qed.

Lemma scores_in_unit brokers sender_id content :
  Forall ITrustBroker.in_range brokers ->
  Forall in_unit (sender_scores brokers sender_id) /\
  Forall in_unit (content_scores brokers content).
Proof.
  unfold sender_scores, content_scores.
  induction 1 as [|b l [Hs Hc] _ [IHs IHc]]; simpl; split; constructor; auto;
    [apply Hs | apply Hc].
Qed.

Lemma init_minimum_ge_2 sl thr brokers m tol :
  2 <= TrustProfile.minimum_broker_agreement (TrustProfile.init sl thr brokers m tol).
Proof.
  unfold TrustProfile.init, TrustProfile.DEFAULT_MINIMUM_BROKER_AGREEMENT.
  cbn [TrustProfile.minimum_broker_agreement].
  destruct (Z.ltb_spec m 2); lia.
Qed.

(** Outside the documented score range the [TrustLevel] constructor's clamp
    shows: two evaluators that answer a sender trust of -1/2 are accepted
    against a required sender trust of 0, which their mean does not reach. *)
Example clamp_outside_range :
  let brokers := [fixed_broker "a" (-1 # 2) (1 # 2) false;
                  fixed_broker "b" (-1 # 2) (1 # 2) false] in
  TrustProfile.validate_inbound
    (TrustProfile.init PUBLIC (TrustLevel.init 0 0) brokers 2 (1 # 10)) "s" "c"
  = Return true
  /\ ~ (0 <= arithmetic_mean (sender_scores brokers "s"))%Q.
Proof. split; [by vm_compute | by vm_compute]. Qed.

(** C2. Veto dominance: when some configured evaluator flags the message,
    [validate_inbound] returns false, whatever scores the evaluators give
    and whatever the profile's threshold, tolerance and agreement count. *)
Theorem veto_dominance (p : TrustProfile.t) (sender_id content : string) :
  (exists b, b ∈ TrustProfile.trust_brokers p
             /\ ITrustBroker.is_flagged b sender_id content = true) ->
  TrustProfile.validate_inbound p sender_id content = Return false.
Proof.
  intros (b & Hin & Hflag). unfold TrustProfile.validate_inbound.
  destruct (_ <? _); [done|].
  rewrite evaluate_brokers_spec.
  destruct (existsb _ (TrustProfile.trust_brokers p)) eqn:E; [done|].
  rewrite existsb_flagged_false in E. rewrite (E b Hin) in Hflag. discriminate.
Qed.

Lemma veto_dominance_witness :
  TrustProfile.validate_inbound
    (TrustProfile.init INTERNAL (TrustLevel.init (6 # 10) (6 # 10)) vetoed_brokers 2 (1 # 10))
    "sender" "content"
  = Return false.
Proof.
  apply veto_dominance.
  exists (fixed_broker "TB-002" (82 # 100) (77 # 100) true).
  split; [|reflexivity].
  cbn [TrustProfile.init TrustProfile.trust_brokers vetoed_brokers].
  apply list_elem_of_further, list_elem_of_here.
Defined.

Lemma meets_threshold_antitone (evaluated T T' : TrustLevel.t) :
  (TrustLevel.sender_trust T <= TrustLevel.sender_trust T')%Q ->
  (TrustLevel.content_trust T <= TrustLevel.content_trust T')%Q ->
  TrustLevel.meets_threshold evaluated T' = true ->
  TrustLevel.meets_threshold evaluated T = true.
Proof.
  unfold TrustLevel.meets_threshold. rewrite !andb_true_iff, !Qle_bool_iff.
  intros Hs Hc [Hs' Hc']. split; eapply Qle_trans; eauto.
Qed.

Lemma agreement_with_threshold (p : TrustProfile.t) (T : TrustLevel.t) scores :
  TrustProfile._has_independent_agreement (with_threshold p T) scores
  = TrustProfile._has_independent_agreement p scores.
Proof. reflexivity. Qed.

(** C9. Threshold monotonicity: for the same evaluators, agreement count
    and tolerance, a message accepted under a required threshold [T'] is
    accepted under every threshold [T] that is pointwise below [T']; so
    raising the threshold never turns a reject into an accept. *)
Theorem threshold_monotone (p : TrustProfile.t) (T T' : TrustLevel.t)
    (sender_id content : string) :
  (TrustLevel.sender_trust T <= TrustLevel.sender_trust T')%Q ->
  (TrustLevel.content_trust T <= TrustLevel.content_trust T')%Q ->
  TrustProfile.validate_inbound (with_threshold p T') sender_id content = Return true ->
  TrustProfile.validate_inbound (with_threshold p T) sender_id content = Return true.
Proof.
  intros Hs Hc. unfold TrustProfile.validate_inbound.
  change (TrustProfile.trust_brokers (with_threshold p T'))
    with (TrustProfile.trust_brokers p).
  change (TrustProfile.trust_brokers (with_threshold p T))
    with (TrustProfile.trust_brokers p).
  change (TrustProfile.minimum_broker_agreement (with_threshold p T'))
    with (TrustProfile.minimum_broker_agreement p).
  change (TrustProfile.minimum_broker_agreement (with_threshold p T))
    with (TrustProfile.minimum_broker_agreement p).
  change (TrustProfile.required_trust_threshold (with_threshold p T')) with T'.
  change (TrustProfile.required_trust_threshold (with_threshold p T)) with T.
  destruct (_ <? _); [done|].
  destruct (TrustProfile.evaluate_brokers _ _ _ _ _) as [[sts cts]|]; [|done].
  rewrite !agreement_with_threshold.
  destruct (TrustProfile._has_independent_agreement p sts) as [[|]|e]; [|done|done].
  destruct (TrustProfile._has_independent_agreement p cts) as [[|]|e]; [|done|done].
  cbn [mbind outcome_bind obind negb].
  destruct (mean sts) as [avg_s|e]; [|done].
  destruct (mean cts) as [avg_c|e]; [|done].
  cbn [mbind outcome_bind obind].
  intros [= Hm]. f_equal. by apply (meets_threshold_antitone _ T T').
Qed.

Lemma threshold_monotone_witness :
  TrustProfile.validate_inbound
    (with_threshold convergent_profile (TrustLevel.init (5 # 10) (4 # 10)))
    "sender" "content"
  = Return true.
Proof.
  apply (threshold_monotone convergent_profile
           (TrustLevel.init (5 # 10) (4 # 10)) (TrustLevel.init (6 # 10) (6 # 10))).
  - vm_compute; discriminate.
  - vm_compute; discriminate.
  - vm_compute; reflexivity.
Defined.

(** *** The reference evaluator keeps to the score range *)

Lemma broker_wf_init broker_id name baseline :
  broker_wf (SimpleTrustBroker.init broker_id name baseline).
Proof.
  split; [apply clamp01_in_unit|]. intros sender_id q H. cbn in H.
  by rewrite lookup_empty in H.
Qed.

Lemma broker_wf_set_reputation b sender_id reputation :
  broker_wf b -> broker_wf (SimpleTrustBroker.set_sender_reputation b sender_id reputation).
Proof.
  intros [Hb Hr]. split; [done|]. intros s' q. cbn.
  destruct (decide (sender_id = s')) as [->|Hne].
  - rewrite lookup_insert_eq. intros [= <-]. apply clamp01_in_unit.
  - rewrite lookup_insert_ne by done. apply Hr.
Qed.

Lemma broker_wf_flag b sender_id :
  broker_wf b -> broker_wf (SimpleTrustBroker.flag_sender b sender_id).
Proof. by intros [Hb Hr]. Qed.

Lemma broker_wf_unflag b sender_id :
  broker_wf b -> broker_wf (SimpleTrustBroker.unflag_sender b sender_id).
Proof. by intros [Hb Hr]. Qed.

Lemma simple_broker_in_range b :
  broker_wf b -> ITrustBroker.in_range (SimpleTrustBroker.as_broker b).
Proof.
  intros [Hb Hr]. split; cbn.
  - intros sender_id. unfold SimpleTrustBroker.evaluate_sender_trust.
    destruct (_ !! sender_id) as [q|] eqn:E; cbn; [by apply (Hr sender_id) | done].
  - intros content. apply clamp01_in_unit.
Qed.

(** demo.py, test 1: a reliable sender with verified content is accepted;
    test 2: the sender flagged by one evaluator is rejected. *)
Example demo_reliable_sender_accepted :
  TrustProfile.validate_inbound demo_profile "sender-reliable"
    "This is verified research data from a trusted source" = Return true.
Proof. by vm_compute. Qed.

Example demo_flagged_sender_rejected :
  TrustProfile.validate_inbound demo_profile "sender-malicious" "This is some data"
  = Return false.
Proof. by vm_compute. Qed.

(** The agreement floor: evaluators that disagree are rejected although
    their mean meets the threshold. *)
Example agreement_floor :
  TrustProfile.validate_inbound
    (TrustProfile.init INTERNAL (TrustLevel.init (5 # 10) (5 # 10)) divergent_brokers
       2 (1 # 10))
    "sender" "content" = Return false.
Proof. by vm_compute. Qed.

End Consensus.

(** ** The acceptance rule as the code computes it *)

Section ConsensusBinary64.

Lemma evaluate_brokers_binary64 brokers sender_id content sts cts :
  Binary64.TrustProfile.evaluate_brokers brokers sender_id content sts cts =
  if existsb (fun b => Binary64.ITrustBroker.is_flagged b sender_id content) brokers
  then None
  else Some (sts ++ binary64_sender_scores brokers sender_id,
             cts ++ binary64_content_scores brokers content).
Proof.
  revert sts cts. induction brokers as [|b rest IH]; intros sts cts; simpl.
  - by rewrite !app_nil_r.
  - destruct (Binary64.ITrustBroker.is_flagged b sender_id content); simpl; [done|].
    rewrite IH. destruct (existsb _ rest); [done|].
    by rewrite <- !app_assoc.
Qed.

Lemma no_flag_binary64 brokers sender_id content :
  existsb (fun b => Binary64.ITrustBroker.is_flagged b sender_id content) brokers = false <->
  (forall b, b ∈ brokers -> Binary64.ITrustBroker.is_flagged b sender_id content = false).
Proof.
  induction brokers as [|b rest IH]; simpl.
  - split; [intros _ b Hb; inversion Hb | done].
  - rewrite orb_false_iff, IH. split.
    + intros [Hb Hrest] b' Hin. apply elem_of_cons in Hin as [->|Hin]; auto.
    + intros H. split; [apply H; left | intros b' Hin; apply H; by right].
Qed.

Lemma within_tolerance_binary64 tolerance centre scores :
  Binary64.TrustProfile.within_tolerance tolerance centre scores
  = binary64_count_within tolerance centre scores.
Proof.
  unfold Binary64.TrustProfile.within_tolerance.
  induction scores as [|e rest IH]; [done|].
  cbn [List.filter binary64_count_within].
  destruct (PrimFloat.leb _ tolerance); cbn [length]; by rewrite IH.
Qed.

(** On data that are not empty [statistics.mean] returns. *)
Lemma mean_binary64 scores :
  scores <> [] -> Binary64.mean scores = Return (rounded_mean scores).
Proof.
  intros Hne. unfold rounded_mean, Binary64.mean. destruct scores as [|x rest]; [done|].
  by destruct (Binary64._sum (x :: rest) (0, 0) None) as [total [special|]].
Qed.

Lemma has_independent_agreement_binary64 (p : Binary64.TrustProfile.t) scores :
  (1 <= Binary64.TrustProfile.minimum_broker_agreement p <= Z.of_nat (length scores)) ->
  Binary64.TrustProfile._has_independent_agreement p scores
  = Return (Binary64.TrustProfile.minimum_broker_agreement p
            <=? Z.of_nat (binary64_count_within (Binary64.TrustProfile.agreement_tolerance p)
                            (rounded_mean scores) scores)).
Proof.
  intros [Hmin Hlen]. unfold Binary64.TrustProfile._has_independent_agreement.
  destruct (Z.ltb_spec (Z.of_nat (length scores))
              (Binary64.TrustProfile.minimum_broker_agreement p)); [lia|].
  rewrite mean_binary64 by (intros ->; simpl in *; lia).
  cbn [mbind outcome_bind obind]. by rewrite within_tolerance_binary64.
Qed.

(** What [validate_inbound] computes for a profile whose agreement count
    is positive, as one boolean. *)
Lemma validate_inbound_binary64 (p : Binary64.TrustProfile.t) sender_id content :
  1 <= Binary64.TrustProfile.minimum_broker_agreement p ->
  let brokers := Binary64.TrustProfile.trust_brokers p in
  let count := Binary64.TrustProfile.minimum_broker_agreement p in
  let tolerance := Binary64.TrustProfile.agreement_tolerance p in
  let ss := binary64_sender_scores brokers sender_id in
  let cs := binary64_content_scores brokers content in
  Binary64.TrustProfile.validate_inbound p sender_id content =
  Return
    ((count <=? Z.of_nat (length brokers))
     && negb (existsb (fun b => Binary64.ITrustBroker.is_flagged b sender_id content) brokers)
     && (count <=? Z.of_nat (binary64_count_within tolerance (rounded_mean ss) ss))
     && (count <=? Z.of_nat (binary64_count_within tolerance (rounded_mean cs) cs))
     && Binary64.TrustLevel.meets_threshold
          (Binary64.TrustLevel.init (rounded_mean ss) (rounded_mean cs))
          (Binary64.TrustProfile.required_trust_threshold p)).
Proof.
  intros Hmin brokers count tolerance ss cs.
  unfold Binary64.TrustProfile.validate_inbound. fold brokers count.
  destruct (Z.ltb_spec (Z.of_nat (length brokers)) count) as [Hlt|Hge].
  { destruct (Z.leb_spec count (Z.of_nat (length brokers))); [lia|done]. }
  destruct (Z.leb_spec count (Z.of_nat (length brokers))); [|lia].
  rewrite evaluate_brokers_binary64. fold ss cs.
  destruct (existsb _ brokers); [done|].
  cbn [app negb andb].
  assert (length ss = length brokers) as Hls by (subst ss; apply length_map).
  assert (length cs = length brokers) as Hlc by (subst cs; apply length_map).
  rewrite !has_independent_agreement_binary64 by (fold count; lia).
  assert (ss <> []) by (intros E; rewrite E in Hls; simpl in Hls; lia).
  assert (cs <> []) by (intros E; rewrite E in Hlc; simpl in Hlc; lia).
  rewrite !mean_binary64 by done.
  cbn [mbind outcome_bind obind]. fold count tolerance.
  destruct (count <=? Z.of_nat (binary64_count_within tolerance (rounded_mean ss) ss));
    [|done].
  cbn [negb andb].
  by destruct (count <=? Z.of_nat (binary64_count_within tolerance (rounded_mean cs) cs)).
Qed.

(** C1 (corrected).  For every profile the constructor builds, over any
    evaluators, and every message, [validate_inbound] returns and does not
    raise.  It returns true exactly when: there are at least
    minimum-agreement evaluators; none of them flags the message; in each
    of the two score sequences at least minimum-agreement scores [e] have
    [abs(e - avg) <= agreement_tolerance] as binary64 arithmetic computes
    it, where [avg] is the mean of the sequence as [statistics.mean]
    returns it (the exact mean rounded once); and each of the two means,
    clamped into [0.0, 1.0] by the [TrustLevel] constructor, is at or above
    the required trust. *)
Theorem validate_inbound_rule
    (sl : SecurityLevel) (threshold : Binary64.TrustLevel.t)
    (brokers : list Binary64.ITrustBroker.t) (m : Z) (tol : PrimFloat.float)
    (sender_id content : string) :
  let p := Binary64.TrustProfile.init sl threshold brokers m tol in
  let count := Binary64.TrustProfile.minimum_broker_agreement p in
  let tolerance := Binary64.TrustProfile.agreement_tolerance p in
  let ss := binary64_sender_scores brokers sender_id in
  let cs := binary64_content_scores brokers content in
  exists verdict : bool,
    Binary64.TrustProfile.validate_inbound p sender_id content = Return verdict
    /\ (verdict = true <->
        count <= Z.of_nat (length brokers)
        /\ (forall b, b ∈ brokers ->
              Binary64.ITrustBroker.is_flagged b sender_id content = false)
        /\ count <= Z.of_nat (binary64_count_within tolerance (rounded_mean ss) ss)
        /\ count <= Z.of_nat (binary64_count_within tolerance (rounded_mean cs) cs)
        /\ PrimFloat.leb (Binary64.TrustLevel.sender_trust threshold)
             (Binary64.clamp01 (rounded_mean ss)) = true
        /\ PrimFloat.leb (Binary64.TrustLevel.content_trust threshold)
             (Binary64.clamp01 (rounded_mean cs)) = true).
Proof.
  intros p count tolerance ss cs.
  assert (2 <= count) as Hcount.
  { subst count p. unfold Binary64.TrustProfile.init,
      Binary64.TrustProfile.DEFAULT_MINIMUM_BROKER_AGREEMENT.
    cbn [Binary64.TrustProfile.minimum_broker_agreement].
    destruct (Z.ltb_spec m 2); lia. }
  pose proof (validate_inbound_binary64 p sender_id content) as Hspec.
  cbv zeta in Hspec. fold count tolerance in Hspec.
  change (Binary64.TrustProfile.trust_brokers p) with brokers in Hspec.
  change (Binary64.TrustProfile.required_trust_threshold p) with threshold in Hspec.
  fold ss cs in Hspec. rewrite Hspec by lia. clear Hspec.
  eexists. split; [reflexivity|].
  rewrite !andb_true_iff, negb_true_iff, no_flag_binary64, !Z.leb_le.
  unfold Binary64.TrustLevel.meets_threshold, Binary64.TrustLevel.init.
  cbn [Binary64.TrustLevel.sender_trust Binary64.TrustLevel.content_trust].
  rewrite andb_true_iff. tauto.
Qed.

(** C1, where the code departs from the rule read in exact arithmetic.
    With sender trust 0.3 and 0.5 and tolerance 0.1 every condition of the
    exact rule holds (both scores are at the distance 0.1 of their mean)
    and [validate_inbound] returns false, the rounded distance of 0.3 from
    the rounded mean being above 0.1.  With sender trust -0.5 twice
    against a required trust of 0 the mean is below the requirement and
    [validate_inbound] returns true, the mean being clamped to 0.  With
    sender trust 0.5 and 0.49999999999999994 against a required trust of
    0.5 the mean is below the requirement and [validate_inbound] returns
    true, the mean being rounded to 0.5. *)
Theorem validate_inbound_not_exact_rule :
  (Binary64.TrustProfile.validate_inbound edge_profile "s" "c" = Return false
   /\ exact_rule edge_profile "s" "c")
  /\ (Binary64.TrustProfile.validate_inbound negative_profile "s" "c" = Return true
      /\ ~ exact_rule negative_profile "s" "c")
  /\ (Binary64.TrustProfile.validate_inbound tie_profile "s" "c" = Return true
      /\ ~ exact_rule tie_profile "s" "c").
Proof.
  split; [|split].
  - split; [by vm_compute|].
    split; [by vm_compute|]. split.
    { intros b Hb. cbn in Hb.
      repeat (apply elem_of_cons in Hb as [->|Hb]; [done|]).
      by apply elem_of_nil in Hb. }
    repeat split; vm_compute; discriminate.
  - split; [by vm_compute|].
    intros (_ & _ & _ & _ & Hmean & _). revert Hmean. vm_compute. by intros H.
  - split; [by vm_compute|].
    intros (_ & _ & _ & _ & Hmean & _). revert Hmean. vm_compute. by intros H.
Qed.

(** [statistics.mean] on some data: the sum is exact and the quotient is
    rounded once (the mean of 0.1, 0.2, 0.3 is 0.2; of 1e308 twice, 1e308;
    of 0.5 and 0.49999999999999994, 0.5; of the least positive number and
    0.0, 0.0), a nan or an infinity among the data decides the result, and
    empty data raise. *)
Section MeanExamples.

Import PrimFloat.

Example mean_rounds_once :
  Binary64.mean [0x1.999999999999ap-4; 0x1.999999999999ap-3; 0x1.3333333333333p-2]%float
  = Return 0x1.999999999999ap-3%float
  /\ Binary64.mean [0x1.1ccf385ebc8a0p+1023; 0x1.1ccf385ebc8a0p+1023]%float
     = Return 0x1.1ccf385ebc8a0p+1023%float
  /\ Binary64.mean [0x1p-1; 0x1.fffffffffffffp-2]%float = Return 0x1p-1%float
  /\ Binary64.mean [0x0.0000000000001p-1022; 0x0p+0]%float = Return 0x0p+0%float
  /\ Binary64.mean [PrimFloat.infinity; 0x1p+0%float] = Return PrimFloat.infinity
  /\ Binary64.mean [PrimFloat.infinity; PrimFloat.neg_infinity] = Return PrimFloat.nan
  /\ Binary64.mean []
     = Raise (StatisticsError "mean requires at least one data point").
Proof. repeat split; by vm_compute. Qed.

End MeanExamples.

(** The convergent set-up is accepted over binary64 scores too. *)
Example binary64_convergent_accepted :
  Binary64.TrustProfile.validate_inbound binary64_convergent_profile "sender" "content"
  = Return true.
Proof. by vm_compute. Qed.

End ConsensusBinary64.

(** ** Authorization grants *)

Section Authorization.

Context {S : Type}.

Implicit Types (g : CommunicationAuthorization.t) (s : S) (k : Clock).

(** [is_expired] answers whether an expiry is set and the clock reading it
    takes is past it; it never raises and leaves the receiver alone. *)
Lemma is_expired_spec g s k :
  exists k',
    CommunicationAuthorization.is_expired g s k
    = (Return (match CommunicationAuthorization.expires_at g with
               | Some e => e <? ticks k (reads k)
               | None => false
               end), s, k')
    /\ ticks k' = ticks k /\ (reads k <= reads k' <= Datatypes.S (reads k))%nat.
Proof.
  unfold CommunicationAuthorization.is_expired.
  destruct (CommunicationAuthorization.expires_at g) as [e|].
  - eexists. split; [reflexivity|]. simpl. split; [done|lia].
  - exists k. split; [reflexivity|]. split; [done|lia].
Qed.

Lemma is_authorized_run g from_id to_id s k :
  CommunicationAuthorization.is_authorized g from_id to_id s k =
  let r := CommunicationAuthorization.is_expired g s k in
  match result_of r with
  | Return expired => (Return (negb expired && direction_matches g from_id to_id), s, clock_of r)
  | Raise e => (Raise e, s, clock_of r)
  end.
Proof.
  destruct (is_expired_spec g s k) as (k' & Hrun & _).
  unfold CommunicationAuthorization.is_authorized, direction_matches.
  unfold mbind at 1, M_bind at 1, bind at 1.
  rewrite Hrun. cbn [result_of clock_of fst snd].
  destruct (match CommunicationAuthorization.expires_at g with
            | Some e => e <? ticks k (reads k) | None => false end); [done|].
  cbn [negb andb].
  destruct (bool_decide _ && bool_decide _); [done|].
  cbn [orb]. by destruct (_ && _ && _).
Qed.

Lemma direction_matches_iff g from_id to_id :
  direction_matches g from_id to_id = true <->
  (from_id = CommunicationAuthorization.from_agent_id g
   /\ to_id = CommunicationAuthorization.to_agent_id g)
  \/ (CommunicationAuthorization.is_bidirectional g = true
      /\ from_id = CommunicationAuthorization.to_agent_id g
      /\ to_id = CommunicationAuthorization.from_agent_id g).
Proof.
  unfold direction_matches.
  rewrite orb_true_iff, !andb_true_iff, !bool_decide_eq_true. intuition congruence.
Qed.

(** C6. [is_authorized(from, to)] returns true exactly when the grant is
    not expired (as the call's own [is_expired] answers) and either
    (from, to) is the grant's (from, to), or the grant is bidirectional and
    (from, to) is its (to, from).  In particular a one-way grant between two
    different ids does not authorize the reverse direction, and a
    bidirectional grant that is not expired authorizes both. *)
Theorem is_authorized_iff g (from_id to_id : string) s k :
  (exists b, result_of (CommunicationAuthorization.is_authorized g from_id to_id s k)
             = Return b)
  /\ state_of (CommunicationAuthorization.is_authorized g from_id to_id s k) = s
  /\ (result_of (CommunicationAuthorization.is_authorized g from_id to_id s k) = Return true
      <-> result_of (CommunicationAuthorization.is_expired g s k) = Return false
          /\ ((from_id = CommunicationAuthorization.from_agent_id g
               /\ to_id = CommunicationAuthorization.to_agent_id g)
              \/ (CommunicationAuthorization.is_bidirectional g = true
                  /\ from_id = CommunicationAuthorization.to_agent_id g
                  /\ to_id = CommunicationAuthorization.from_agent_id g)))
  /\ (CommunicationAuthorization.is_bidirectional g = false ->
      CommunicationAuthorization.from_agent_id g <> CommunicationAuthorization.to_agent_id g ->
      result_of (CommunicationAuthorization.is_authorized g
                   (CommunicationAuthorization.to_agent_id g)
                   (CommunicationAuthorization.from_agent_id g) s k) = Return false)
  /\ (CommunicationAuthorization.is_bidirectional g = true ->
      result_of (CommunicationAuthorization.is_expired g s k) = Return false ->
      result_of (CommunicationAuthorization.is_authorized g
                   (CommunicationAuthorization.from_agent_id g)
                   (CommunicationAuthorization.to_agent_id g) s k) = Return true
      /\ result_of (CommunicationAuthorization.is_authorized g
                      (CommunicationAuthorization.to_agent_id g)
                      (CommunicationAuthorization.from_agent_id g) s k) = Return true).
Proof.
  rewrite !is_authorized_run. cbv zeta.
  destruct (is_expired_spec g s k) as (k' & Hrun & _). rewrite Hrun.
  cbn [result_of state_of clock_of fst snd].
  set (expired := match CommunicationAuthorization.expires_at g with
                  | Some e => e <? ticks k (reads k) | None => false end).
  split; [eauto|]. split; [done|]. split; [|split].
  - split.
    + intros [= H]. apply andb_true_iff in H as [H1 H2].
      split; [by destruct expired | by apply direction_matches_iff].
    + intros [[= ->] H]. apply direction_matches_iff in H. by rewrite H.
  - intros Hone Hne. f_equal. apply andb_false_iff. right.
    apply not_true_iff_false. rewrite direction_matches_iff, Hone.
    intros [[E _]|[? _]]; [by apply Hne | done].
  - intros Hbi [= ->]. split; f_equal; apply direction_matches_iff; [by left | by right].
Qed.

End Authorization.

(** ** The SubAgent life cycle *)

Section Lifecycle.

Implicit Types (a : SubAgent.t) (k : Clock).

Lemma start_mission_illegal a k :
  SubAgent._status a <> CREATED ->
  SubAgent.start_mission a k
  = (Raise (RuntimeError ("Cannot start mission from status: "
                          +:+ str_status (SubAgent._status a))), a, k).
Proof. intros H. run_method. by rewrite bool_decide_eq_true_2. Qed.

Lemma start_mission_legal a k :
  SubAgent._status a = CREATED ->
  result_of (SubAgent.start_mission a k) = Return tt
  /\ SubAgent._status (state_of (SubAgent.start_mission a k)) = ACTIVE.
Proof. intros H. run_method. by rewrite bool_decide_eq_false_2 by (rewrite H; auto). Qed.

Lemma process_task_illegal task a k :
  SubAgent._status a <> ACTIVE ->
  SubAgent.process_task task a k
  = (Raise (RuntimeError ("Cannot process task in status: "
                          +:+ str_status (SubAgent._status a))), a, k).
Proof. intros H. run_method. by rewrite bool_decide_eq_true_2. Qed.

Lemma process_task_legal task a k :
  SubAgent._status a = ACTIVE ->
  result_of (SubAgent.process_task task a k)
  = Return ("Processed: " +:+ task +:+ " in domain: " +:+ SubAgent._domain a)
  /\ SubAgent._status (state_of (SubAgent.process_task task a k)) = ACTIVE.
Proof. intros H. run_method. by rewrite bool_decide_eq_false_2 by (rewrite H; auto). Qed.

Lemma complete_mission_illegal a k :
  SubAgent._status a <> ACTIVE -> SubAgent._status a <> PAUSED ->
  SubAgent.complete_mission a k
  = (Raise (RuntimeError ("Cannot complete mission from status: "
                          +:+ str_status (SubAgent._status a))), a, k).
Proof. intros H1 H2. run_method. by rewrite !bool_decide_eq_true_2. Qed.

Lemma complete_mission_legal a k :
  SubAgent._status a = ACTIVE \/ SubAgent._status a = PAUSED ->
  result_of (SubAgent.complete_mission a k) = Return tt
  /\ SubAgent._status (state_of (SubAgent.complete_mission a k)) = COMPLETED.
Proof. intros [H|H]; run_method; by rewrite H. Qed.

Lemma receive_information_inactive sender_id information a k :
  SubAgent._status a <> ACTIVE ->
  let r := SubAgent.receive_information sender_id information a k in
  result_of r = Return false
  /\ SubAgent._status (state_of r) = SubAgent._status a
  /\ SubAgent._local_state (state_of r) = SubAgent._local_state a.
Proof. intros H. run_method. by rewrite bool_decide_eq_true_2. Qed.

Lemma send_information_spec recipient_id information a k :
  let r := SubAgent.send_information recipient_id information a k in
  result_of r = Return (bool_decide (SubAgent._status a = ACTIVE))
  /\ SubAgent._status (state_of r) = SubAgent._status a
  /\ SubAgent._local_state (state_of r) = SubAgent._local_state a
  /\ SubAgent._trust_profile (state_of r) = SubAgent._trust_profile a.
Proof. cbv zeta. run_method. by_status a. Qed.

Lemma retire_spec a k :
  result_of (SubAgent.retire a k) = Return tt
  /\ SubAgent._status (state_of (SubAgent.retire a k)) = RETIRED.
Proof. run_method. by_status a. Qed.

Lemma retire_clears a k :
  SubAgent._status a <> RETIRED ->
  SubAgent._local_state (state_of (SubAgent.retire a k)) = ∅.
Proof. intros H. run_method. by rewrite bool_decide_eq_false_2. Qed.

Lemma retire_idempotent a k :
  SubAgent._status a = RETIRED -> SubAgent.retire a k = (Return tt, a, k).
Proof. intros H. run_method. by rewrite H. Qed.

(** C7. Lifecycle operations outside their legal source states are
    rejected.  [start_mission] raises unless the status is CREATED,
    [process_task] raises unless it is ACTIVE, [complete_mission] raises
    unless it is ACTIVE or PAUSED; a raising call leaves the agent and the
    clock as they were.  [receive_information] and [send_information]
    return false without raising when the status is not ACTIVE, and keep
    the status and the local state.  [retire] never raises and ends in
    RETIRED; on a retired agent it changes nothing.  So on the agent that
    [retire] leaves, every further operation raises, returns false or is a
    no-op. *)
Theorem lifecycle_legality a k (task peer information : string) :
  (* start_mission *)
  (SubAgent._status a <> CREATED ->
   exists msg, SubAgent.start_mission a k = (Raise (RuntimeError msg), a, k))
  /\ (SubAgent._status a = CREATED ->
      result_of (SubAgent.start_mission a k) = Return tt
      /\ SubAgent._status (state_of (SubAgent.start_mission a k)) = ACTIVE)
  (* process_task *)
  /\ (SubAgent._status a <> ACTIVE ->
      exists msg, SubAgent.process_task task a k = (Raise (RuntimeError msg), a, k))
  /\ (SubAgent._status a = ACTIVE ->
      exists result, result_of (SubAgent.process_task task a k) = Return result)
  (* complete_mission *)
  /\ (SubAgent._status a <> ACTIVE -> SubAgent._status a <> PAUSED ->
      exists msg, SubAgent.complete_mission a k = (Raise (RuntimeError msg), a, k))
  /\ (SubAgent._status a = ACTIVE \/ SubAgent._status a = PAUSED ->
      result_of (SubAgent.complete_mission a k) = Return tt
      /\ SubAgent._status (state_of (SubAgent.complete_mission a k)) = COMPLETED)
  (* receive_information and send_information *)
  /\ (SubAgent._status a <> ACTIVE ->
      let r := SubAgent.receive_information peer information a k in
      result_of r = Return false
      /\ SubAgent._status (state_of r) = SubAgent._status a
      /\ SubAgent._local_state (state_of r) = SubAgent._local_state a)
  /\ (SubAgent._status a <> ACTIVE ->
      let r := SubAgent.send_information peer information a k in
      result_of r = Return false
      /\ SubAgent._status (state_of r) = SubAgent._status a
      /\ SubAgent._local_state (state_of r) = SubAgent._local_state a)
  (* retire *)
  /\ (result_of (SubAgent.retire a k) = Return tt
      /\ SubAgent._status (state_of (SubAgent.retire a k)) = RETIRED)
  /\ (SubAgent._status a = RETIRED -> SubAgent.retire a k = (Return tt, a, k))
  (* after retire *)
  /\ (let retired := state_of (SubAgent.retire a k) in
      forall k',
        (exists msg, SubAgent.start_mission retired k' = (Raise (RuntimeError msg), retired, k'))
        /\ (exists msg, SubAgent.process_task task retired k'
                        = (Raise (RuntimeError msg), retired, k'))
        /\ (exists msg, SubAgent.complete_mission retired k'
                        = (Raise (RuntimeError msg), retired, k'))
        /\ result_of (SubAgent.receive_information peer information retired k') = Return false
        /\ SubAgent._status
             (state_of (SubAgent.receive_information peer information retired k')) = RETIRED
        /\ result_of (SubAgent.send_information peer information retired k') = Return false
        /\ SubAgent._status
             (state_of (SubAgent.send_information peer information retired k')) = RETIRED
        /\ SubAgent.retire retired k' = (Return tt, retired, k')).
Proof.
  split; [intros H; eexists; by apply start_mission_illegal|].
  split; [apply start_mission_legal|].
  split; [intros H; eexists; by apply process_task_illegal|].
  split; [intros H; eexists; by apply (process_task_legal task a k H)|].
  split; [intros H1 H2; eexists; by apply complete_mission_illegal|].
  split; [apply complete_mission_legal|].
  split; [intros H; by apply receive_information_inactive|].
  split.
  { intros H r. destruct (send_information_spec peer information a k) as (Hr & Hs & Hl & _).
    fold r in Hr, Hs, Hl. split; [|done]. by rewrite Hr, bool_decide_eq_false_2. }
  split; [apply retire_spec|].
  split; [apply retire_idempotent|].
  intros retired k'.
  assert (SubAgent._status retired = RETIRED) as Hret by apply retire_spec.
  assert (SubAgent._status retired <> CREATED) as H1 by (by rewrite Hret).
  assert (SubAgent._status retired <> ACTIVE) as H2 by (by rewrite Hret).
  assert (SubAgent._status retired <> PAUSED) as H3 by (by rewrite Hret).
  split; [eexists; by apply start_mission_illegal|].
  split; [eexists; by apply process_task_illegal|].
  split; [eexists; by apply complete_mission_illegal|].
  destruct (receive_information_inactive peer information retired k' H2) as (Hr & Hs & _).
  destruct (send_information_spec peer information retired k') as (Hr' & Hs' & _).
  split; [done|]. split; [by rewrite Hs|].
  split; [by rewrite Hr', bool_decide_eq_false_2|]. split; [by rewrite Hs'|].
  by apply retire_idempotent.
Qed.

(** The outcome of [validate_inbound] is all that [receive_information]
    asks of the trust profile. *)
Lemma receive_information_active sender_id information a k :
  SubAgent._status a = ACTIVE ->
  let r := SubAgent.receive_information sender_id information a k in
  match TrustProfile.validate_inbound (SubAgent._trust_profile a) sender_id information with
  | Return true =>
      result_of r = Return true
      /\ SubAgent._local_state (state_of r)
         = <["received_" +:+ str_timestamp (ticks k (reads k)) := information]>
             (SubAgent._local_state a)
      /\ SubAgent._activity_log (state_of r)
         = SubAgent._activity_log a
           ++ [MkLogEntry (ticks k (Datatypes.S (reads k)))
                 ("Accepted information from: " +:+ sender_id)]
  | Return false =>
      result_of r = Return false
      /\ SubAgent._local_state (state_of r) = SubAgent._local_state a
      /\ SubAgent._activity_log (state_of r)
         = SubAgent._activity_log a
           ++ [MkLogEntry (ticks k (reads k))
                 ("Rejected information from: " +:+ sender_id
                  +:+ " - trust validation failed")]
  | Raise e => r = (Raise e, a, k)
  end.
Proof.
  intros H. cbv zeta. run_method. rewrite H. cbn.
  by destruct (TrustProfile.validate_inbound _ _ _) as [[|]|e].
Qed.

Lemma receive_information_inactive_log sender_id information a k :
  SubAgent._status a <> ACTIVE ->
  SubAgent._activity_log (state_of (SubAgent.receive_information sender_id information a k))
  = SubAgent._activity_log a
    ++ [MkLogEntry (ticks k (reads k))
          ("Rejected inbound information - status: " +:+ str_status (SubAgent._status a))].
Proof. intros H. run_method. by rewrite bool_decide_eq_true_2. Qed.

(** C10. [receive_information] returns true exactly when the agent is
    ACTIVE and its trust profile accepts the message.  When it returns
    false the local state is as it was before the call; when it returns
    true the local state is the old one with the content stored under the
    key of the clock reading.  In both cases the activity log gains exactly
    one entry.  (When validation raises, the agent is untouched.) *)
Theorem receive_information_local_state a (sender_id information : string) k :
  let r := SubAgent.receive_information sender_id information a k in
  (result_of r = Return true <->
   SubAgent._status a = ACTIVE
   /\ TrustProfile.validate_inbound (SubAgent._trust_profile a) sender_id information
      = Return true)
  /\ match result_of r with
     | Return true =>
         SubAgent._local_state (state_of r)
         = <["received_" +:+ str_timestamp (ticks k (reads k)) := information]>
             (SubAgent._local_state a)
         /\ SubAgent._local_state (state_of r)
              !! ("received_" +:+ str_timestamp (ticks k (reads k))) = Some information
         /\ exists entry,
              SubAgent._activity_log (state_of r) = SubAgent._activity_log a ++ [entry]
     | Return false =>
         SubAgent._local_state (state_of r) = SubAgent._local_state a
         /\ exists entry,
              SubAgent._activity_log (state_of r) = SubAgent._activity_log a ++ [entry]
     | Raise _ => state_of r = a
     end.
Proof.
  intros r. destruct (decide (SubAgent._status a = ACTIVE)) as [Hact|Hina].
  - pose proof (receive_information_active sender_id information a k Hact) as H.
    cbv zeta in H. fold r in H.
    destruct (TrustProfile.validate_inbound _ _ _) as [[|]|e].
    + destruct H as (Hr & Hl & Hlog). rewrite Hr. split; [done|].
      rewrite Hl, lookup_insert_eq. eauto.
    + destruct H as (Hr & Hl & Hlog). rewrite Hr. split; [|eauto].
      split; [done | by intros [_ ?]].
    + rewrite H. cbn. split; [|done]. split; [done | by intros [_ ?]].
  - destruct (receive_information_inactive sender_id information a k Hina) as (Hr & _ & Hl).
    fold r in Hr, Hl. rewrite Hr. split.
    + split; [done | by intros [? _]].
    + split; [done|]. eexists. by apply receive_information_inactive_log.
Qed.

End Lifecycle.

(** ** Mediation by the front line agent *)

Section Scan.

Context {S : Type}.

Implicit Types (g : CommunicationAuthorization.t) (s : S) (k : Clock)
  (auths : list CommunicationAuthorization.t).

Lemma is_authorized_at g from_id to_id s k :
  CommunicationAuthorization.is_authorized g from_id to_id s k
  = (Return (authorized_at g from_id to_id (ticks k (reads k))), s,
     MkClock (ticks k) (reads k + clock_reads g)).
Proof.
  rewrite is_authorized_run. unfold CommunicationAuthorization.is_expired, authorized_at,
    clock_reads.
  destruct (CommunicationAuthorization.expires_at g) as [e|]; unfold_M; cbn.
  - do 2 f_equal. lia.
  - destruct k as [t n]. cbn. do 2 f_equal. lia.
Qed.

Lemma ask_time_0 g auths k : ask_time (g :: auths) k 0 = ticks k (reads k).
Proof. unfold ask_time. cbn. f_equal. lia. Qed.

Lemma ask_time_S g auths k i :
  ask_time (g :: auths) k (Datatypes.S i)
  = ask_time auths (MkClock (ticks k) (reads k + clock_reads g)) i.
Proof. unfold ask_time. cbn. f_equal. lia. Qed.

Lemma first_match_here g auths from_id to_id k :
  authorized_at g from_id to_id (ticks k (reads k)) = true ->
  first_match (g :: auths) from_id to_id k g.
Proof.
  intros H. exists 0%nat. rewrite ask_time_0. split; [done|]. split; [done|].
  intros j g' Hj. lia.
Qed.

Lemma first_match_later g g' auths from_id to_id k :
  authorized_at g from_id to_id (ticks k (reads k)) = false ->
  first_match auths from_id to_id (MkClock (ticks k) (reads k + clock_reads g)) g' ->
  first_match (g :: auths) from_id to_id k g'.
Proof.
  intros Hg (i & Hi & Hauth & Hfirst). exists (Datatypes.S i).
  rewrite ask_time_S. split; [done|]. split; [done|].
  intros [|j] g'' Hj Hlook.
  - rewrite ask_time_0. cbn in Hlook. by injection Hlook as <-.
  - rewrite ask_time_S. apply Hfirst; [lia|done].
Qed.

Lemma no_match_cons g auths from_id to_id k :
  authorized_at g from_id to_id (ticks k (reads k)) = false ->
  no_match auths from_id to_id (MkClock (ticks k) (reads k + clock_reads g)) ->
  no_match (g :: auths) from_id to_id k.
Proof.
  intros Hg Hrest [|i] g' Hlook.
  - rewrite ask_time_0. cbn in Hlook. by injection Hlook as <-.
  - rewrite ask_time_S. by apply Hrest.
Qed.

Lemma no_match_excludes auths from_id to_id k g :
  no_match auths from_id to_id k -> ~ first_match auths from_id to_id k g.
Proof. intros Hno (i & Hi & Hauth & _). rewrite (Hno i g Hi) in Hauth. discriminate. Qed.

(** The scan over the stored grants returns its first match, or [None]
    when there is none; it leaves the receiver alone and only reads the
    clock. *)
Lemma next_authorized_run auths from_id to_id s k :
  exists o k',
    FrontLineAgent.next_authorized auths from_id to_id s k = (Return o, s, k')
    /\ ticks k' = ticks k
    /\ match o with
       | Some g => first_match auths from_id to_id k g
       | None => no_match auths from_id to_id k
       end.
Proof.
  revert k. induction auths as [|g rest IH]; intros k.
  - exists None, k. split; [done|]. split; [done|]. intros i g Hlook. by destruct i.
  - cbn [FrontLineAgent.next_authorized]. unfold mbind at 1, M_bind at 1, bind at 1.
    rewrite is_authorized_at.
    destruct (authorized_at g from_id to_id (ticks k (reads k))) eqn:Hg.
    + exists (Some g). eexists. split; [reflexivity|]. split; [done|].
      by apply first_match_here.
    + destruct (IH (MkClock (ticks k) (reads k + clock_reads g))) as (o & k' & Hrun & Ht & Ho).
      exists o, k'. split; [done|]. split; [done|].
      destruct o as [g'|]; [by apply first_match_later | by apply no_match_cons].
Qed.

End Scan.

Section Mediation.

Implicit Types (fla : FrontLineAgent.t) (k : Clock).

(** The run of [mediate_communication], case by case. *)
Lemma mediate_cases fla from_id to_id information k :
  let auths := FrontLineAgent._communication_authorizations fla in
  let r := FrontLineAgent.mediate_communication from_id to_id information fla k in
  exists o k1,
    FrontLineAgent.next_authorized auths from_id to_id fla k = (Return o, fla, k1)
    /\ match o with
       | None =>
           no_match auths from_id to_id k
           /\ result_of r = Return false
           /\ logged fla (state_of r)
                ("Communication blocked: " +:+ from_id +:+ " -> " +:+ to_id
                 +:+ " - not authorized")
       | Some g =>
           first_match auths from_id to_id k g
           /\ match FrontLineAgent._active_sub_agents fla !! from_id with
              | None =>
                  result_of r = Return false
                  /\ logged fla (state_of r)
                       ("Communication failed: sender " +:+ from_id +:+ " not found")
              | Some sender =>
                  match FrontLineAgent._active_sub_agents fla !! to_id with
                  | None =>
                      result_of r = Return false
                      /\ logged fla (state_of r)
                           ("Communication failed: receiver " +:+ to_id +:+ " not found")
                  | Some receiver =>
                      let sent := SubAgent.send_information to_id information sender k1 in
                      match result_of sent with
                      | Return false =>
                          result_of r = Return false
                          /\ logged fla (state_of r)
                               "Communication failed: sender rejected outbound"
                      | Return true =>
                          let receiver' :=
                            if decide (from_id = to_id) then state_of sent else receiver in
                          let received :=
                            SubAgent.receive_information from_id information receiver'
                              (clock_of sent) in
                          match result_of received with
                          | Return b =>
                              result_of r = Return b
                              /\ logged fla (state_of r)
                                   ("Communication mediated: " +:+ from_id +:+ " -> "
                                    +:+ to_id +:+ " - success: " +:+ str_bool b)
                          | Raise e => result_of r = Raise e
                          end
                      | Raise _ => False
                      end
                  end
              end
       end.
Proof.
  intros auths r.
  destruct (next_authorized_run auths from_id to_id fla k) as (o & k1 & Hscan & Ht & Ho).
  exists o, k1. split; [done|].
  subst r. unfold FrontLineAgent.mediate_communication, FrontLineAgent._log_event,
    FrontLineAgent.call.
  unfold_M. cbn beta. fold auths. rewrite Hscan.
  destruct o as [g|]; [split; [done|] | split; [done|]].
  2: { cbn. split; [done|]. by eexists. }
  destruct (FrontLineAgent._active_sub_agents fla !! from_id) as [sender|] eqn:Hs.
  2: { cbn. split; [done|]. by eexists. }
  destruct (FrontLineAgent._active_sub_agents fla !! to_id) as [receiver|] eqn:Hr.
  2: { cbn. split; [done|]. by eexists. }
  cbv zeta.
  destruct (send_information_spec to_id information sender k1) as (Hres & _).
  destruct (SubAgent.send_information to_id information sender k1) as [[osent sender'] k2].
  cbn [result_of state_of clock_of fst snd] in *. subst osent.
  destruct (bool_decide (SubAgent._status sender = ACTIVE)); cbn [negb].
  2: { cbn. split; [done|]. by eexists. }
  destruct (SubAgent.receive_information from_id information
              (if decide (from_id = to_id) then sender' else receiver) k2)
    as [[[b|e] receiver''] k3]; cbn [result_of state_of clock_of fst snd].
  - split; [done|]. by eexists.
  - done.
Qed.

(** C3. [mediate_communication(from, to, content)] returns true exactly
    when some stored grant matches (from, to) (the scan stops at the first
    one in insertion order), both ids are in the active map, the sender's
    [send_information] returns true and the receiver's
    [receive_information] returns true.  In each failing case it returns
    false and appends one event-log entry that states the reason: no
    matching grant, sender not found, receiver not found, the sender
    rejected the send, or the receiver rejected the message. *)
Theorem mediate_communication_spec fla (from_id to_id information : string) k :
  let auths := FrontLineAgent._communication_authorizations fla in
  let agents := FrontLineAgent._active_sub_agents fla in
  let r := FrontLineAgent.mediate_communication from_id to_id information fla k in
  let k1 := clock_of (FrontLineAgent.next_authorized auths from_id to_id fla k) in
  let sent sender := SubAgent.send_information to_id information sender k1 in
  let received sender receiver :=
    SubAgent.receive_information from_id information
      (if decide (from_id = to_id) then state_of (sent sender) else receiver)
      (clock_of (sent sender)) in
  (result_of r = Return true <->
   (exists g, first_match auths from_id to_id k g)
   /\ exists sender receiver,
        agents !! from_id = Some sender /\ agents !! to_id = Some receiver
        /\ result_of (sent sender) = Return true
        /\ result_of (received sender receiver) = Return true)
  /\ ((forall g, ~ first_match auths from_id to_id k g) ->
      result_of r = Return false
      /\ logged fla (state_of r)
           ("Communication blocked: " +:+ from_id +:+ " -> " +:+ to_id
            +:+ " - not authorized"))
  /\ ((exists g, first_match auths from_id to_id k g) ->
      agents !! from_id = None ->
      result_of r = Return false
      /\ logged fla (state_of r)
           ("Communication failed: sender " +:+ from_id +:+ " not found"))
  /\ ((exists g, first_match auths from_id to_id k g) ->
      is_Some (agents !! from_id) -> agents !! to_id = None ->
      result_of r = Return false
      /\ logged fla (state_of r)
           ("Communication failed: receiver " +:+ to_id +:+ " not found"))
  /\ (forall sender receiver,
        (exists g, first_match auths from_id to_id k g) ->
        agents !! from_id = Some sender -> agents !! to_id = Some receiver ->
        result_of (sent sender) = Return false ->
        result_of r = Return false
        /\ logged fla (state_of r) "Communication failed: sender rejected outbound")
  /\ (forall sender receiver,
        (exists g, first_match auths from_id to_id k g) ->
        agents !! from_id = Some sender -> agents !! to_id = Some receiver ->
        result_of (sent sender) = Return true ->
        result_of (received sender receiver) = Return false ->
        result_of r = Return false
        /\ logged fla (state_of r)
             ("Communication mediated: " +:+ from_id +:+ " -> " +:+ to_id
              +:+ " - success: False"))
  /\ (result_of r = Return false -> exists description, logged fla (state_of r) description).
Proof.
  intros auths agents r k1 sent received.
  destruct (mediate_cases fla from_id to_id information k) as (o & k1' & Hscan & Hcase).
  fold auths r in Hscan, Hcase.
  assert (k1 = k1') as <- by (subst k1; by rewrite Hscan).
  assert ((exists g, first_match auths from_id to_id k g) <-> is_Some o) as Hmatch.
  { destruct o as [g|].
    - destruct Hcase as [Hg _]. split; eauto.
    - destruct Hcase as [Hno _]. split.
      + intros [g Hg]. by destruct (no_match_excludes _ _ _ _ g Hno).
      + by intros [? ?]. }
  fold agents in Hcase.
  destruct o as [g|].
  2: { destruct Hcase as (Hno & Hres & Hlog).
       assert (~ exists g, first_match auths from_id to_id k g) as Hnone
         by (rewrite Hmatch; by intros [? ?]).
       rewrite Hres.
       split; [split; [done | by intros [? _]]|].
       split; [done|]. split; [done|]. split; [done|].
       split; [by intros ?? ?|]. split; [by intros ?? ?|]. eauto. }
  destruct Hcase as (Hg & Hcase).
  assert (exists g, first_match auths from_id to_id k g) as Hsome by eauto.
  assert (~ forall g, ~ first_match auths from_id to_id k g) as Hnot
    by (intros H; by apply (H g)).
  destruct (agents !! from_id) as [sender|] eqn:Hs.
  2: { destruct Hcase as (Hres & Hlog). rewrite Hres.
       split; [split; [done | by intros (_ & ? & ? & ? & _)]|].
       split; [done|]. split; [done|]. split; [by intros _ [? ?]|].
       split; [by intros ?? _ ?|]. split; [by intros ?? _ ?|]. eauto. }
  destruct (agents !! to_id) as [receiver|] eqn:Hr.
  2: { destruct Hcase as (Hres & Hlog). rewrite Hres.
       split; [split; [done | by intros (_ & ? & ? & _ & ? & _)]|].
       split; [done|]. split; [done|]. split; [done|].
       split; [by intros ?? _ _ ?|]. split; [by intros ?? _ _ ?|]. eauto. }
  cbv zeta in Hcase. fold (sent sender) in Hcase.
  destruct (result_of (sent sender)) as [[|]|e] eqn:Hsent; [| |done].
  2: { destruct Hcase as (Hres & Hlog). rewrite Hres.
       split.
       { split; [done|]. intros (_ & s' & r' & [= <-] & _ & Hs' & _).
         rewrite Hsent in Hs'. discriminate. }
       split; [done|]. split; [done|]. split; [by intros _ _ ?|].
       split; [by intros ?? _ [= <-] _ _|].
       split; [|eauto].
       intros s' r' _ [= <-] _ Hs'. rewrite Hsent in Hs'. discriminate. }
  fold (received sender receiver) in Hcase.
  destruct (result_of (received sender receiver)) as [b|e] eqn:Hrecv.
  - destruct Hcase as (Hres & Hlog). rewrite Hres.
    split.
    { split.
      - intros [= ->]. split; [done|]. exists sender, receiver. by rewrite Hsent, Hrecv.
      - intros (_ & s' & r' & [= <-] & [= <-] & _ & Hr'). rewrite Hrecv in Hr'.
        by injection Hr' as ->. }
    split; [done|]. split; [done|]. split; [by intros _ _ ?|].
    split.
    { intros s' r' _ [= <-] _ Hs'. rewrite Hsent in Hs'. discriminate. }
    split; [|eauto].
    intros s' r' _ [= <-] [= <-] _ Hr'. rewrite Hrecv in Hr'. injection Hr' as ->.
    done.
  - rewrite Hcase.
    split.
    { split; [done|]. intros (_ & s' & r' & [= <-] & [= <-] & _ & Hr').
      rewrite Hrecv in Hr'. discriminate. }
    split; [done|]. split; [done|]. split; [by intros _ _ ?|].
    split.
    { intros s' r' _ [= <-] _ Hs'. rewrite Hsent in Hs'. discriminate. }
    split; [|done].
    intros s' r' _ [= <-] [= <-] _ Hr'. rewrite Hrecv in Hr'. discriminate.
Qed.

(** A unit that is not in the active map takes part in no mediation. *)
Lemma mediate_absent fla agent_id other information k :
  FrontLineAgent._active_sub_agents fla !! agent_id = None ->
  result_of (FrontLineAgent.mediate_communication agent_id other information fla k)
  = Return false
  /\ result_of (FrontLineAgent.mediate_communication other agent_id information fla k)
     = Return false.
Proof.
  intros Habs. split.
  - destruct (mediate_cases fla agent_id other information k) as (o & k1 & _ & Hcase).
    destruct o as [g|]; [|by destruct Hcase as (_ & ? & _)].
    destruct Hcase as [_ Hcase]. rewrite Habs in Hcase. by destruct Hcase.
  - destruct (mediate_cases fla other agent_id information k) as (o & k1 & _ & Hcase).
    destruct o as [g|]; [|by destruct Hcase as (_ & ? & _)].
    destruct Hcase as [_ Hcase].
    destruct (FrontLineAgent._active_sub_agents fla !! other); [|by destruct Hcase].
    rewrite Habs in Hcase. by destruct Hcase.
Qed.

Lemma retire_sub_agent_unknown fla agent_id k :
  FrontLineAgent._active_sub_agents fla !! agent_id = None ->
  FrontLineAgent.retire_sub_agent agent_id fla k = (Return None, fla, k).
Proof.
  intros H. unfold FrontLineAgent.retire_sub_agent. unfold_M. by rewrite H.
Qed.

Lemma retire_sub_agent_known fla agent_id agent k :
  FrontLineAgent._active_sub_agents fla !! agent_id = Some agent ->
  let r := FrontLineAgent.retire_sub_agent agent_id fla k in
  result_of r = Return (Some (state_of (SubAgent.retire agent k)))
  /\ FrontLineAgent._active_sub_agents (state_of r)
     = delete agent_id (FrontLineAgent._active_sub_agents fla)
  /\ FrontLineAgent._communication_authorizations (state_of r)
     = List.filter
         (fun auth =>
            bool_decide (CommunicationAuthorization.from_agent_id auth <> agent_id)
            && bool_decide (CommunicationAuthorization.to_agent_id auth <> agent_id))
         (FrontLineAgent._communication_authorizations fla)
  /\ logged fla (state_of r) ("Retired SubAgent: " +:+ agent_id).
Proof.
  intros H r. subst r.
  unfold FrontLineAgent.retire_sub_agent, FrontLineAgent.set_active_sub_agents,
    FrontLineAgent.set_communication_authorizations, FrontLineAgent._log_event,
    FrontLineAgent.call.
  unfold_M. cbn beta. rewrite H.
  destruct (retire_spec agent k) as [Hres _].
  destruct (SubAgent.retire agent k) as [[o agent'] k'].
  cbn [result_of state_of fst snd] in *. subst o. cbn.
  split; [done|]. split; [by rewrite delete_insert_eq|]. split; [done|]. by eexists.
Qed.

(** *** What each call does to the active map *)

(** The label [classify_domain] answers, as a function of the intent. *)
Lemma classify_domain_run fla user_intent k :
  exists label,
    (forall fla' k', result_of (FrontLineAgent.classify_domain user_intent fla' k')
                     = Return label)
    /\ FrontLineAgent.classify_domain user_intent fla k
       = (Return label,
          FrontLineAgent.Mk (FrontLineAgent._id fla)
            (FrontLineAgent._default_trust_profile fla)
            (FrontLineAgent._active_sub_agents fla)
            (FrontLineAgent._communication_authorizations fla)
            (FrontLineAgent._event_log fla
             ++ [MkLogEntry (ticks k (reads k))
                   ("[FLA-" +:+ FrontLineAgent._id fla +:+ "] "
                    +:+ "Classifying domain for intent: " +:+ user_intent)]),
          MkClock (ticks k) (Datatypes.S (reads k))).
Proof.
  run_fla.
  destruct (contains "data" (lower user_intent) || contains "analyze" (lower user_intent));
    [eexists; split; [intros; reflexivity | reflexivity]|].
  destruct (contains "code" (lower user_intent) || contains "program" (lower user_intent));
    [eexists; split; [intros; reflexivity | reflexivity]|].
  destruct (contains "security" (lower user_intent) || contains "audit" (lower user_intent));
    [eexists; split; [intros; reflexivity | reflexivity]|].
  destruct (contains "research" (lower user_intent) || contains "find" (lower user_intent));
    eexists; split; intros; reflexivity.
Qed.

Lemma start_mission_created a k :
  SubAgent._status a = CREATED ->
  exists a' k', SubAgent.start_mission a k = (Return tt, a', k')
                /\ SubAgent._status a' = ACTIVE /\ SubAgent._id a' = SubAgent._id a.
Proof.
  intros H. unfold SubAgent.start_mission, SubAgent.set_status, SubAgent._log_activity.
  unfold_M. rewrite H. cbn. eauto.
Qed.

Lemma create_sub_agent_run fla uuid_hex domain trust_profile k :
  let agent_id := "SA-" +:+ domain +:+ "-" +:+ uuid_hex in
  exists a k',
    FrontLineAgent.create_sub_agent uuid_hex domain trust_profile fla k
    = (Return a,
       FrontLineAgent.Mk (FrontLineAgent._id fla)
         (FrontLineAgent._default_trust_profile fla)
         (<[agent_id := a]> (FrontLineAgent._active_sub_agents fla))
         (FrontLineAgent._communication_authorizations fla)
         (FrontLineAgent._event_log fla
          ++ [MkLogEntry (ticks k (2 + reads k))
                ("[FLA-" +:+ FrontLineAgent._id fla +:+ "] "
                 +:+ "Created and started SubAgent: " +:+ agent_id
                 +:+ " for domain: " +:+ domain)]), k')
    /\ SubAgent._status a = ACTIVE /\ SubAgent._id a = agent_id
    /\ SubAgent._domain a = domain
    /\ SubAgent._trust_profile a
       = default (FrontLineAgent._default_trust_profile fla) trust_profile.
Proof.
  intros agent_id. run_fla.
  unfold SubAgent.start_mission, SubAgent.set_status, SubAgent._log_activity.
  unfold_M. cbn.
  rewrite (bool_decide_eq_false_2 (CREATED <> CREATED)) by (intros H; by apply H).
  cbn. rewrite insert_insert_eq. eexists _, _. split; [reflexivity|]. done.
Qed.

Lemma process_task_active task a k :
  SubAgent._status a = ACTIVE ->
  exists a' k',
    SubAgent.process_task task a k
    = (Return ("Processed: " +:+ task +:+ " in domain: " +:+ SubAgent._domain a), a', k')
    /\ SubAgent._status a' = ACTIVE /\ SubAgent._id a' = SubAgent._id a.
Proof.
  intros H. run_agent. rewrite bool_decide_eq_false_2 by (rewrite H; auto). cbn.
  eexists _, _. split; [reflexivity|]. done.
Qed.

Lemma complete_mission_active a k :
  SubAgent._status a = ACTIVE ->
  exists a' k',
    SubAgent.complete_mission a k = (Return tt, a', k')
    /\ SubAgent._status a' = COMPLETED /\ SubAgent._id a' = SubAgent._id a.
Proof.
  intros H. run_agent. rewrite H. cbn. eexists _, _. split; [reflexivity|]. done.
Qed.

(** [process_user_task] with the placeholder executor never raises: it
    returns the executor's text and leaves the new unit registered, its
    mission completed. *)
Lemma process_user_task_run fla uuid_hex user_intent task_details k :
  exists label a log k',
    (forall fla' k', result_of (FrontLineAgent.classify_domain user_intent fla' k')
                     = Return label)
    /\ FrontLineAgent.process_user_task uuid_hex user_intent task_details fla k
       = (Return ("Processed: " +:+ task_details +:+ " in domain: " +:+ label),
          FrontLineAgent.Mk (FrontLineAgent._id fla)
            (FrontLineAgent._default_trust_profile fla)
            (<["SA-" +:+ label +:+ "-" +:+ uuid_hex := a]>
               (FrontLineAgent._active_sub_agents fla))
            (FrontLineAgent._communication_authorizations fla) log,
          k')
    /\ SubAgent._status a = COMPLETED.
Proof.
  unfold FrontLineAgent.process_user_task, FrontLineAgent._log_event, try_except,
    FrontLineAgent.call.
  unfold_M. cbn beta.
  match goal with
  | |- context [FrontLineAgent.classify_domain user_intent ?s ?c] =>
      destruct (classify_domain_run s user_intent c) as (label & Hlabel & ->)
  end.
  cbn [FrontLineAgent._id FrontLineAgent._default_trust_profile
       FrontLineAgent._active_sub_agents FrontLineAgent._communication_authorizations
       FrontLineAgent._event_log].
  match goal with
  | |- context [FrontLineAgent.create_sub_agent uuid_hex label None ?s ?c] =>
      destruct (create_sub_agent_run s uuid_hex label None c)
        as (a & k1 & -> & Hact & Hid & Hdom & _)
  end.
  cbn [FrontLineAgent._id FrontLineAgent._default_trust_profile
       FrontLineAgent._active_sub_agents FrontLineAgent._communication_authorizations
       FrontLineAgent._event_log].
  destruct (process_task_active task_details a k1 Hact) as (a1 & k2 & -> & Hact1 & Hid1).
  destruct (complete_mission_active a1 k2 Hact1) as (a2 & k3 & -> & Hdone & Hid2).
  cbn. rewrite Hid1, Hid, !insert_insert_eq.
  rewrite Hdom.
  eexists label, a2, _, _. split; [done|]. split; [reflexivity | done].
Qed.

(** *** Properties of the receiver that a method keeps *)

Section Preserves.

Context {S : Type} (P : S -> Prop).

Lemma preserves_ret {A} (a : A) : preserves P (mret a : M S A).
Proof. by intros s k H. Qed.

Lemma preserves_raise {A} e : preserves P (raise e : M S A).
Proof. by intros s k H. Qed.

Lemma preserves_utcnow : preserves P (utcnow : M S Z).
Proof. by intros s k H. Qed.

Lemma preserves_lift_outcome {A} (o : outcome A) : preserves P (lift_outcome o : M S A).
Proof. by intros s k H. Qed.

Lemma preserves_modify (f : S -> S) : (forall s, P s -> P (f s)) -> preserves P (modify f).
Proof. intros Hf s k H. by apply Hf. Qed.

Lemma preserves_bind {A B} (m : M S A) (f : A -> M S B) :
  preserves P m -> (forall a, preserves P (f a)) -> preserves P (m ≫= f).
Proof.
  intros Hm Hf s k H. unfold mbind, M_bind, bind.
  specialize (Hm s k H). destruct (m s k) as [[[a|e] s'] k']; cbn in *; [|done].
  by apply Hf.
Qed.

Lemma preserves_get_bind {B} (f : S -> M S B) :
  (forall s, P s -> preserves P (f s)) -> preserves P (get ≫= f).
Proof. intros Hf s k H. unfold mbind, M_bind, bind, get. by apply Hf. Qed.

Lemma preserves_try_except {A} (body : M S A) (handler : exn -> M S A) :
  preserves P body -> (forall e, preserves P (handler e)) ->
  preserves P (try_except body handler).
Proof.
  intros Hb Hh s k H. unfold try_except.
  specialize (Hb s k H). destruct (body s k) as [[[a|e] s'] k']; cbn in *; [done|].
  by apply Hh.
Qed.

End Preserves.

(** The scan and the construction of a grant only read the clock. *)
Lemma preserves_next_authorized {S} (P : S -> Prop) auths from_id to_id :
  preserves P (FrontLineAgent.next_authorized auths from_id to_id).
Proof.
  intros s k H.
  destruct (next_authorized_run auths from_id to_id s k) as (o & k' & -> & _). done.
Qed.

Section Absent.

Variable agent_id : string.

Lemma preserves_log_event description : preserves (absent agent_id) (FrontLineAgent._log_event description).
Proof.
  unfold FrontLineAgent._log_event. apply preserves_bind; [apply preserves_utcnow|].
  intros now. by apply preserves_modify.
Qed.

Lemma preserves_set_authorizations auths :
  preserves (absent agent_id) (FrontLineAgent.set_communication_authorizations auths).
Proof. by apply preserves_modify. Qed.

Lemma preserves_call {A} id obj (m : M SubAgent.t A) :
  id <> agent_id -> preserves (absent agent_id) (FrontLineAgent.call id obj m).
Proof.
  intros Hne fla k H. unfold FrontLineAgent.call.
  destruct (m obj k) as [[[a|e] obj'] k']; cbn; unfold absent; cbn;
    by rewrite lookup_insert_ne.
Qed.

Lemma present_ne fla id (a : SubAgent.t) :
  absent agent_id fla -> FrontLineAgent._active_sub_agents fla !! id = Some a -> id <> agent_id.
Proof. unfold absent. intros Habs Hsome ->. by rewrite Habs in Hsome. Qed.

Lemma preserves_classify_domain user_intent :
  preserves (absent agent_id) (FrontLineAgent.classify_domain user_intent).
Proof.
  intros fla k H. destruct (classify_domain_run fla user_intent k) as (label & _ & ->).
  done.
Qed.

Lemma preserves_reactivate id : preserves (absent agent_id) (FrontLineAgent.reactivate_sub_agent id).
Proof.
  unfold FrontLineAgent.reactivate_sub_agent. apply preserves_get_bind. intros fla _.
  apply preserves_bind; [|intros; apply preserves_ret].
  destruct (_ !! id); apply preserves_log_event.
Qed.

Lemma preserves_authorize from_id to_id bidirectional scopes ttl :
  preserves (absent agent_id)
    (FrontLineAgent.authorize_communication from_id to_id bidirectional scopes ttl).
Proof.
  unfold FrontLineAgent.authorize_communication, CommunicationAuthorization.create.
  apply preserves_bind.
  { apply preserves_bind; [apply preserves_utcnow|]. intros created_at.
    apply preserves_bind; [apply preserves_lift_outcome | intros; apply preserves_ret]. }
  intros g. apply preserves_get_bind. intros fla _.
  apply preserves_bind; [apply preserves_set_authorizations|].
  intros _. apply preserves_log_event.
Qed.

Lemma preserves_mediate from_id to_id information :
  preserves (absent agent_id) (FrontLineAgent.mediate_communication from_id to_id information).
Proof.
  unfold FrontLineAgent.mediate_communication. apply preserves_get_bind. intros fla Hfla.
  apply preserves_bind; [apply preserves_next_authorized|].
  intros [g|]; [|apply preserves_bind; [apply preserves_log_event | intros; apply preserves_ret]].
  destruct (_ !! from_id) as [sender|] eqn:Hs;
    [|apply preserves_bind; [apply preserves_log_event | intros; apply preserves_ret]].
  destruct (_ !! to_id) as [receiver|] eqn:Hr;
    [|apply preserves_bind; [apply preserves_log_event | intros; apply preserves_ret]].
  apply preserves_bind; [apply preserves_call; by eapply present_ne|].
  intros [sent_success sender'].
  destruct (negb sent_success);
    [apply preserves_bind; [apply preserves_log_event | intros; apply preserves_ret]|].
  apply preserves_bind; [apply preserves_call; by eapply present_ne|].
  intros received.
  apply preserves_bind; [apply preserves_log_event | intros; apply preserves_ret].
Qed.

Lemma preserves_retire id : preserves (absent agent_id) (FrontLineAgent.retire_sub_agent id).
Proof.
  intros fla k H. destruct (FrontLineAgent._active_sub_agents fla !! id) as [a|] eqn:Hid.
  - destruct (retire_sub_agent_known fla id a k Hid) as (_ & Hact & _).
    unfold absent. rewrite Hact.
    rewrite lookup_delete_ne; [done|]. by eapply present_ne.
  - by rewrite retire_sub_agent_unknown.
Qed.

Lemma preserves_create uuid_hex domain trust_profile :
  "SA-" +:+ domain +:+ "-" +:+ uuid_hex <> agent_id ->
  preserves (absent agent_id) (FrontLineAgent.create_sub_agent uuid_hex domain trust_profile).
Proof.
  intros Hne fla k H.
  destruct (create_sub_agent_run fla uuid_hex domain trust_profile k) as (a & k' & -> & _).
  unfold absent. cbn. by rewrite lookup_insert_ne.
Qed.

Lemma preserves_process_user_task uuid_hex user_intent task_details fla k :
  registered_id (ProcessUserTask uuid_hex user_intent task_details) fla k <> Some agent_id ->
  absent agent_id fla ->
  absent agent_id
    (state_of (FrontLineAgent.process_user_task uuid_hex user_intent task_details fla k)).
Proof.
  intros Hreg Hfla.
  destruct (process_user_task_run fla uuid_hex user_intent task_details k)
    as (label & a & log & k' & Hlabel & Hrun & _).
  cbn [registered_id] in Hreg. rewrite Hlabel in Hreg.
  rewrite Hrun. unfold absent. cbn. rewrite lookup_insert_ne; [done | congruence].
Qed.

Lemma state_of_then_ret {S A} (m : M S A) (s : S) k :
  state_of ((m;; mret tt) s k) = state_of (m s k).
Proof.
  unfold mbind, M_bind, bind, mret, M_ret, ret.
  by destruct (m s k) as [[[a|e] s'] k'].
Qed.

Lemma perform_absent op fla k :
  registered_id op fla k <> Some agent_id ->
  absent agent_id fla -> absent agent_id (state_of (perform op fla k)).
Proof.
  intros Hreg Hfla. destruct op; cbn [perform]; rewrite ?state_of_then_ret.
  - by apply preserves_classify_domain.
  - apply preserves_create; [|done]. cbn in Hreg. congruence.
  - by apply preserves_reactivate.
  - by apply preserves_authorize.
  - by apply preserves_mediate.
  - by apply preserves_retire.
  - by apply preserves_process_user_task.
Qed.

(** A unit that is absent stays absent through a session that never
    registers its id again. *)
Lemma session_absent ops fla k :
  never_registers agent_id ops fla k ->
  absent agent_id fla -> absent agent_id (session ops fla k).1.
Proof.
  revert fla k. induction ops as [|op rest IH]; intros fla k Hnever Hfla; [done|].
  destruct Hnever as [Hreg Hrest]. cbn [session]. apply IH; [done|].
  by apply perform_absent.
Qed.

End Absent.

(** C4. Retirement purge.  When the active map holds a unit under [X],
    [retire_sub_agent(X)] retires that unit (its status ends RETIRED) and
    removes it from the active map; the grants that remain are those that
    name [X] neither as source nor as target; it logs the retirement; and
    in every later state of the agent, reached by any session of calls
    that does not register [X] again, [mediate_communication] with [X] as
    sender or as receiver returns false.  When the active map has no [X],
    the call changes nothing. *)
Theorem retirement_purge fla (X : string) k :
  let r := FrontLineAgent.retire_sub_agent X fla k in
  (forall agent, FrontLineAgent._active_sub_agents fla !! X = Some agent ->
     result_of r = Return (Some (state_of (SubAgent.retire agent k)))
     /\ SubAgent._status (state_of (SubAgent.retire agent k)) = RETIRED
     /\ (SubAgent._status agent <> RETIRED ->
         SubAgent._local_state (state_of (SubAgent.retire agent k)) = ∅)
     /\ FrontLineAgent._active_sub_agents (state_of r)
        = delete X (FrontLineAgent._active_sub_agents fla)
     /\ FrontLineAgent._active_sub_agents (state_of r) !! X = None
     /\ (forall g, g ∈ FrontLineAgent._communication_authorizations (state_of r)
                   <-> g ∈ FrontLineAgent._communication_authorizations fla
                       /\ CommunicationAuthorization.from_agent_id g <> X
                       /\ CommunicationAuthorization.to_agent_id g <> X)
     /\ logged fla (state_of r) ("Retired SubAgent: " +:+ X)
     /\ (forall ops k', never_registers X ops (state_of r) k' ->
         forall other information,
           let later := session ops (state_of r) k' in
           result_of (FrontLineAgent.mediate_communication X other information
                        later.1 later.2) = Return false
           /\ result_of (FrontLineAgent.mediate_communication other X information
                           later.1 later.2) = Return false))
  /\ (FrontLineAgent._active_sub_agents fla !! X = None -> r = (Return None, fla, k)).
Proof.
  intros r. split; [|apply retire_sub_agent_unknown].
  intros agent Hagent.
  destruct (retire_sub_agent_known fla X agent k Hagent) as (Hres & Hact & Hauth & Hlog).
  fold r in Hres, Hact, Hauth, Hlog.
  assert (absent X (state_of r)) as Habs by (unfold absent; by rewrite Hact, lookup_delete_eq).
  split; [done|]. split; [apply retire_spec|]. split; [apply retire_clears|].
  split; [done|]. split; [done|].
  split.
  { intros g. rewrite Hauth, !list_elem_of_In, filter_In, andb_true_iff,
      !bool_decide_eq_true. tauto. }
  split; [done|].
  intros ops k' Hnever other information later.
  apply mediate_absent. by apply session_absent.
Qed.

End Mediation.

(** ** Grant expiry *)

Section Expiry.

Context {S : Type}.

(** [create] reads the clock once; it returns the grant with the expiry
    [expiry] computes, or raises what [expiry] raises. *)
Lemma create_run (from_id to_id : string) bidirectional scopes ttl (s : S) k :
  let k' := MkClock (ticks k) (Datatypes.S (reads k)) in
  match CommunicationAuthorization.expiry (ticks k (reads k)) ttl with
  | Return expires_at =>
      exists g,
        CommunicationAuthorization.create from_id to_id bidirectional scopes ttl s k
        = (Return g, s, k')
        /\ CommunicationAuthorization.from_agent_id g = from_id
        /\ CommunicationAuthorization.to_agent_id g = to_id
        /\ CommunicationAuthorization.is_bidirectional g = bidirectional
        /\ CommunicationAuthorization.created_at g = ticks k (reads k)
        /\ CommunicationAuthorization.expires_at g = expires_at
        /\ CommunicationAuthorization.allowed_data_scopes g
           = match scopes with
             | Some (scope :: more) => scope :: more
             | _ => ["*"%string]
             end
  | Raise e =>
      CommunicationAuthorization.create from_id to_id bidirectional scopes ttl s k
      = (Raise e, s, k')
  end.
Proof.
  unfold CommunicationAuthorization.create. unfold_M. cbn.
  destruct (CommunicationAuthorization.expiry (ticks k (reads k)) ttl) as [e|err]; [|done].
  eexists. split; [reflexivity|]. by destruct scopes as [[|scope more]|].
Qed.

(** The sum of a datetime and a timedelta, by cases. *)
Lemma datetime_add_spec (t d : Z) :
  (datetime_min <= t + d <= datetime_max /\ datetime_add t d = Return (t + d))
  \/ (~ datetime_min <= t + d <= datetime_max
      /\ datetime_add t d = Raise (OverflowError "date value out of range")).
Proof.
  unfold datetime_add.
  destruct (Z.leb_spec datetime_min (t + d)); destruct (Z.leb_spec (t + d) datetime_max);
    cbn [andb]; [left | right | right | right]; split; try done; lia.
Qed.

(** A grant created with a zero [ttl] has no expiry: it matches its own
    direction at every instant. *)
Lemma zero_ttl_never_expires (from_id to_id : string) bidirectional scopes (s : S) k :
  exists g,
    result_of (CommunicationAuthorization.create from_id to_id bidirectional scopes
                 (Some 0) s k) = Return g
    /\ CommunicationAuthorization.expires_at g = None
    /\ forall now, authorized_at g from_id to_id now = true.
Proof.
  pose proof (create_run from_id to_id bidirectional scopes (Some 0) s k) as Hrun.
  cbn in Hrun. destruct Hrun as (g & -> & Hf & Ht & _ & _ & He & _).
  exists g. split; [done|]. split; [done|].
  intros now. unfold authorized_at, direction_matches. rewrite He, Hf, Ht. cbn.
  by rewrite (bool_decide_eq_true_2 (from_id = from_id)),
    (bool_decide_eq_true_2 (to_id = to_id)).
Qed.

(** X11. A negative [ttl].  When [created_at + ttl] is still a datetime,
    [create] returns a grant that is expired at every later reading of a
    clock that does not run backwards: it authorizes no pair of ids there.
    When the sum falls before the year 1, [create] raises [OverflowError]
    and there is no grant. *)
Lemma negative_ttl_expired (from_id to_id : string) bidirectional scopes (ttl : Z) (s : S) k :
  ttl < 0 -> clock_monotone k ->
  let r := CommunicationAuthorization.create from_id to_id bidirectional scopes
             (Some ttl) s k in
  (datetime_min <= ticks k (reads k) + ttl <= datetime_max ->
   exists g,
     result_of r = Return g
     /\ forall (i : nat) from_id' to_id',
          (reads k <= i)%nat -> authorized_at g from_id' to_id' (ticks k i) = false)
  /\ (~ datetime_min <= ticks k (reads k) + ttl <= datetime_max ->
      result_of r = Raise (OverflowError "date value out of range")).
Proof.
  intros Hneg Hmono. cbv zeta.
  pose proof (create_run from_id to_id bidirectional scopes (Some ttl) s k) as Hrun.
  cbv zeta in Hrun. unfold CommunicationAuthorization.expiry, timedelta_bool in Hrun.
  destruct (Z.eqb_spec ttl 0); [lia|]. cbn [negb] in Hrun.
  destruct (datetime_add_spec (ticks k (reads k)) ttl) as [[Hin Hadd]|[Hout Hadd]];
    rewrite Hadd in Hrun.
  - split; [|done]. intros _.
    destruct Hrun as (g & -> & _ & _ & _ & _ & He & _).
    exists g. split; [done|].
    intros i f t Hi. unfold authorized_at. rewrite He.
    specialize (Hmono _ _ Hi).
    destruct (Z.ltb_spec (ticks k (reads k) + ttl) (ticks k i)); [done | lia].
  - split; [done|]. intros _. by rewrite Hrun.
Qed.

End Expiry.

(** C5 (the code departs from the claim).  A grant authorized with a zero
    [ttl] is matched: in the session that creates two units, authorizes
    the first to write to the second with [ttl = timedelta(0)] and
    mediates a message, [mediate_communication] returns true. *)
Theorem zero_ttl_grant_is_matched :
  result_of (grant_session (Some 0) demo_fla (ticking_clock 1)) = Return true.
Proof. by vm_compute. Qed.

(** With no grant at all the same mediation is refused, and with a
    negative [ttl] as well. *)
Example negative_ttl_grant_is_not_matched :
  result_of (grant_session (Some (-1)) demo_fla (ticking_clock 1)) = Return false.
Proof. by vm_compute. Qed.

(** [demo_fla] is what the constructor builds on a clock that reads 0. *)
Example demo_fla_constructed :
  result_of (FrontLineAgent.new "FLA-001" demo_profile tt (frozen_clock 0)) = Return demo_fla.
Proof. reflexivity. Qed.

(** The outcomes of [mediation_session] and the event log it leaves. *)
Example mediation_session_outcomes :
  let r := mediation_session demo_fla (ticking_clock 1) in
  result_of r = Return [false; true; false; false; false; false; false; false]
  /\ text <$> FrontLineAgent._event_log (state_of r)
     = ["[FLA-FLA-001] FLA created: FLA-001";
        "[FLA-FLA-001] Created and started SubAgent: SA-Research-0a for domain: Research";
        "[FLA-FLA-001] Created and started SubAgent: SA-Analysis-0b for domain: Analysis";
        "[FLA-FLA-001] Communication blocked: SA-Research-0a -> SA-Analysis-0b - not authorized";
        "[FLA-FLA-001] Authorized communication: SA-Research-0a -> SA-Analysis-0b (bidirectional: False)";
        "[FLA-FLA-001] Communication mediated: SA-Research-0a -> SA-Analysis-0b - success: True";
        "[FLA-FLA-001] Communication blocked: SA-Analysis-0b -> SA-Research-0a - not authorized";
        "[FLA-FLA-001] Authorized communication: SA-Research-0a -> SA-Ghost (bidirectional: True)";
        "[FLA-FLA-001] Communication failed: receiver SA-Ghost not found";
        "[FLA-FLA-001] Communication failed: sender SA-Ghost not found";
        "[FLA-FLA-001] Communication mediated: SA-Research-0a -> SA-Analysis-0b - success: False";
        "[FLA-FLA-001] Retired SubAgent: SA-Research-0a";
        "[FLA-FLA-001] Communication blocked: SA-Research-0a -> SA-Analysis-0b - not authorized";
        "[FLA-FLA-001] Communication blocked: SA-Analysis-0b -> SA-Research-0a - not authorized"]%string.
Proof. by vm_compute. Qed.

(** ** [classify_domain] *)

(** C8 as stated fails: [classify_domain] appends to the event log. *)
Lemma classify_domain_logs :
  FrontLineAgent._event_log
    (state_of (FrontLineAgent.classify_domain "analyze the data" demo_fla (frozen_clock 5)))
  <> FrontLineAgent._event_log demo_fla.
Proof. vm_compute. discriminate. Qed.

(** C8 (amended).  The label [classify_domain] returns depends on the
    intent text alone, not on the agent or the clock; the call never
    raises; and it leaves the agent as it was except for the event log,
    which gains exactly one entry, "Classifying domain for intent:" with
    the intent. *)
Theorem classify_domain_effect (fla : FrontLineAgent.t) (user_intent : string) (k : Clock) :
  exists label,
    (forall fla' k', result_of (FrontLineAgent.classify_domain user_intent fla' k')
                     = Return label)
    /\ state_of (FrontLineAgent.classify_domain user_intent fla k)
       = FrontLineAgent.Mk (FrontLineAgent._id fla)
           (FrontLineAgent._default_trust_profile fla)
           (FrontLineAgent._active_sub_agents fla)
           (FrontLineAgent._communication_authorizations fla)
           (FrontLineAgent._event_log fla
            ++ [MkLogEntry (ticks k (reads k))
                  ("[FLA-" +:+ FrontLineAgent._id fla +:+ "] "
                   +:+ "Classifying domain for intent: " +:+ user_intent)]).
Proof.
  destruct (classify_domain_run fla user_intent k) as (label & Hlabel & Hrun).
  exists label. split; [done|]. by rewrite Hrun.
Qed.

(** * Further properties *)

(** ** Trust levels and the reference evaluator *)

Section TrustValues.

(** X1. [meets_threshold] is a preorder: every level meets itself, and a
    level that meets a threshold meets every threshold that one meets.  A
    level built by the constructor has both components in [0, 1], meets
    the level (0, 0) and is met by the level (1, 1). *)
Theorem meets_threshold_preorder :
  (forall l, TrustLevel.meets_threshold l l = true)
  /\ (forall a b c,
        TrustLevel.meets_threshold a b = true -> TrustLevel.meets_threshold b c = true ->
        TrustLevel.meets_threshold a c = true)
  /\ (forall sender content,
        let l := TrustLevel.init sender content in
        in_unit (TrustLevel.sender_trust l) /\ in_unit (TrustLevel.content_trust l)
        /\ TrustLevel.meets_threshold l (TrustLevel.init 0 0) = true
        /\ TrustLevel.meets_threshold (TrustLevel.init 1 1) l = true).
Proof.
  split; [|split].
  - intros l. unfold TrustLevel.meets_threshold.
    rewrite andb_true_iff, !Qle_bool_iff. split; apply Qle_refl.
  - intros a b c. unfold TrustLevel.meets_threshold.
    rewrite !andb_true_iff, !Qle_bool_iff. intros [H1 H2] [H3 H4].
    split; eapply Qle_trans; eauto.
  - intros sender content l. subst l. unfold TrustLevel.meets_threshold, TrustLevel.init.
    cbn [TrustLevel.sender_trust TrustLevel.content_trust].
    pose proof (clamp01_in_unit sender) as [Hs0 Hs1].
    pose proof (clamp01_in_unit content) as [Hc0 Hc1].
    split; [done|]. split; [done|].
    rewrite !andb_true_iff, !Qle_bool_iff.
    change (clamp01 0) with 0%Q. change (clamp01 1) with 1%Q. done.
Qed.

Lemma administered_wf broker_id name baseline calls :
  broker_wf (administered broker_id name baseline calls).
Proof.
  unfold administered.
  assert (forall b, broker_wf b -> broker_wf (fold_left administer calls b)) as H.
  { induction calls as [|c rest IH]; intros b Hb; [done|].
    cbn [fold_left]. apply IH. destruct c; cbn [administer].
    - by apply broker_wf_set_reputation.
    - by apply broker_wf_flag.
    - by apply broker_wf_unflag. }
  apply H, broker_wf_init.
Qed.

(** X2. Whatever baseline its constructor is given and whatever
    reputations are set afterwards, a [SimpleTrustBroker] answers sender
    and content scores within [0, 1]. *)
Theorem simple_broker_scores_in_range broker_id name baseline calls :
  ITrustBroker.in_range
    (SimpleTrustBroker.as_broker (administered broker_id name baseline calls)).
Proof. apply simple_broker_in_range, administered_wf. Qed.

(** X3. [set_sender_reputation] then [evaluate_sender_trust]: the sender
    gets the reputation clamped to [0, 1], every other sender keeps its
    score, and content scores and flags are untouched; a sender whose
    reputation was never set gets the baseline. *)
Theorem sender_reputation_round_trip (b : SimpleTrustBroker.t) (sender_id : string)
    (reputation : Q) :
  let b' := SimpleTrustBroker.set_sender_reputation b sender_id reputation in
  SimpleTrustBroker.evaluate_sender_trust b' sender_id = clamp01 reputation
  /\ (forall other, other <> sender_id ->
        SimpleTrustBroker.evaluate_sender_trust b' other
        = SimpleTrustBroker.evaluate_sender_trust b other)
  /\ (forall content,
        SimpleTrustBroker.evaluate_content_trust b' content
        = SimpleTrustBroker.evaluate_content_trust b content)
  /\ (forall sender content,
        SimpleTrustBroker.is_flagged b' sender content
        = SimpleTrustBroker.is_flagged b sender content)
  /\ (SimpleTrustBroker._sender_reputations b !! sender_id = None ->
      SimpleTrustBroker.evaluate_sender_trust b sender_id
      = SimpleTrustBroker._baseline_trust b).
Proof.
  intros b'. subst b'. unfold SimpleTrustBroker.evaluate_sender_trust,
    SimpleTrustBroker.set_sender_reputation.
  cbn [SimpleTrustBroker._sender_reputations SimpleTrustBroker._baseline_trust].
  split; [by rewrite lookup_insert_eq|].
  split; [intros other Hne; by rewrite lookup_insert_ne|].
  split; [done|]. split; [done|]. by intros ->.
Qed.

(** X4. [flag_sender] and [unflag_sender]: a flagged sender is flagged
    with every content; after [unflag_sender] only the content decides
    (the "malicious" marker, in any letter case); the flags of other
    senders, all sender scores and all content scores are untouched. *)
Theorem flag_unflag_sender (b : SimpleTrustBroker.t) (sender_id : string) :
  (forall content,
     SimpleTrustBroker.is_flagged (SimpleTrustBroker.flag_sender b sender_id)
       sender_id content = true)
  /\ (forall content,
        SimpleTrustBroker.is_flagged (SimpleTrustBroker.unflag_sender b sender_id)
          sender_id content
        = contains "malicious" (lower content))
  /\ (forall other content, other <> sender_id ->
        SimpleTrustBroker.is_flagged (SimpleTrustBroker.flag_sender b sender_id)
          other content
        = SimpleTrustBroker.is_flagged b other content
        /\ SimpleTrustBroker.is_flagged (SimpleTrustBroker.unflag_sender b sender_id)
             other content
           = SimpleTrustBroker.is_flagged b other content)
  /\ (forall sender,
        SimpleTrustBroker.evaluate_sender_trust (SimpleTrustBroker.flag_sender b sender_id)
          sender
        = SimpleTrustBroker.evaluate_sender_trust b sender
        /\ SimpleTrustBroker.evaluate_sender_trust
             (SimpleTrustBroker.unflag_sender b sender_id) sender
           = SimpleTrustBroker.evaluate_sender_trust b sender)
  /\ (forall content,
        SimpleTrustBroker.evaluate_content_trust (SimpleTrustBroker.flag_sender b sender_id)
          content
        = SimpleTrustBroker.evaluate_content_trust b content
        /\ SimpleTrustBroker.evaluate_content_trust
             (SimpleTrustBroker.unflag_sender b sender_id) content
           = SimpleTrustBroker.evaluate_content_trust b content).
Proof.
  unfold SimpleTrustBroker.is_flagged, SimpleTrustBroker.flag_sender,
    SimpleTrustBroker.unflag_sender.
  cbn [SimpleTrustBroker._flagged_senders].
  split; [|split; [|split; [|split]]]; [| | | done | done].
  - intros content. destruct (decide (sender_id ∈ _)) as [|Hn]; [done|].
    exfalso. apply Hn. apply elem_of_union_l. by apply elem_of_singleton.
  - intros content. destruct (decide (sender_id ∈ _)) as [Hin|].
    + apply elem_of_difference in Hin as [_ Hin]. exfalso. apply Hin.
      by apply elem_of_singleton.
    + by destruct (contains _ _).
  - intros other content Hne. split.
    + destruct (decide (other ∈ {[sender_id]} ∪ _)) as [Hin|Hn];
        destruct (decide (other ∈ SimpleTrustBroker._flagged_senders b)) as [Hb|Hb];
        try done.
      * apply elem_of_union in Hin as [Hin|Hin]; [|done].
        by apply elem_of_singleton in Hin.
      * exfalso. apply Hn. by apply elem_of_union_r.
    + destruct (decide (other ∈ _ ∖ {[sender_id]})) as [Hin|Hn];
        destruct (decide (other ∈ SimpleTrustBroker._flagged_senders b)) as [Hb|Hb];
        try done.
      * by apply elem_of_difference in Hin as [Hin _].
      * exfalso. apply Hn. apply elem_of_difference. split; [done|].
        by rewrite elem_of_singleton.
Qed.

End TrustValues.

(** ** The consensus rule, further *)

Section ConsensusFurther.

Lemma flagged_member_rejects (p : TrustProfile.t) b sender_id content :
  b ∈ TrustProfile.trust_brokers p ->
  ITrustBroker.is_flagged b sender_id content = true ->
  TrustProfile.validate_inbound p sender_id content = Return false.
Proof.
  intros Hin Hflag. unfold TrustProfile.validate_inbound.
  destruct (_ <? _); [done|].
  rewrite evaluate_brokers_spec.
  destruct (existsb _ (TrustProfile.trust_brokers p)) eqn:E; [done|].
  rewrite existsb_flagged_false in E. rewrite (E b Hin) in Hflag. discriminate.
Qed.

(** X5. Content that carries the "malicious" marker, in any letter case,
    is flagged by every [SimpleTrustBroker] for every sender, whatever the
    broker's reputations and flags; so a profile that consults any
    [SimpleTrustBroker] rejects it, whatever the other evaluators say. *)
Theorem malicious_content_rejected (content : string) :
  contains "malicious" (lower content) = true ->
  (forall b sender_id, SimpleTrustBroker.is_flagged b sender_id content = true)
  /\ (forall (p : TrustProfile.t) b sender_id,
        SimpleTrustBroker.as_broker b ∈ TrustProfile.trust_brokers p ->
        TrustProfile.validate_inbound p sender_id content = Return false).
Proof.
  intros Hmal.
  assert (forall b sender_id, SimpleTrustBroker.is_flagged b sender_id content = true) as H.
  { intros b sender_id. unfold SimpleTrustBroker.is_flagged. rewrite Hmal.
    by destruct (decide _). }
  split; [done|]. intros p b sender_id Hin.
  apply (flagged_member_rejects p _ sender_id content Hin). apply H.
Qed.

Lemma malicious_content_rejected_witness :
  TrustProfile.validate_inbound demo_profile "sender-reliable"
    "Verified, yet MALICIOUS, payload" = Return false.
Proof.
  refine (proj2 (malicious_content_rejected "Verified, yet MALICIOUS, payload" _)
            demo_profile demo_broker2 "sender-reliable" _).
  - by vm_compute.
  - apply list_elem_of_further, list_elem_of_here.
Defined.

(** X6. The constructor makes a profile fail closed: its agreement count
    is at least 2 and its tolerance lies in [0, 1] whatever was asked for;
    [validate_inbound] then never raises, whatever the evaluators answer;
    and over fewer than two evaluators it rejects every message. *)
Theorem constructed_profile_fails_closed
    (sl : SecurityLevel) (thr : TrustLevel.t) (brokers : list ITrustBroker.t)
    (m : Z) (tol : Q) :
  let p := TrustProfile.init sl thr brokers m tol in
  2 <= TrustProfile.minimum_broker_agreement p
  /\ m <= TrustProfile.minimum_broker_agreement p
  /\ in_unit (TrustProfile.agreement_tolerance p)
  /\ (forall sender_id content,
        exists b, TrustProfile.validate_inbound p sender_id content = Return b)
  /\ ((length brokers < 2)%nat ->
      forall sender_id content,
        TrustProfile.validate_inbound p sender_id content = Return false).
Proof.
  intros p. pose proof (init_minimum_ge_2 sl thr brokers m tol) as Hk. fold p in Hk.
  split; [done|]. split.
  { subst p. unfold TrustProfile.init, TrustProfile.DEFAULT_MINIMUM_BROKER_AGREEMENT.
    cbn [TrustProfile.minimum_broker_agreement]. destruct (Z.ltb_spec m 2); lia. }
  split; [apply clamp01_in_unit|]. split.
  - intros sender_id content. rewrite validate_inbound_spec by lia. eauto.
  - intros Hlen sender_id content. unfold TrustProfile.validate_inbound.
    replace (TrustProfile.trust_brokers p) with brokers by done.
    destruct (Z.ltb_spec (Z.of_nat (length brokers)) (TrustProfile.minimum_broker_agreement p));
      [done|lia].
Qed.

(** *** The order of the evaluators *)

Lemma existsb_Permutation {A} (f : A -> bool) (l l' : list A) :
  l ≡ₚ l' -> existsb f l = existsb f l'.
Proof.
  induction 1 as [|x l l' _ IH|x y l|l l' l'' _ IH1 _ IH2]; cbn.
  - done.
  - by rewrite IH.
  - destruct (f x), (f y); done.
  - by rewrite IH1.
Qed.

Lemma Qsum_Permutation (l l' : list Q) : l ≡ₚ l' -> (Qsum l == Qsum l')%Q.
Proof.
  induction 1 as [|x l l' _ IH|x y l|l l' l'' _ IH1 _ IH2]; cbn [Qsum fold_right].
  - reflexivity.
  - fold (Qsum l) (Qsum l'). by rewrite IH.
  - fold (Qsum l). ring.
  - by rewrite IH1.
Qed.

Lemma arithmetic_mean_Permutation (l l' : list Q) :
  l ≡ₚ l' -> (arithmetic_mean l == arithmetic_mean l')%Q.
Proof.
  intros H. unfold arithmetic_mean.
  by rewrite (Qsum_Permutation l l' H), (Permutation_length H).
Qed.

Lemma count_within_centre tolerance (centre centre' : Q) scores :
  (centre == centre')%Q ->
  count_within tolerance centre scores = count_within tolerance centre' scores.
Proof.
  intros Hc. induction scores as [|e rest IH]; [done|].
  cbn [count_within]. rewrite IH.
  destruct (Qlt_le_dec tolerance (Qabs (e - centre))) as [H|H];
    destruct (Qlt_le_dec tolerance (Qabs (e - centre'))) as [H'|H']; try done;
    rewrite Hc in H; exfalso; by apply (Qlt_not_le _ _ ltac:(eassumption)).
Qed.

Lemma count_within_Permutation tolerance centre (l l' : list Q) :
  l ≡ₚ l' -> count_within tolerance centre l = count_within tolerance centre l'.
Proof.
  induction 1 as [|x l l' _ IH|x y l|l l' l'' _ IH1 _ IH2]; cbn [count_within].
  - done.
  - by rewrite IH.
  - lia.
  - by rewrite IH1.
Qed.

Lemma clamp01_Qeq (x y : Q) : (x == y)%Q -> (clamp01 x == clamp01 y)%Q.
Proof. intros H. unfold clamp01. by rewrite H. Qed.

Lemma meets_threshold_Qeq (s s' c c' : Q) (threshold : TrustLevel.t) :
  (s == s')%Q -> (c == c')%Q ->
  TrustLevel.meets_threshold (TrustLevel.init s c) threshold
  = TrustLevel.meets_threshold (TrustLevel.init s' c') threshold.
Proof.
  intros Hs Hc. unfold TrustLevel.meets_threshold, TrustLevel.init.
  cbn [TrustLevel.sender_trust TrustLevel.content_trust].
  assert (forall a x y, (x == y)%Q -> Qle_bool a x = Qle_bool a y) as Hle.
  { intros a x y Hxy. apply eq_true_iff_eq. by rewrite !Qle_bool_iff, Hxy. }
  by rewrite (Hle _ _ _ (clamp01_Qeq _ _ Hs)), (Hle _ _ _ (clamp01_Qeq _ _ Hc)).
Qed.

(** X7. The order of the evaluators does not matter: a profile built by
    the constructor gives the same verdict on every message when its
    evaluators are listed in another order. *)
Theorem validate_inbound_order_independent
    (sl : SecurityLevel) (thr : TrustLevel.t) (brokers brokers' : list ITrustBroker.t)
    (m : Z) (tol : Q) (sender_id content : string) :
  brokers ≡ₚ brokers' ->
  TrustProfile.validate_inbound (TrustProfile.init sl thr brokers m tol) sender_id content
  = TrustProfile.validate_inbound (TrustProfile.init sl thr brokers' m tol) sender_id content.
Proof.
  intros Hperm.
  pose proof (init_minimum_ge_2 sl thr brokers m tol) as Hk.
  pose proof (init_minimum_ge_2 sl thr brokers' m tol) as Hk'.
  rewrite !validate_inbound_spec by lia. cbv zeta.
  change (TrustProfile.trust_brokers (TrustProfile.init sl thr brokers m tol)) with brokers.
  change (TrustProfile.trust_brokers (TrustProfile.init sl thr brokers' m tol)) with brokers'.
  change (TrustProfile.minimum_broker_agreement (TrustProfile.init sl thr brokers' m tol))
    with (TrustProfile.minimum_broker_agreement (TrustProfile.init sl thr brokers m tol)).
  change (TrustProfile.agreement_tolerance (TrustProfile.init sl thr brokers' m tol))
    with (TrustProfile.agreement_tolerance (TrustProfile.init sl thr brokers m tol)).
  change (TrustProfile.required_trust_threshold (TrustProfile.init sl thr brokers' m tol))
    with (TrustProfile.required_trust_threshold (TrustProfile.init sl thr brokers m tol)).
  assert (sender_scores brokers sender_id ≡ₚ sender_scores brokers' sender_id) as Hs
    by (unfold sender_scores; by apply Permutation_map).
  assert (content_scores brokers content ≡ₚ content_scores brokers' content) as Hc
    by (unfold content_scores; by apply Permutation_map).
  pose proof (arithmetic_mean_Permutation _ _ Hs) as Hms.
  pose proof (arithmetic_mean_Permutation _ _ Hc) as Hmc.
  rewrite (Permutation_length Hperm), (existsb_Permutation _ _ _ Hperm).
  rewrite (count_within_centre _ _ _ (sender_scores brokers sender_id) Hms),
    (count_within_Permutation _ _ _ _ Hs).
  rewrite (count_within_centre _ _ _ (content_scores brokers content) Hmc),
    (count_within_Permutation _ _ _ _ Hc).
  by rewrite (meets_threshold_Qeq _ _ _ _ _ Hms Hmc).
Qed.

Lemma validate_inbound_order_independent_witness :
  TrustProfile.validate_inbound convergent_profile "sender" "content"
  = TrustProfile.validate_inbound
      (TrustProfile.init INTERNAL (TrustLevel.init (6 # 10) (6 # 10))
         (reverse convergent_brokers) 2 (1 # 10))
      "sender" "content".
Proof.
  apply validate_inbound_order_independent. symmetry. apply reverse_Permutation.
Defined.

(** *** The tolerance and the agreement count *)

Lemma within_tolerance_mono (tol tol' avg : Q) (evaluations : list Q) :
  (tol <= tol')%Q ->
  (TrustProfile.within_tolerance tol avg evaluations
   <= TrustProfile.within_tolerance tol' avg evaluations)%nat.
Proof.
  intros Htol. unfold TrustProfile.within_tolerance.
  induction evaluations as [|e rest IH]; [done|].
  cbn [List.filter].
  destruct (Qle_bool (Qabs (e - avg)) tol) eqn:E.
  - apply Qle_bool_iff in E.
    assert (Qle_bool (Qabs (e - avg)) tol' = true) as ->
      by (apply Qle_bool_iff; by eapply Qle_trans).
    cbn [length]. lia.
  - destruct (Qle_bool (Qabs (e - avg)) tol'); cbn [length]; lia.
Qed.

Lemma agreement_tolerance_mono (p : TrustProfile.t) (tol tol' : Q) evaluations :
  (tol <= tol')%Q ->
  TrustProfile._has_independent_agreement (with_tolerance p tol) evaluations = Return true ->
  TrustProfile._has_independent_agreement (with_tolerance p tol') evaluations = Return true.
Proof.
  intros Htol. unfold TrustProfile._has_independent_agreement, with_tolerance.
  cbn [TrustProfile.minimum_broker_agreement TrustProfile.agreement_tolerance].
  destruct (_ <? _); [done|].
  destruct (mean evaluations) as [avg|e]; [|done].
  cbn [mbind outcome_bind obind]. intros [= H]. f_equal.
  apply Z.leb_le in H. apply Z.leb_le.
  pose proof (within_tolerance_mono tol tol' avg evaluations Htol). lia.
Qed.

(** X8. Widening the tolerance never turns an accept into a reject: for
    the same evaluators, threshold and agreement count, a message accepted
    with tolerance [tol] is accepted with every tolerance above it. *)
Theorem tolerance_monotone (p : TrustProfile.t) (tol tol' : Q)
    (sender_id content : string) :
  (tol <= tol')%Q ->
  TrustProfile.validate_inbound (with_tolerance p tol) sender_id content = Return true ->
  TrustProfile.validate_inbound (with_tolerance p tol') sender_id content = Return true.
Proof.
  intros Htol. unfold TrustProfile.validate_inbound.
  change (TrustProfile.trust_brokers (with_tolerance p tol'))
    with (TrustProfile.trust_brokers (with_tolerance p tol)).
  change (TrustProfile.minimum_broker_agreement (with_tolerance p tol'))
    with (TrustProfile.minimum_broker_agreement (with_tolerance p tol)).
  change (TrustProfile.required_trust_threshold (with_tolerance p tol'))
    with (TrustProfile.required_trust_threshold (with_tolerance p tol)).
  destruct (_ <? _); [done|].
  destruct (TrustProfile.evaluate_brokers _ _ _ _ _) as [[sts cts]|]; [|done].
  destruct (TrustProfile._has_independent_agreement (with_tolerance p tol) sts)
    as [[|]|e] eqn:Es; [|done|done].
  rewrite (agreement_tolerance_mono p tol tol' sts Htol Es).
  destruct (TrustProfile._has_independent_agreement (with_tolerance p tol) cts)
    as [[|]|e] eqn:Ec; [|done|done].
  by rewrite (agreement_tolerance_mono p tol tol' cts Htol Ec).
Qed.

Lemma tolerance_monotone_witness :
  TrustProfile.validate_inbound (with_tolerance convergent_profile (1 # 2))
    "sender" "content" = Return true.
Proof.
  apply (tolerance_monotone convergent_profile (1 # 10) (1 # 2)).
  - vm_compute; discriminate.
  - vm_compute; reflexivity.
Defined.

Lemma agreement_count_mono (p : TrustProfile.t) (count count' : Z) evaluations :
  count <= count' ->
  TrustProfile._has_independent_agreement (with_agreement p count') evaluations
  = Return true ->
  TrustProfile._has_independent_agreement (with_agreement p count) evaluations
  = Return true.
Proof.
  intros Hc. unfold TrustProfile._has_independent_agreement, with_agreement.
  cbn [TrustProfile.minimum_broker_agreement TrustProfile.agreement_tolerance].
  destruct (Z.ltb_spec (Z.of_nat (length evaluations)) count'); [done|].
  destruct (Z.ltb_spec (Z.of_nat (length evaluations)) count); [lia|].
  destruct (mean evaluations) as [avg|e]; [|done].
  cbn [mbind outcome_bind obind]. intros [= Hle]. f_equal.
  apply Z.leb_le in Hle. apply Z.leb_le. lia.
Qed.

(** X9. Asking for fewer agreeing evaluators never turns an accept into a
    reject: for the same evaluators, threshold and tolerance, a message
    accepted under the agreement count [count'] is accepted under every
    smaller count. *)
Theorem agreement_count_monotone (p : TrustProfile.t) (count count' : Z)
    (sender_id content : string) :
  count <= count' ->
  TrustProfile.validate_inbound (with_agreement p count') sender_id content = Return true ->
  TrustProfile.validate_inbound (with_agreement p count) sender_id content = Return true.
Proof.
  intros Hc. unfold TrustProfile.validate_inbound.
  change (TrustProfile.trust_brokers (with_agreement p count'))
    with (TrustProfile.trust_brokers p).
  change (TrustProfile.trust_brokers (with_agreement p count))
    with (TrustProfile.trust_brokers p).
  change (TrustProfile.minimum_broker_agreement (with_agreement p count')) with count'.
  change (TrustProfile.minimum_broker_agreement (with_agreement p count)) with count.
  change (TrustProfile.required_trust_threshold (with_agreement p count'))
    with (TrustProfile.required_trust_threshold p).
  change (TrustProfile.required_trust_threshold (with_agreement p count))
    with (TrustProfile.required_trust_threshold p).
  destruct (Z.ltb_spec (Z.of_nat (length (TrustProfile.trust_brokers p))) count'); [done|].
  destruct (Z.ltb_spec (Z.of_nat (length (TrustProfile.trust_brokers p))) count); [lia|].
  destruct (TrustProfile.evaluate_brokers _ _ _ _ _) as [[sts cts]|]; [|done].
  destruct (TrustProfile._has_independent_agreement (with_agreement p count') sts)
    as [[|]|e] eqn:Es; [|done|done].
  rewrite (agreement_count_mono p count count' sts Hc Es).
  destruct (TrustProfile._has_independent_agreement (with_agreement p count') cts)
    as [[|]|e] eqn:Ec; [|done|done].
  by rewrite (agreement_count_mono p count count' cts Hc Ec).
Qed.

Lemma agreement_count_monotone_witness :
  TrustProfile.validate_inbound (with_agreement convergent_profile 2)
    "sender" "content" = Return true.
Proof.
  apply (agreement_count_monotone convergent_profile 2 3).
  - lia.
  - vm_compute; reflexivity.
Defined.

End ConsensusFurther.

(** ** Grants, further *)

Section GrantWindow.

Context {S : Type}.

(** X10. A grant as [create] builds it.  With a non-zero [ttl] whose sum
    with the creation instant is not a datetime (outside the years 1 to
    9999), [create] raises [OverflowError] and builds nothing.  Otherwise
    it returns a grant that records the two ids, the direction flag and
    the creation instant; its scopes are the ones given, or the wildcard
    when none or an empty tuple is given.  Created without [ttl] or with a
    zero [ttl] the grant authorizes its direction at every instant;
    created with a non-zero [ttl] it authorizes exactly at the clock
    readings that are not past creation + ttl.  A bidirectional grant
    authorizes the reverse direction over the same window. *)
Theorem grant_validity_window (from_id to_id : string) (bidirectional : bool)
    (scopes : option (list string)) (ttl : option Z) (s : S) (k : Clock) :
  let r := CommunicationAuthorization.create from_id to_id bidirectional scopes ttl s k in
  let created := ticks k (reads k) in
  let overflows :=
    match ttl with
    | Some d => d <> 0 /\ ~ datetime_min <= created + d <= datetime_max
    | None => False
    end in
  (overflows ->
   result_of r = Raise (OverflowError "date value out of range") /\ state_of r = s)
  /\ (~ overflows ->
      exists g,
        result_of r = Return g
        /\ CommunicationAuthorization.from_agent_id g = from_id
        /\ CommunicationAuthorization.to_agent_id g = to_id
        /\ CommunicationAuthorization.is_bidirectional g = bidirectional
        /\ CommunicationAuthorization.created_at g = created
        /\ CommunicationAuthorization.allowed_data_scopes g
           = match scopes with
             | Some (scope :: more) => scope :: more
             | _ => ["*"%string]
             end
        /\ (ttl = None \/ ttl = Some 0 ->
            forall (s' : S) k',
              result_of (CommunicationAuthorization.is_authorized g from_id to_id s' k')
              = Return true)
        /\ (forall d, ttl = Some d -> d <> 0 ->
            forall (s' : S) k',
              result_of (CommunicationAuthorization.is_authorized g from_id to_id s' k')
              = Return (ticks k' (reads k') <=? created + d))
        /\ (bidirectional = true ->
            forall (s' : S) k',
              result_of (CommunicationAuthorization.is_authorized g to_id from_id s' k')
              = result_of (CommunicationAuthorization.is_authorized g from_id to_id s' k'))).
Proof.
  cbv zeta.
  pose proof (create_run from_id to_id bidirectional scopes ttl s k) as Hrun.
  cbv zeta in Hrun.
  assert (bool_decide (from_id = from_id) = true) as Hff by by apply bool_decide_eq_true_2.
  assert (bool_decide (to_id = to_id) = true) as Htt by by apply bool_decide_eq_true_2.
  assert (forall g,
            CommunicationAuthorization.from_agent_id g = from_id ->
            CommunicationAuthorization.to_agent_id g = to_id ->
            CommunicationAuthorization.is_bidirectional g = true ->
            forall (s' : S) k',
              result_of (CommunicationAuthorization.is_authorized g to_id from_id s' k')
              = result_of (CommunicationAuthorization.is_authorized g from_id to_id s' k'))
    as Hreverse.
  { intros g Hf Ht Hb s' k'. rewrite !is_authorized_at. cbn [result_of fst].
    unfold authorized_at, direction_matches. rewrite Hf, Ht, Hb, Hff, Htt.
    cbn [andb orb]. by rewrite orb_true_r. }
  assert (forall g,
            CommunicationAuthorization.from_agent_id g = from_id ->
            CommunicationAuthorization.to_agent_id g = to_id ->
            CommunicationAuthorization.expires_at g = None ->
            forall (s' : S) k',
              result_of (CommunicationAuthorization.is_authorized g from_id to_id s' k')
              = Return true) as Hforever.
  { intros g Hf Ht He s' k'. rewrite is_authorized_at. cbn [result_of fst].
    unfold authorized_at, direction_matches. by rewrite He, Hf, Ht, Hff, Htt. }
  destruct ttl as [d|]; cbn [CommunicationAuthorization.expiry] in Hrun.
  - unfold timedelta_bool in Hrun. destruct (Z.eqb_spec d 0) as [->|Hd]; cbn [negb] in Hrun.
    + split; [by intros [? _]|]. intros _.
      destruct Hrun as (g & -> & Hf & Ht & Hb & Hc & He & Hs).
      exists g. split; [done|]. split; [done|]. split; [done|]. split; [done|].
      split; [done|]. split; [done|]. split; [intros _; by apply Hforever|].
      split; [by intros d [= <-]|]. intros Hbi. apply Hreverse; congruence.
    + destruct (datetime_add_spec (ticks k (reads k)) d) as [[Hin Hadd]|[Hout Hadd]];
        rewrite Hadd in Hrun.
      * split; [by intros [_ ?]|]. intros _.
        destruct Hrun as (g & -> & Hf & Ht & Hb & Hc & He & Hs).
        exists g. split; [done|]. split; [done|]. split; [done|]. split; [done|].
        split; [done|]. split; [done|]. split; [by intros [?|[= ?]]|].
        split; [|intros Hbi; apply Hreverse; congruence].
        intros d' [= <-] _ s' k'. rewrite is_authorized_at. cbn [result_of fst].
        unfold authorized_at, direction_matches. rewrite He, Hf, Ht, Hff, Htt.
        cbn [andb orb]. rewrite andb_true_r. f_equal.
        destruct (Z.ltb_spec (ticks k (reads k) + d) (ticks k' (reads k')));
          destruct (Z.leb_spec (ticks k' (reads k')) (ticks k (reads k) + d));
          try done; lia.
      * split; [intros _; by rewrite Hrun|]. intros Hno. exfalso. by apply Hno.
  - split; [done|]. intros _.
    destruct Hrun as (g & -> & Hf & Ht & Hb & Hc & He & Hs).
    exists g. split; [done|]. split; [done|]. split; [done|]. split; [done|].
    split; [done|]. split; [done|]. split; [intros _; by apply Hforever|].
    split; [done|]. intros Hbi. apply Hreverse; congruence.
Qed.

End GrantWindow.

(** A grant created five microseconds in the past on a ticking clock. *)
Lemma negative_ttl_expired_witness :
  exists g,
    result_of (CommunicationAuthorization.create "a" "b" true None (Some (-5)) tt
                 (ticking_clock 100)) = Return g
    /\ forall (i : nat) from_id' to_id',
         (reads (ticking_clock 100) <= i)%nat ->
         authorized_at g from_id' to_id' (ticks (ticking_clock 100) i) = false.
Proof.
  apply (negative_ttl_expired "a" "b" true None (-5) tt (ticking_clock 100)).
  - lia.
  - intros i j Hij. cbn. lia.
  - vm_compute. split; discriminate.
Defined.

(** ** Content scores and domain labels *)

Section ContentAndLabels.

Lemma clamp01_le x y : (0 <= y)%Q -> (x <= y)%Q -> (clamp01 x <= y)%Q.
Proof.
  intros Hy Hxy. unfold clamp01. apply Q.max_lub; [done|].
  eapply Qle_trans; [apply Q.le_min_r | done].
Qed.

Lemma clamp01_ge x y : (y <= 1)%Q -> (y <= x)%Q -> (y <= clamp01 x)%Q.
Proof.
  intros Hy Hxy. unfold clamp01. eapply Qle_trans; [|apply Q.le_max_r].
  by apply Q.min_glb.
Qed.

(** X25. The content score of a [SimpleTrustBroker]: a penalty outweighs
    the bonus.  Content that carries the "malicious" or the "suspicious"
    marker scores at most the broker's baseline, also when it carries the
    "verified" marker; content that carries neither scores at least the
    baseline, and exactly the baseline when it is not marked "verified"
    either. *)
Theorem penalty_outweighs_bonus (broker_id name : string) (baseline : Q)
    (calls : list admin_call) (content : string) :
  let b := administered broker_id name baseline calls in
  let score := SimpleTrustBroker.evaluate_content_trust b content in
  let marked word := contains word (lower content) in
  (marked "malicious"%string = true \/ marked "suspicious"%string = true ->
   (score <= SimpleTrustBroker._baseline_trust b)%Q)
  /\ (marked "malicious"%string = false -> marked "suspicious"%string = false ->
      (SimpleTrustBroker._baseline_trust b <= score)%Q
      /\ (marked "verified"%string = false ->
          (score == SimpleTrustBroker._baseline_trust b)%Q)).
Proof.
  cbv zeta.
  destruct (administered_wf broker_id name baseline calls) as [[H0 H1] _].
  set (b := administered broker_id name baseline calls) in *.
  set (base := SimpleTrustBroker._baseline_trust b) in *.
  unfold SimpleTrustBroker.evaluate_content_trust,
    SimpleTrustBroker.MALICIOUS_CONTENT_PENALTY,
    SimpleTrustBroker.SUSPICIOUS_CONTENT_PENALTY, SimpleTrustBroker.VERIFIED_CONTENT_BONUS.
  fold base. cbv zeta.
  destruct (contains "malicious" (lower content));
    destruct (contains "suspicious" (lower content));
    destruct (contains "verified" (lower content));
    (split; [intros Hmarked | intros Hm Hs; try done]).
  all: try (apply clamp01_le; [done|]).
  all: try (eapply Qle_trans; [apply Q.le_min_r|]).
  all: try lra.
  all: try (destruct Hmarked; done).
  - split; [|done]. apply clamp01_ge; [done|]. apply Q.min_glb; lra.
  - split; [|intros _]; [apply clamp01_ge; [done | lra] | by apply clamp01_id].
Qed.

Lemma lower_app (s1 s2 : string) : lower (s1 +:+ s2) = lower s1 +:+ lower s2.
Proof. induction s1 as [|c s1 IH]; [done|]. simpl. rewrite IH. reflexivity. Qed.

Lemma prefix_app (needle rest : string) : String.prefix needle (needle +:+ rest) = true.
Proof.
  induction needle as [|c needle IH]; simpl.
  - by destruct rest.
  - by destruct (ascii_dec c c).
Qed.

Lemma contains_app (needle before after : string) :
  contains needle (before +:+ needle +:+ after) = true.
Proof.
  assert (forall hay, String.prefix needle hay = true -> contains needle hay = true)
    as Hprefix.
  { intros hay H. destruct hay; unfold contains; by rewrite H. }
  induction before as [|c before IH]; simpl.
  - apply Hprefix. exact (prefix_app needle after).
  - rewrite IH. by destruct (match needle with EmptyString => _ | _ => _ end).
Qed.

(** X26. [classify_domain] looks for its keywords anywhere in the intent
    and in any letter case, and the first rule wins: an intent that
    contains "data" or "analyze", whatever stands before and after it, is
    labelled "DataAnalysis". *)
Theorem classify_domain_keyword_anywhere fla (before keyword after : string) k :
  lower keyword = "data"%string \/ lower keyword = "analyze"%string ->
  result_of (FrontLineAgent.classify_domain (before +:+ keyword +:+ after) fla k)
  = Return "DataAnalysis"%string.
Proof.
  intros Hkeyword. run_fla. cbn [result_of fst].
  rewrite !lower_app.
  destruct Hkeyword as [-> | ->]; rewrite contains_app; [done|].
  by rewrite orb_true_r.
Qed.

Lemma classify_domain_keyword_anywhere_witness :
  result_of (FrontLineAgent.classify_domain "Find code in the DATAbase" staffed_fla
               (frozen_clock 0))
  = Return "DataAnalysis"%string.
Proof.
  apply (classify_domain_keyword_anywhere staffed_fla "Find code in the " "DATA" "base"
           (frozen_clock 0)).
  left. reflexivity.
Defined.

End ContentAndLabels.

(** ** SubAgents over whole sessions *)

(** Splits a method body along its binds and branches. *)
Ltac preserves_steps :=
  repeat lazymatch goal with
    | |- preserves _ (mret _) => apply preserves_ret
    | |- preserves _ (raise _) => apply preserves_raise
    | |- preserves _ utcnow => apply preserves_utcnow
    | |- preserves _ (lift_outcome _) => apply preserves_lift_outcome
    | |- preserves _ (FrontLineAgent.next_authorized _ _ _) =>
        apply preserves_next_authorized
    | |- preserves _ (try_except _ _) => apply preserves_try_except; [|intros ?]
    | |- preserves _ (get ≫= _) => apply preserves_get_bind; intros ? ?
    | |- preserves _ (_ ≫= _) => apply preserves_bind; [|intros ?]
    | |- preserves _ (match ?x with _ => _ end) => destruct x
    end.

(** Runs one call on an agent of each status. *)
Ltac invoke_cases c a :=
  destruct c; destruct a as [agent_id domain profile status local_state log];
  unfold invoke; run_agent; destruct status;
  cbn -[TrustProfile.validate_inbound];
  try match goal with
      | |- context [TrustProfile.validate_inbound ?p ?x ?y] =>
          destruct (TrustProfile.validate_inbound p x y) as [[|]|];
          cbn -[TrustProfile.validate_inbound]
      end.

Section AgentSessions.

Lemma agent_frame_refl a : agent_frame a a.
Proof. by unfold agent_frame. Qed.

Lemma preserves_frame_set_status a status :
  preserves (agent_frame a) (SubAgent.set_status status).
Proof. apply preserves_modify. by intros s (? & ? & ? & ?). Qed.

Lemma preserves_frame_setitem a key value :
  preserves (agent_frame a) (SubAgent.local_state_setitem key value).
Proof. apply preserves_modify. by intros s (? & ? & ? & ?). Qed.

Lemma preserves_frame_clear a : preserves (agent_frame a) SubAgent.local_state_clear.
Proof. apply preserves_modify. by intros s (? & ? & ? & ?). Qed.

Lemma preserves_frame_log_activity a activity :
  preserves (agent_frame a) (SubAgent._log_activity activity).
Proof.
  unfold SubAgent._log_activity. apply preserves_bind; [apply preserves_utcnow|].
  intros now. apply preserves_modify. intros s (? & ? & ? & Hlog).
  repeat split; try done. cbn. by apply prefix_app_r.
Qed.

Lemma preserves_frame_invoke a c : preserves (agent_frame a) (invoke c).
Proof.
  destruct c; cbn [invoke];
    unfold SubAgent.start_mission, SubAgent.process_task, SubAgent.receive_information,
      SubAgent.send_information, SubAgent.complete_mission, SubAgent.retire;
    cbv zeta;
    preserves_steps;
    first [ apply preserves_frame_set_status | apply preserves_frame_setitem
          | apply preserves_frame_clear | apply preserves_frame_log_activity ].
Qed.

(** X12. Whatever methods are called on a SubAgent, and whether they
    return or raise, its id, domain and trust profile stay as they were and
    its activity log is only appended to: the old log is a prefix of the
    new one. *)
Theorem agent_session_frame (calls : list agent_call) (a : SubAgent.t) (k : Clock) :
  let a' := (agent_session calls a k).1 in
  SubAgent._id a' = SubAgent._id a
  /\ SubAgent._domain a' = SubAgent._domain a
  /\ SubAgent._trust_profile a' = SubAgent._trust_profile a
  /\ SubAgent._activity_log a `prefix_of` SubAgent._activity_log a'.
Proof.
  cbv zeta. change (agent_frame a (agent_session calls a k).1).
  assert (forall b k, agent_frame a b -> agent_frame a (agent_session calls b k).1) as Hall.
  { induction calls as [|c rest IH]; intros b k' Hb; cbn [agent_session fst]; [done|].
    cbv zeta. apply IH. by apply preserves_frame_invoke. }
  apply Hall, agent_frame_refl.
Qed.

Lemma invoke_lifecycle c a k :
  let a' := state_of (invoke c a k) in
  SubAgent._status a' = SubAgent._status a
  \/ lifecycle_step (SubAgent._status a) (SubAgent._status a').
Proof.
  invoke_cases c a; first [by left | right; by constructor].
Qed.

(** X13. The status of a SubAgent only moves along its lifecycle:
    whatever methods are called, the status reached comes from the
    starting one by the steps CREATED to ACTIVE, ACTIVE or PAUSED to
    COMPLETED, and anything to RETIRED.  In particular a retired agent
    stays retired and a completed one is never active again. *)
Theorem agent_session_lifecycle (calls : list agent_call) (a : SubAgent.t) (k : Clock) :
  let a' := (agent_session calls a k).1 in
  rtc lifecycle_step (SubAgent._status a) (SubAgent._status a')
  /\ (SubAgent._status a = RETIRED -> SubAgent._status a' = RETIRED)
  /\ (SubAgent._status a = COMPLETED ->
      SubAgent._status a' = COMPLETED \/ SubAgent._status a' = RETIRED).
Proof.
  cbv zeta.
  assert (rtc lifecycle_step (SubAgent._status a)
            (SubAgent._status (agent_session calls a k).1)) as Hrtc.
  { revert a k. induction calls as [|c rest IH]; intros a k; cbn [agent_session fst];
      [done|].
    cbv zeta. destruct (invoke_lifecycle c a k) as [Heq|Hstep].
    - rewrite <- Heq. apply IH.
    - eapply rtc_l; [exact Hstep | apply IH]. }
  split; [done|].
  assert (forall s s', rtc lifecycle_step s s' ->
            (s = RETIRED -> s' = RETIRED)
            /\ (s = COMPLETED \/ s = RETIRED -> s' = COMPLETED \/ s' = RETIRED)) as Hend.
  { intros s s' H. induction H as [s|s1 s2 s3 Hstep _ [IH1 IH2]].
    - split; [done|]. by intros [->| ->]; [left|right].
    - split.
      + intros ->. by inversion Hstep.
      + intros [->| ->]; inversion Hstep; subst; try done. apply IH2. by right. }
  destruct (Hend _ _ Hrtc) as [H1 H2]. split; [done|]. intros Hc. apply H2. by left.
Qed.

(** A SubAgent that is not waiting to start holds local state only while
    it is active or completed; its status is never PAUSED or FAILED. *)
Lemma invoke_started c a k :
  let started (a : SubAgent.t) :=
    (SubAgent._status a = CREATED \/ SubAgent._status a = ACTIVE
     \/ SubAgent._status a = COMPLETED \/ SubAgent._status a = RETIRED)
    /\ (SubAgent._status a = CREATED \/ SubAgent._status a = RETIRED ->
        SubAgent._local_state a = ∅) in
  started a -> started (state_of (invoke c a k)).
Proof.
  cbv zeta. intros [Hst Hloc].
  invoke_cases c a; cbn in *; (split; [tauto|]); try tauto; try done;
    intros [?|?]; done.
Qed.

(** X14. A SubAgent as its constructor leaves it has status CREATED and
    no local state; whatever methods are then called on it, its status is
    never PAUSED or FAILED, and while it is CREATED or RETIRED its local
    state is empty. *)
Theorem fresh_agent_statuses {S} (agent_id domain : string) (trust_profile : TrustProfile.t)
    (s : S) (k0 : Clock) (calls : list agent_call) (k : Clock) :
  exists a,
    result_of (SubAgent.new agent_id domain trust_profile s k0) = Return a
    /\ SubAgent._status a = CREATED
    /\ SubAgent._local_state a = ∅
    /\ let a' := (agent_session calls a k).1 in
       SubAgent._status a' <> PAUSED
       /\ SubAgent._status a' <> FAILED
       /\ (SubAgent._status a' = CREATED \/ SubAgent._status a' = RETIRED ->
           SubAgent._local_state a' = ∅).
Proof.
  set (started := fun a : SubAgent.t =>
    (SubAgent._status a = CREATED \/ SubAgent._status a = ACTIVE
     \/ SubAgent._status a = COMPLETED \/ SubAgent._status a = RETIRED)
    /\ (SubAgent._status a = CREATED \/ SubAgent._status a = RETIRED ->
        SubAgent._local_state a = ∅)).
  assert (forall b k, started b -> started (agent_session calls b k).1) as Hall.
  { induction calls as [|c rest IH]; intros b k' Hb; cbn [agent_session fst]; [done|].
    cbv zeta. apply IH. by apply (invoke_started c b k'). }
  unfold SubAgent.new. unfold_M. cbn [result_of fst]. eexists. split; [reflexivity|].
  split; [done|]. split; [done|]. cbv zeta.
  match goal with
  | |- context [agent_session calls ?a k] =>
      destruct (Hall a k) as [Hst Hloc]; [by split; [left|] |]
  end.
  split; [|split; [|exact Hloc]]; intros Heq; rewrite Heq in Hst;
    by destruct Hst as [?|[?|[?|?]]].
Qed.

(** X27. Two messages a SubAgent accepts one after the other.  Each is
    stored under the key ["received_" + timestamp text] of the clock
    reading that stamps it.  When the two keys differ both messages are in
    the local state; when the two keys are the same, as they are when the
    clock answers the same instant twice, the second message takes the
    place of the first, which is lost. *)
Theorem receive_information_same_instant (a : SubAgent.t)
    (sender1 information1 sender2 information2 : string) (k : Clock) :
  SubAgent._status a = ACTIVE ->
  TrustProfile.validate_inbound (SubAgent._trust_profile a) sender1 information1
  = Return true ->
  TrustProfile.validate_inbound (SubAgent._trust_profile a) sender2 information2
  = Return true ->
  let r1 := SubAgent.receive_information sender1 information1 a k in
  let r2 := SubAgent.receive_information sender2 information2 (state_of r1) (clock_of r1) in
  let t1 := ticks k (reads k) in
  let t2 := ticks k (2 + reads k) in
  let key1 := "received_" +:+ str_timestamp t1 in
  let key2 := "received_" +:+ str_timestamp t2 in
  result_of r1 = Return true
  /\ result_of r2 = Return true
  /\ SubAgent._local_state (state_of r2)
     = <[key2 := information2]> (<[key1 := information1]> (SubAgent._local_state a))
  /\ (key1 <> key2 ->
      SubAgent._local_state (state_of r2) !! key1 = Some information1
      /\ SubAgent._local_state (state_of r2) !! key2 = Some information2)
  /\ (key1 = key2 ->
      SubAgent._local_state (state_of r2)
      = <[key1 := information2]> (SubAgent._local_state a))
  /\ (t1 = t2 -> key1 = key2).
Proof.
  intros Hactive Hv1 Hv2. cbv zeta.
  assert (result_of (SubAgent.receive_information sender1 information1 a k) = Return true
          /\ result_of
               (SubAgent.receive_information sender2 information2
                  (state_of (SubAgent.receive_information sender1 information1 a k))
                  (clock_of (SubAgent.receive_information sender1 information1 a k)))
             = Return true
          /\ SubAgent._local_state
               (state_of
                  (SubAgent.receive_information sender2 information2
                     (state_of (SubAgent.receive_information sender1 information1 a k))
                     (clock_of (SubAgent.receive_information sender1 information1 a k))))
             = <["received_" +:+ str_timestamp (ticks k (2 + reads k)) := information2]>
                 (<["received_" +:+ str_timestamp (ticks k (reads k)) := information1]>
                    (SubAgent._local_state a))) as (Hr1 & Hr2 & Hlocal).
  { destruct a as [i d p st ls lg]. cbn in Hactive, Hv1, Hv2. subst st.
    run_agent. cbn -[TrustProfile.validate_inbound str_timestamp].
    rewrite !(bool_decide_eq_false_2 (ACTIVE <> ACTIVE)) by (intros H; by apply H).
    rewrite Hv1. cbn -[TrustProfile.validate_inbound str_timestamp].
    rewrite !(bool_decide_eq_false_2 (ACTIVE <> ACTIVE)) by (intros H; by apply H).
    rewrite Hv2. cbn -[str_timestamp]. done. }
  split; [done|]. split; [done|]. split; [done|]. rewrite Hlocal.
  split; [|split].
  - intros Hne. split.
    + rewrite lookup_insert_ne; [apply lookup_insert_eq|]. by intros Heq.
    + apply lookup_insert_eq.
  - intros <-. apply insert_insert_eq.
  - by intros ->.
Qed.

Lemma receive_information_same_instant_witness :
  let r1 := SubAgent.receive_information "s1" "first" research_unit (frozen_clock 0) in
  let r2 := SubAgent.receive_information "s2" "second" (state_of r1) (clock_of r1) in
  SubAgent._local_state (state_of r2)
  = <["received_" +:+ str_timestamp 0 := "second"]> (SubAgent._local_state research_unit).
Proof.
  refine (proj1 (proj2 (proj2 (proj2 (proj2
            (receive_information_same_instant research_unit "s1" "first" "s2" "second"
               (frozen_clock 0) _ _ _))))) _).
  - reflexivity.
  - vm_compute. reflexivity.
  - vm_compute. reflexivity.
  - reflexivity.
Defined.

End AgentSessions.

(** ** The front line agent over whole sessions *)

Section FlaSessions.

Lemma fla_frame_refl fla : fla_frame fla fla.
Proof. by unfold fla_frame. Qed.

Lemma preserves_fla_frame_log_event fla description :
  preserves (fla_frame fla) (FrontLineAgent._log_event description).
Proof.
  unfold FrontLineAgent._log_event. apply preserves_bind; [apply preserves_utcnow|].
  intros now. apply preserves_modify. intros s (? & ? & Hlog).
  repeat split; try done. cbn. by apply prefix_app_r.
Qed.

Lemma preserves_fla_frame_set_agents fla agents :
  preserves (fla_frame fla) (FrontLineAgent.set_active_sub_agents agents).
Proof. apply preserves_modify. by intros s (? & ? & ?). Qed.

Lemma preserves_fla_frame_set_authorizations fla auths :
  preserves (fla_frame fla) (FrontLineAgent.set_communication_authorizations auths).
Proof. apply preserves_modify. by intros s (? & ? & ?). Qed.

Lemma preserves_fla_frame_call {A} fla id obj (m : M SubAgent.t A) :
  preserves (fla_frame fla) (FrontLineAgent.call id obj m).
Proof.
  intros s k (? & ? & ?). unfold FrontLineAgent.call.
  by destruct (m obj k) as [[[a|e] obj'] k'].
Qed.

Lemma preserves_fla_frame_perform fla op : preserves (fla_frame fla) (perform op).
Proof.
  destruct op; cbn [perform];
    unfold FrontLineAgent.process_user_task, FrontLineAgent.classify_domain,
      FrontLineAgent.create_sub_agent, FrontLineAgent.reactivate_sub_agent,
      FrontLineAgent.authorize_communication, FrontLineAgent.mediate_communication,
      FrontLineAgent.retire_sub_agent, CommunicationAuthorization.create, SubAgent.new;
    cbv zeta;
    preserves_steps;
    first [ apply preserves_fla_frame_log_event | apply preserves_fla_frame_set_agents
          | apply preserves_fla_frame_set_authorizations
          | apply preserves_fla_frame_call ].
Qed.

(** X15. Whatever calls a client makes on a front line agent, and whether
    they return or raise, the agent keeps its id and its default trust
    profile, and its event log is only appended to: the old log is a
    prefix of the new one. *)
Theorem session_frame (ops : list operation) (fla : FrontLineAgent.t) (k : Clock) :
  let fla' := (session ops fla k).1 in
  FrontLineAgent._id fla' = FrontLineAgent._id fla
  /\ FrontLineAgent._default_trust_profile fla' = FrontLineAgent._default_trust_profile fla
  /\ FrontLineAgent._event_log fla `prefix_of` FrontLineAgent._event_log fla'.
Proof.
  cbv zeta. change (fla_frame fla (session ops fla k).1).
  assert (forall s k, fla_frame fla s -> fla_frame fla (session ops s k).1) as Hall.
  { induction ops as [|op rest IH]; intros s k' Hs; cbn [session fst]; [done|].
    cbv zeta. apply IH. by apply preserves_fla_frame_perform. }
  apply Hall, fla_frame_refl.
Qed.

(** The active map and the grants as [mediate_communication] leaves
    them: the grants are kept, and the only entries of the map that can
    change are the sender's, by [send_information], and the receiver's, by
    [receive_information]. *)
Lemma mediate_agents fla from_id to_id information k :
  let auths := FrontLineAgent._communication_authorizations fla in
  let agents := FrontLineAgent._active_sub_agents fla in
  let r := FrontLineAgent.mediate_communication from_id to_id information fla k in
  let scan := FrontLineAgent.next_authorized auths from_id to_id fla k in
  FrontLineAgent._communication_authorizations (state_of r) = auths
  /\ FrontLineAgent._active_sub_agents (state_of r)
     = match result_of scan, agents !! from_id, agents !! to_id with
       | Return (Some _), Some sender, Some receiver =>
           let sent := SubAgent.send_information to_id information sender (clock_of scan) in
           if bool_decide (SubAgent._status sender = ACTIVE)
           then
             let receiver' :=
               if decide (from_id = to_id) then state_of sent else receiver in
             <[to_id := state_of (SubAgent.receive_information from_id information
                                    receiver' (clock_of sent))]>
               (<[from_id := state_of sent]> agents)
           else <[from_id := state_of sent]> agents
       | _, _, _ => agents
       end.
Proof.
  intros auths agents r scan.
  destruct (next_authorized_run auths from_id to_id fla k) as (o & k1 & Hscan & _ & _).
  subst r scan. unfold FrontLineAgent.mediate_communication, FrontLineAgent._log_event,
    FrontLineAgent.call.
  unfold_M. cbn beta. fold auths. rewrite Hscan. cbn [result_of clock_of fst snd].
  destruct o as [g|]; [|done].
  fold agents.
  destruct (agents !! from_id) as [sender|] eqn:Hs; [|done].
  destruct (agents !! to_id) as [receiver|] eqn:Hr; [|done].
  cbv zeta.
  destruct (send_information_spec to_id information sender k1) as (Hres & _).
  destruct (SubAgent.send_information to_id information sender k1) as [[osent sender'] k2].
  cbn [result_of state_of clock_of fst snd] in *. subst osent.
  destruct (bool_decide (SubAgent._status sender = ACTIVE)); cbn [negb]; [|done].
  by destruct (SubAgent.receive_information from_id information
              (if decide (from_id = to_id) then sender' else receiver) k2)
    as [[[b|e] receiver''] k3].
Qed.

Lemma authorize_run fla from_id to_id bidirectional scopes ttl k :
  match CommunicationAuthorization.expiry (ticks k (reads k)) ttl with
  | Return expires_at =>
      exists g,
        FrontLineAgent.authorize_communication from_id to_id bidirectional scopes ttl fla k
        = (Return tt,
           FrontLineAgent.Mk (FrontLineAgent._id fla)
             (FrontLineAgent._default_trust_profile fla)
             (FrontLineAgent._active_sub_agents fla)
             (FrontLineAgent._communication_authorizations fla ++ [g])
             (FrontLineAgent._event_log fla
              ++ [MkLogEntry (ticks k (Datatypes.S (reads k)))
                    ("[FLA-" +:+ FrontLineAgent._id fla +:+ "] "
                     +:+ "Authorized communication: " +:+ from_id +:+ " -> " +:+ to_id
                     +:+ " (bidirectional: " +:+ str_bool bidirectional +:+ ")")]),
           MkClock (ticks k) (2 + reads k))
        /\ CommunicationAuthorization.from_agent_id g = from_id
        /\ CommunicationAuthorization.to_agent_id g = to_id
        /\ CommunicationAuthorization.is_bidirectional g = bidirectional
        /\ CommunicationAuthorization.expires_at g = expires_at
  | Raise e =>
      FrontLineAgent.authorize_communication from_id to_id bidirectional scopes ttl fla k
      = (Raise e, fla, MkClock (ticks k) (1 + reads k))
  end.
Proof.
  run_fla. cbn.
  destruct (CommunicationAuthorization.expiry (ticks k (reads k)) ttl) as [e|err]; [|done].
  eexists. split; [reflexivity|done].
Qed.

(** X16. [reactivate_sub_agent] is a lookup: it returns the unit
    registered under the id, or nothing, and changes neither the active
    map (so no unit's status) nor the grants; it appends one event-log
    entry that says which.  After [retire_sub_agent] on an id,
    [reactivate_sub_agent] on that id returns nothing. *)
Theorem reactivate_sub_agent_is_lookup fla (agent_id : string) k :
  let r := FrontLineAgent.reactivate_sub_agent agent_id fla k in
  let retired := FrontLineAgent.retire_sub_agent agent_id fla k in
  result_of r = Return (FrontLineAgent._active_sub_agents fla !! agent_id)
  /\ FrontLineAgent._active_sub_agents (state_of r) = FrontLineAgent._active_sub_agents fla
  /\ FrontLineAgent._communication_authorizations (state_of r)
     = FrontLineAgent._communication_authorizations fla
  /\ logged fla (state_of r)
       match FrontLineAgent._active_sub_agents fla !! agent_id with
       | Some _ => "Reactivated SubAgent: " +:+ agent_id
       | None => "Failed to reactivate SubAgent: " +:+ agent_id +:+ " - not found"
       end
  /\ result_of (FrontLineAgent.reactivate_sub_agent agent_id
                  (state_of retired) (clock_of retired)) = Return None.
Proof.
  cbv zeta.
  assert (forall fla k,
            result_of (FrontLineAgent.reactivate_sub_agent agent_id fla k)
            = Return (FrontLineAgent._active_sub_agents fla !! agent_id)) as Hres.
  { intros fla' k'. run_fla. by destruct (_ !! agent_id). }
  split; [apply Hres|].
  split; [run_fla; by destruct (_ !! agent_id)|].
  split; [run_fla; by destruct (_ !! agent_id)|].
  split; [run_fla; destruct (_ !! agent_id); by eexists|].
  rewrite Hres. f_equal.
  destruct (FrontLineAgent._active_sub_agents fla !! agent_id) as [a|] eqn:Hid.
  - destruct (retire_sub_agent_known fla agent_id a k Hid) as (_ & -> & _).
    apply lookup_delete_eq.
  - by rewrite retire_sub_agent_unknown.
Qed.

(** X17. [create_sub_agent] never raises.  It returns a unit whose id is
    ["SA-" + domain + "-" + uuid], with the given domain, the given trust
    profile or else the agent's default one, status ACTIVE and no local
    state, and registers it under that id, in the place of any unit that
    was registered there; the other units and the grants are as before,
    and [reactivate_sub_agent] on the id then returns the unit. *)
Theorem create_sub_agent_registers fla (uuid_hex domain : string)
    (trust_profile : option TrustProfile.t) k :
  let agent_id := "SA-" +:+ domain +:+ "-" +:+ uuid_hex in
  let r := FrontLineAgent.create_sub_agent uuid_hex domain trust_profile fla k in
  exists a,
    result_of r = Return a
    /\ SubAgent._id a = agent_id
    /\ SubAgent._domain a = domain
    /\ SubAgent._trust_profile a
       = default (FrontLineAgent._default_trust_profile fla) trust_profile
    /\ SubAgent._status a = ACTIVE
    /\ SubAgent._local_state a = ∅
    /\ FrontLineAgent._active_sub_agents (state_of r) !! agent_id = Some a
    /\ (forall id, id <> agent_id ->
        FrontLineAgent._active_sub_agents (state_of r) !! id
        = FrontLineAgent._active_sub_agents fla !! id)
    /\ FrontLineAgent._communication_authorizations (state_of r)
       = FrontLineAgent._communication_authorizations fla
    /\ result_of (FrontLineAgent.reactivate_sub_agent agent_id (state_of r) (clock_of r))
       = Return (Some a).
Proof.
  cbv zeta. run_fla.
  unfold SubAgent.start_mission, SubAgent.set_status, SubAgent._log_activity.
  unfold_M. cbn.
  rewrite (bool_decide_eq_false_2 (CREATED <> CREATED)) by (intros H; by apply H).
  cbn. rewrite insert_insert_eq. eexists. split; [reflexivity|].
  split; [done|]. split; [done|]. split; [done|]. split; [done|]. split; [done|].
  split; [by rewrite lookup_insert_eq|].
  split; [intros id Hne; by rewrite lookup_insert_ne|].
  split; [done|]. by rewrite lookup_insert_eq.
Qed.

(** X18. Creating a unit and retiring it again: the retired unit comes
    back with status RETIRED, the active map is the old one without the
    id (the old one itself when the id was free), and the grants are the
    old ones less those that name the id at either end. *)
Theorem create_then_retire fla (uuid_hex domain : string)
    (trust_profile : option TrustProfile.t) k :
  let agent_id := "SA-" +:+ domain +:+ "-" +:+ uuid_hex in
  let created := FrontLineAgent.create_sub_agent uuid_hex domain trust_profile fla k in
  let r := FrontLineAgent.retire_sub_agent agent_id (state_of created) (clock_of created) in
  (exists a, result_of r = Return (Some a) /\ SubAgent._status a = RETIRED)
  /\ FrontLineAgent._active_sub_agents (state_of r)
     = delete agent_id (FrontLineAgent._active_sub_agents fla)
  /\ (absent agent_id fla ->
      FrontLineAgent._active_sub_agents (state_of r) = FrontLineAgent._active_sub_agents fla)
  /\ FrontLineAgent._communication_authorizations (state_of r)
     = List.filter
         (fun auth =>
            bool_decide (CommunicationAuthorization.from_agent_id auth <> agent_id)
            && bool_decide (CommunicationAuthorization.to_agent_id auth <> agent_id))
         (FrontLineAgent._communication_authorizations fla).
Proof.
  cbv zeta.
  destruct (create_sub_agent_run fla uuid_hex domain trust_profile k)
    as (a & k' & -> & _).
  cbn [state_of clock_of fst snd].
  match goal with
  | |- context [FrontLineAgent.retire_sub_agent ?id ?s k'] =>
      destruct (retire_sub_agent_known s id a k') as (Hres & Hact & Hauth & _);
        [by cbn; rewrite lookup_insert_eq|]
  end.
  cbn [FrontLineAgent._active_sub_agents FrontLineAgent._communication_authorizations]
    in Hact, Hauth.
  rewrite delete_insert_eq in Hact.
  split; [eexists; split; [exact Hres | apply retire_spec]|].
  split; [done|]. split; [|done].
  intros Habs. rewrite Hact. by apply delete_id.
Qed.

(** A grant that answers true at every instant ends the scan, if no
    earlier grant does. *)
Lemma next_authorized_app {S} auths g (from_id to_id : string) (s : S) k :
  (forall now, authorized_at g from_id to_id now = true) ->
  exists g' k',
    FrontLineAgent.next_authorized (auths ++ [g]) from_id to_id s k
    = (Return (Some g'), s, k').
Proof.
  intros Hg. revert k. induction auths as [|h rest IH]; intros k;
    cbn [app FrontLineAgent.next_authorized];
    unfold mbind at 1, M_bind at 1, bind at 1; rewrite is_authorized_at.
  - rewrite Hg. by eexists _, _.
  - destruct (authorized_at h from_id to_id _); [by eexists _, _ | apply IH].
Qed.

(** X19. Authorizing and then mediating: after
    [authorize_communication(from, to)] without [ttl], a message from an
    ACTIVE sender to an ACTIVE receiver whose trust profile accepts it is
    delivered.  [mediate_communication] returns true, the receiver's local
    state holds the message, and the event log records the success. *)
Theorem authorized_message_is_delivered fla (from_id to_id information : string)
    (bidirectional : bool) (scopes : option (list string)) sender receiver k :
  FrontLineAgent._active_sub_agents fla !! from_id = Some sender ->
  FrontLineAgent._active_sub_agents fla !! to_id = Some receiver ->
  SubAgent._status sender = ACTIVE ->
  SubAgent._status receiver = ACTIVE ->
  TrustProfile.validate_inbound (SubAgent._trust_profile receiver) from_id information
  = Return true ->
  let granted :=
    FrontLineAgent.authorize_communication from_id to_id bidirectional scopes None fla k in
  let r :=
    FrontLineAgent.mediate_communication from_id to_id information
      (state_of granted) (clock_of granted) in
  result_of r = Return true
  /\ (exists receiver' key,
        FrontLineAgent._active_sub_agents (state_of r) !! to_id = Some receiver'
        /\ SubAgent._local_state receiver' !! key = Some information)
  /\ logged (state_of granted) (state_of r)
       ("Communication mediated: " +:+ from_id +:+ " -> " +:+ to_id
        +:+ " - success: True").
Proof.
  intros Hs Hr Hsa Hra Hvalid. cbv zeta.
  pose proof (authorize_run fla from_id to_id bidirectional scopes None k) as Hgranted.
  cbn [CommunicationAuthorization.expiry] in Hgranted.
  destruct Hgranted as (g & -> & Hf & Ht & _ & He).
  cbn [state_of clock_of fst snd].
  set (fla1 := FrontLineAgent.Mk _ _ _ _ _). set (k1 := MkClock _ _).
  assert (forall now, authorized_at g from_id to_id now = true) as Hg.
  { intros now. unfold authorized_at, direction_matches. rewrite He, Hf, Ht. cbn.
    by rewrite (bool_decide_eq_true_2 (from_id = from_id)),
      (bool_decide_eq_true_2 (to_id = to_id)). }
  destruct (next_authorized_app (FrontLineAgent._communication_authorizations fla) g
              from_id to_id fla1 k1 Hg) as (g' & k2 & Hscan).
  pose proof (mediate_cases fla1 from_id to_id information k1) as Hcases.
  pose proof (mediate_agents fla1 from_id to_id information k1) as [_ Hagents].
  cbv zeta in Hcases, Hagents.
  destruct Hcases as (o & k2' & Hscan' & Hcases).
  change (FrontLineAgent._communication_authorizations fla1)
    with (FrontLineAgent._communication_authorizations fla ++ [g]) in *.
  change (FrontLineAgent._active_sub_agents fla1)
    with (FrontLineAgent._active_sub_agents fla) in *.
  rewrite Hscan in Hscan', Hagents. injection Hscan' as <- <-.
  cbn [result_of clock_of fst snd] in Hagents.
  destruct Hcases as [_ Hcases]. rewrite Hs, Hr in Hcases, Hagents.
  destruct (send_information_spec to_id information sender k2) as (Hsent & Hst & _ & Hprof).
  rewrite Hsent, Hsa in Hcases. rewrite (bool_decide_eq_true_2 _ eq_refl) in Hcases.
  rewrite Hsa, (bool_decide_eq_true_2 _ eq_refl) in Hagents.
  cbv zeta in Hcases, Hagents.
  set (receiver' := if decide (from_id = to_id) then _ else receiver) in *.
  assert (SubAgent._status receiver' = ACTIVE
          /\ SubAgent._trust_profile receiver' = SubAgent._trust_profile receiver)
    as [Hra' Hprof'].
  { subst receiver'. destruct (decide (from_id = to_id)) as [->|]; [|done].
    rewrite Hs in Hr. injection Hr as <-. by rewrite Hst, Hprof. }
  pose proof (receive_information_active from_id information receiver'
                (clock_of (SubAgent.send_information to_id information sender k2)) Hra')
    as Hreceive.
  cbv zeta in Hreceive. rewrite Hprof', Hvalid in Hreceive.
  destruct Hreceive as (Hres & Hlocal & _).
  rewrite Hres in Hcases. destruct Hcases as [Hresult Hlog].
  split; [done|]. split; [|done].
  eexists _, _. rewrite Hagents, lookup_insert_eq. split; [done|].
  rewrite Hlocal. apply lookup_insert_eq.
Qed.

Lemma authorized_message_is_delivered_witness :
  let granted :=
    FrontLineAgent.authorize_communication "SA-Research-0a" "SA-Analysis-0b" false None None
      staffed_fla (frozen_clock 0) in
  result_of (FrontLineAgent.mediate_communication "SA-Research-0a" "SA-Analysis-0b"
               "findings" (state_of granted) (clock_of granted)) = Return true.
Proof.
  refine (proj1 (authorized_message_is_delivered staffed_fla
                   "SA-Research-0a" "SA-Analysis-0b" "findings" false None
                   research_unit analysis_unit (frozen_clock 0) _ _ _ _ _)).
  - reflexivity.
  - reflexivity.
  - reflexivity.
  - reflexivity.
  - vm_compute. reflexivity.
Defined.

(** A registered party that is not ACTIVE makes a mediation fail. *)
Lemma mediate_inactive fla (from_id to_id information : string) unit k :
  FrontLineAgent._active_sub_agents fla !! from_id = Some unit
  \/ FrontLineAgent._active_sub_agents fla !! to_id = Some unit ->
  SubAgent._status unit <> ACTIVE ->
  result_of (FrontLineAgent.mediate_communication from_id to_id information fla k)
  = Return false.
Proof.
  intros Hunit Hstatus.
  destruct (mediate_cases fla from_id to_id information k) as (o & k1 & _ & Hcases).
  destruct o as [g|]; [|by destruct Hcases as (_ & ? & _)].
  destruct Hcases as [_ Hcases].
  destruct (FrontLineAgent._active_sub_agents fla !! from_id) as [sender|] eqn:Hs;
    [|by destruct Hcases].
  destruct (FrontLineAgent._active_sub_agents fla !! to_id) as [receiver|] eqn:Hr;
    [|by destruct Hcases].
  cbv zeta in Hcases.
  destruct (send_information_spec to_id information sender k1) as (Hsent & _).
  rewrite Hsent in Hcases.
  destruct (decide (SubAgent._status sender = ACTIVE)) as [Hsa|Hsa].
  2: { rewrite bool_decide_eq_false_2 in Hcases by done. by destruct Hcases. }
  rewrite bool_decide_eq_true_2 in Hcases by done.
  assert (unit = receiver /\ from_id <> to_id) as [-> Hne].
  { destruct Hunit as [[= ->]|[= ->]]; [done|]. split; [done|].
    intros ->. rewrite Hs in Hr. by injection Hr as ->. }
  rewrite decide_False in Hcases by done.
  destruct (receive_information_inactive from_id information receiver
              (clock_of (SubAgent.send_information to_id information sender k1)) Hstatus)
    as (Hres & _).
  rewrite Hres in Hcases. by destruct Hcases.
Qed.

(** X20. A unit that is registered but not ACTIVE takes part in no
    delivery: whatever the grants, [mediate_communication] with such a
    unit as sender or as receiver returns false and does not raise. *)
Theorem inactive_party_blocks_mediation fla (from_id to_id information : string) unit k :
  FrontLineAgent._active_sub_agents fla !! from_id = Some unit
  \/ FrontLineAgent._active_sub_agents fla !! to_id = Some unit ->
  SubAgent._status unit <> ACTIVE ->
  result_of (FrontLineAgent.mediate_communication from_id to_id information fla k)
  = Return false.
Proof. apply mediate_inactive. Qed.

Lemma inactive_party_blocks_mediation_witness :
  result_of (FrontLineAgent.mediate_communication "SA-Research-0a" "SA-General-0c"
               "findings" finished_grant_fla (frozen_clock 0)) = Return false
  /\ result_of (FrontLineAgent.mediate_communication "SA-General-0c" "SA-Research-0a"
                  "findings" finished_grant_fla (frozen_clock 0)) = Return false.
Proof.
  split.
  - apply (inactive_party_blocks_mediation finished_grant_fla "SA-Research-0a"
             "SA-General-0c" "findings" finished_unit (frozen_clock 0)).
    + right. reflexivity.
    + discriminate.
  - apply (inactive_party_blocks_mediation finished_grant_fla "SA-General-0c"
             "SA-Research-0a" "findings" finished_unit (frozen_clock 0)).
    + left. reflexivity.
    + discriminate.
Defined.

(** The entries the two refusals of [finished_grant_fla] leave in the
    event log: the grant is matched, and the refusal comes from the unit
    that is not ACTIVE. *)
Example inactive_party_refusals :
  (text <$> last (FrontLineAgent._event_log
     (state_of (FrontLineAgent.mediate_communication "SA-Research-0a" "SA-General-0c"
                  "findings" finished_grant_fla (frozen_clock 0)))))
  = Some "[FLA-FLA-001] Communication mediated: SA-Research-0a -> SA-General-0c - success: False"
  /\ (text <$> last (FrontLineAgent._event_log
        (state_of (FrontLineAgent.mediate_communication "SA-General-0c" "SA-Research-0a"
                     "findings" finished_grant_fla (frozen_clock 0)))))
     = Some "[FLA-FLA-001] Communication failed: sender rejected outbound".
Proof. split; by vm_compute. Qed.

(** The unit [process_user_task] creates and leaves registered. *)
Lemma process_user_task_unit fla uuid_hex user_intent task_details k :
  let r := FrontLineAgent.process_user_task uuid_hex user_intent task_details fla k in
  exists label a,
    (forall fla' k', result_of (FrontLineAgent.classify_domain user_intent fla' k')
                     = Return label)
    /\ result_of r = Return ("Processed: " +:+ task_details +:+ " in domain: " +:+ label)
    /\ FrontLineAgent._active_sub_agents (state_of r)
       = <["SA-" +:+ label +:+ "-" +:+ uuid_hex := a]> (FrontLineAgent._active_sub_agents fla)
    /\ FrontLineAgent._communication_authorizations (state_of r)
       = FrontLineAgent._communication_authorizations fla
    /\ SubAgent._id a = "SA-" +:+ label +:+ "-" +:+ uuid_hex
    /\ SubAgent._domain a = label
    /\ SubAgent._trust_profile a = FrontLineAgent._default_trust_profile fla
    /\ SubAgent._status a = COMPLETED.
Proof.
  cbv zeta.
  unfold FrontLineAgent.process_user_task, FrontLineAgent._log_event, try_except,
    FrontLineAgent.call.
  unfold_M. cbn beta.
  match goal with
  | |- context [FrontLineAgent.classify_domain user_intent ?s ?c] =>
      destruct (classify_domain_run s user_intent c) as (label & Hlabel & ->)
  end.
  cbn [FrontLineAgent._id FrontLineAgent._default_trust_profile
       FrontLineAgent._active_sub_agents FrontLineAgent._communication_authorizations
       FrontLineAgent._event_log].
  match goal with
  | |- context [FrontLineAgent.create_sub_agent uuid_hex label None ?s ?c] =>
      destruct (create_sub_agent_run s uuid_hex label None c)
        as (a & k1 & -> & Hact & Hid & Hdom & Hprof)
  end.
  cbn [FrontLineAgent._id FrontLineAgent._default_trust_profile
       FrontLineAgent._active_sub_agents FrontLineAgent._communication_authorizations
       FrontLineAgent._event_log default] in *.
  destruct (process_task_active task_details a k1 Hact) as (a1 & k2 & Hrun1 & Hact1 & Hid1).
  pose proof (preserves_frame_invoke a (ProcessTask task_details) a k1 (agent_frame_refl a))
    as (_ & Hdom1 & Hprof1 & _).
  cbn [invoke] in Hdom1, Hprof1. rewrite state_of_then_ret, Hrun1 in Hdom1, Hprof1.
  cbn [state_of fst snd] in Hdom1, Hprof1. rewrite Hrun1.
  destruct (complete_mission_active a1 k2 Hact1) as (a2 & k3 & Hrun2 & Hdone & Hid2).
  pose proof (preserves_frame_invoke a1 CompleteMission a1 k2 (agent_frame_refl a1))
    as (_ & Hdom2 & Hprof2 & _).
  cbn [invoke] in Hdom2, Hprof2. rewrite Hrun2 in Hdom2, Hprof2.
  cbn [state_of fst snd] in Hdom2, Hprof2. rewrite Hrun2.
  cbn. rewrite Hid1, Hid, !insert_insert_eq, Hdom.
  exists label, a2. split; [done|]. split; [done|]. split; [done|]. split; [done|].
  split; [congruence|]. split; [congruence|]. split; [congruence|]. done.
Qed.

(** X21. [process_user_task] with the placeholder executor never raises.
    It returns ["Processed: <task> in domain: <label>"] for the label
    [classify_domain] gives the intent, and leaves the unit it created
    registered under ["SA-<label>-<uuid>"], with the agent's default trust
    profile and status COMPLETED: the unit is not retired, the other units
    and the grants are as before, and a mediation that follows with the
    unit as sender or as receiver returns false. *)
Theorem process_user_task_leaves_completed_unit fla
    (uuid_hex user_intent task_details : string) k :
  let r := FrontLineAgent.process_user_task uuid_hex user_intent task_details fla k in
  exists label a,
    result_of (FrontLineAgent.classify_domain user_intent fla k) = Return label
    /\ result_of r = Return ("Processed: " +:+ task_details +:+ " in domain: " +:+ label)
    /\ FrontLineAgent._active_sub_agents (state_of r)
       = <["SA-" +:+ label +:+ "-" +:+ uuid_hex := a]> (FrontLineAgent._active_sub_agents fla)
    /\ FrontLineAgent._communication_authorizations (state_of r)
       = FrontLineAgent._communication_authorizations fla
    /\ SubAgent._id a = "SA-" +:+ label +:+ "-" +:+ uuid_hex
    /\ SubAgent._domain a = label
    /\ SubAgent._trust_profile a = FrontLineAgent._default_trust_profile fla
    /\ SubAgent._status a = COMPLETED
    /\ forall other information,
         result_of (FrontLineAgent.mediate_communication
                      ("SA-" +:+ label +:+ "-" +:+ uuid_hex) other information
                      (state_of r) (clock_of r)) = Return false
         /\ result_of (FrontLineAgent.mediate_communication
                         other ("SA-" +:+ label +:+ "-" +:+ uuid_hex) information
                         (state_of r) (clock_of r)) = Return false.
Proof.
  cbv zeta.
  destruct (process_user_task_unit fla uuid_hex user_intent task_details k)
    as (label & a & Hlabel & Hres & Hagents & Hauths & Hid & Hdom & Hprof & Hdone).
  exists label, a. split; [apply Hlabel|].
  split; [done|]. split; [done|]. split; [done|]. split; [done|]. split; [done|].
  split; [done|]. split; [done|].
  intros other information.
  split; apply (mediate_inactive _ _ _ _ a); rewrite ?Hagents, ?Hdone; try done.
  - left. apply lookup_insert_eq.
  - right. apply lookup_insert_eq.
Qed.

Lemma agent_frame_trans a b c : agent_frame a b -> agent_frame b c -> agent_frame a c.
Proof.
  intros (? & ? & ? & ?) (? & ? & ? & ?). repeat split; try congruence.
  by etrans.
Qed.

Lemma send_information_frame recipient_id information a k :
  let a' := state_of (SubAgent.send_information recipient_id information a k) in
  SubAgent._status a' = SubAgent._status a
  /\ SubAgent._local_state a' = SubAgent._local_state a
  /\ agent_frame a a'.
Proof.
  cbv zeta.
  destruct (send_information_spec recipient_id information a k) as (_ & Hst & Hloc & _).
  split; [done|]. split; [done|].
  pose proof (preserves_frame_invoke a (SendInformation recipient_id information) a k
                (agent_frame_refl a)) as H.
  cbn [invoke] in H. by rewrite state_of_then_ret in H.
Qed.

Lemma receive_information_frame sender_id information a k :
  let a' := state_of (SubAgent.receive_information sender_id information a k) in
  SubAgent._status a' = SubAgent._status a /\ agent_frame a a'.
Proof.
  cbv zeta. split.
  - destruct (invoke_lifecycle (ReceiveInformation sender_id information) a k) as [H|H];
      cbn [invoke] in H; rewrite state_of_then_ret in H; [done|].
    exfalso. revert H. destruct a as [i d p st ls lg]. run_agent.
    destruct st; cbn -[TrustProfile.validate_inbound];
      try (by inversion 1);
      destruct (TrustProfile.validate_inbound p sender_id information) as [[|]|];
      cbn; by inversion 1.
  - pose proof (preserves_frame_invoke a (ReceiveInformation sender_id information) a k
                  (agent_frame_refl a)) as H.
    cbn [invoke] in H. by rewrite state_of_then_ret in H.
Qed.

(** The units as a mediation leaves them. *)
Lemma mediate_keeps_units fla (from_id to_id information : string) k :
  let fla' :=
    state_of (FrontLineAgent.mediate_communication from_id to_id information fla k) in
  FrontLineAgent._communication_authorizations fla'
  = FrontLineAgent._communication_authorizations fla
  /\ forall id,
       match FrontLineAgent._active_sub_agents fla !! id with
       | None => FrontLineAgent._active_sub_agents fla' !! id = None
       | Some a =>
           exists a',
             FrontLineAgent._active_sub_agents fla' !! id = Some a'
             /\ SubAgent._status a' = SubAgent._status a
             /\ agent_frame a a'
             /\ (id <> to_id -> SubAgent._local_state a' = SubAgent._local_state a)
             /\ (id <> from_id -> id <> to_id -> a' = a)
       end.
Proof.
  cbv zeta.
  destruct (mediate_agents fla from_id to_id information k) as [Hauths Hagents].
  cbv zeta in Hagents. split; [done|]. intros id. rewrite Hagents. clear Hauths Hagents.
  set (agents := FrontLineAgent._active_sub_agents fla).
  assert (match agents !! id with
          | None => agents !! id = None
          | Some a =>
              exists a', agents !! id = Some a' /\ SubAgent._status a' = SubAgent._status a
                /\ agent_frame a a'
                /\ (id <> to_id -> SubAgent._local_state a' = SubAgent._local_state a)
                /\ (id <> from_id -> id <> to_id -> a' = a)
          end) as Hsame.
  { destruct (agents !! id) as [a|]; [|done]. exists a.
    split; [done|]. split; [done|]. split; [apply agent_frame_refl|]. done. }
  destruct (result_of _) as [[g|]|e]; try done.
  destruct (agents !! from_id) as [sender|] eqn:Hs; try done.
  destruct (agents !! to_id) as [receiver|] eqn:Hr; try done.
  clear Hsame.
  match goal with
  | |- context [SubAgent.send_information to_id information sender ?c] =>
      destruct (send_information_frame to_id information sender c) as (Hst1 & Hloc1 & Hfr1);
      set (sent := SubAgent.send_information to_id information sender c) in *
  end.
  set (receiver' := if decide (from_id = to_id) then state_of sent else receiver).
  destruct (receive_information_frame from_id information receiver' (clock_of sent))
    as (Hst2 & Hfr2).
  set (received := SubAgent.receive_information from_id information receiver' (clock_of sent))
    in *.
  assert (SubAgent._status receiver' = SubAgent._status receiver
          /\ agent_frame receiver receiver') as [Hst3 Hfr3].
  { subst receiver'. destruct (decide (from_id = to_id)) as [->|].
    - rewrite Hs in Hr. injection Hr as <-. done.
    - split; [done | apply agent_frame_refl]. }
  destruct (bool_decide (SubAgent._status sender = ACTIVE)).
  - destruct (decide (id = to_id)) as [->|Hto].
    + rewrite Hr, lookup_insert_eq. eexists. split; [done|].
      split; [congruence|]. split; [by eapply agent_frame_trans|]. done.
    + rewrite lookup_insert_ne by done.
      destruct (decide (id = from_id)) as [->|Hfrom].
      * rewrite Hs, lookup_insert_eq. by eexists.
      * rewrite lookup_insert_ne by done.
        destruct (agents !! id) as [a|]; [|done]. exists a.
        split; [done|]. split; [done|]. split; [apply agent_frame_refl|]. done.
  - destruct (decide (id = from_id)) as [->|Hfrom].
    + rewrite Hs, lookup_insert_eq. by eexists.
    + rewrite lookup_insert_ne by done.
      destruct (agents !! id) as [a|]; [|done]. exists a.
      split; [done|]. split; [done|]. split; [apply agent_frame_refl|]. done.
Qed.

(** X22. What a mediation can change.  [mediate_communication] keeps the
    grants, registers and removes no unit, and changes no unit's status,
    id, domain or trust profile; every unit's activity log is only
    appended to; only the receiver's local state can change, and units
    other than the sender and the receiver are left exactly as they
    were. *)
Theorem mediation_frame fla (from_id to_id information : string) k :
  let fla' :=
    state_of (FrontLineAgent.mediate_communication from_id to_id information fla k) in
  FrontLineAgent._communication_authorizations fla'
  = FrontLineAgent._communication_authorizations fla
  /\ forall id,
       match FrontLineAgent._active_sub_agents fla !! id with
       | None => FrontLineAgent._active_sub_agents fla' !! id = None
       | Some a =>
           exists a',
             FrontLineAgent._active_sub_agents fla' !! id = Some a'
             /\ SubAgent._status a' = SubAgent._status a
             /\ agent_frame a a'
             /\ (id <> to_id -> SubAgent._local_state a' = SubAgent._local_state a)
             /\ (id <> from_id -> id <> to_id -> a' = a)
       end.
Proof. apply mediate_keeps_units. Qed.

Section Registry.

Variable allowed : MissionStatus -> Prop.
Hypothesis allowed_active : allowed ACTIVE.
Hypothesis allowed_completed : allowed COMPLETED.

Lemma registry_ok_agents fla fla' :
  FrontLineAgent._active_sub_agents fla' = FrontLineAgent._active_sub_agents fla ->
  registry_ok allowed fla -> registry_ok allowed fla'.
Proof. unfold registry_ok. by intros ->. Qed.

Lemma registry_ok_insert fla fla' key a :
  FrontLineAgent._active_sub_agents fla'
  = <[key := a]> (FrontLineAgent._active_sub_agents fla) ->
  SubAgent._id a = key ->
  (exists suffix, key = "SA-" +:+ SubAgent._domain a +:+ "-" +:+ suffix) ->
  allowed (SubAgent._status a) ->
  registry_ok allowed fla -> registry_ok allowed fla'.
Proof.
  intros Hagents Hid Hkey Hst Hok id b. rewrite Hagents.
  destruct (decide (id = key)) as [->|Hne].
  - rewrite lookup_insert_eq. by intros [= <-].
  - rewrite lookup_insert_ne by done. apply Hok.
Qed.

Lemma registry_ok_perform op fla k :
  registry_ok allowed fla -> registry_ok allowed (state_of (perform op fla k)).
Proof.
  intros Hok. destruct op; cbn [perform]; rewrite ?state_of_then_ret.
  - destruct (classify_domain_run fla user_intent k) as (label & _ & ->).
    by apply (registry_ok_agents fla).
  - destruct (create_sub_agent_run fla uuid_hex domain trust_profile k)
      as (a & k' & -> & Hact & Hid & Hdom & _).
    eapply registry_ok_insert; [reflexivity | exact Hid | | by rewrite Hact | exact Hok].
    rewrite Hdom. by eexists.
  - apply (registry_ok_agents fla); [|done]. run_fla. by destruct (_ !! agent_id).
  - pose proof (authorize_run fla from_agent_id to_agent_id is_bidirectional
                  allowed_data_scopes ttl k) as Hrun.
    destruct (CommunicationAuthorization.expiry (ticks k (reads k)) ttl) as [e|err].
    + destruct Hrun as (g & -> & _). by apply (registry_ok_agents fla).
    + by rewrite Hrun.
  - destruct (mediate_keeps_units fla from_agent_id to_agent_id information k) as [_ Hunits].
    cbv zeta in Hunits. intros id a' Hid. specialize (Hunits id).
    destruct (FrontLineAgent._active_sub_agents fla !! id) as [a|] eqn:Ha;
      [|by rewrite Hunits in Hid].
    destruct Hunits as (a'' & Hid' & Hst & (Hi & Hd & _) & _).
    rewrite Hid' in Hid. injection Hid as ->.
    destruct (Hok id a Ha) as (Hi0 & Hs0 & Hst0).
    rewrite Hi, Hd, Hst. done.
  - destruct (FrontLineAgent._active_sub_agents fla !! agent_id) as [a|] eqn:Ha.
    + destruct (retire_sub_agent_known fla agent_id a k Ha) as (_ & Hagents & _).
      intros id b. rewrite Hagents. intros [_ Hb]%lookup_delete_Some. by apply Hok.
    + by rewrite retire_sub_agent_unknown.
  - destruct (process_user_task_unit fla uuid_hex user_intent task_details k)
      as (label & a & _ & _ & Hagents & _ & Hid & Hdom & _ & Hdone).
    eapply registry_ok_insert; [exact Hagents | exact Hid | | by rewrite Hdone | exact Hok].
    rewrite Hdom. by eexists.
Qed.

(** A method called on a registered unit: the entry keeps its id and its
    domain, and its status is the one the method leaves. *)
Lemma registry_ok_unit agent_id c fla k :
  (forall a k', allowed (SubAgent._status a) ->
                allowed (SubAgent._status (state_of (invoke c a k')))) ->
  registry_ok allowed fla ->
  registry_ok allowed (state_of (client_perform (OnUnit agent_id c) fla k)).
Proof.
  intros Hinvoke Hok. cbn [client_perform]. unfold_M. cbn beta.
  destruct (FrontLineAgent._active_sub_agents fla !! agent_id) as [unit|] eqn:Hunit;
    [|done].
  destruct (Hok agent_id unit Hunit) as (Hid & Hkey & Hst).
  pose proof (preserves_frame_invoke unit c unit k (agent_frame_refl unit))
    as (Hid' & Hdom' & _).
  specialize (Hinvoke unit k Hst).
  unfold FrontLineAgent.call.
  destruct (invoke c unit k) as [[[[]|e] unit'] k1]; cbn [state_of fst snd] in *;
    (eapply registry_ok_insert; [reflexivity | congruence | | done | exact Hok]);
    rewrite Hdom'; exact Hkey.
Qed.

End Registry.

(** The statuses a unit can have while it is registered. *)
Lemma invoke_started_status c a k :
  let started status := status = ACTIVE \/ status = COMPLETED \/ status = RETIRED in
  started (SubAgent._status a) -> started (SubAgent._status (state_of (invoke c a k))).
Proof.
  cbv zeta. intros Hst.
  invoke_cases c a; cbn in *; destruct Hst as [?|[?|?]]; try done; tauto.
Qed.

Lemma invoke_working_status c a k :
  match c with Retire => False | _ => True end ->
  let working status := status = ACTIVE \/ status = COMPLETED in
  working (SubAgent._status a) -> working (SubAgent._status (state_of (invoke c a k))).
Proof.
  cbv zeta. intros Hc Hst.
  invoke_cases c a; cbn in *; destruct Hst as [?|?]; try done; tauto.
Qed.

(** X23. The registry of a front line agent, from its constructor through
    any calls of a client, on the agent and on the units it has
    registered: every unit is registered under its own id, which is
    ["SA-" + domain + "-" + suffix] for the unit's domain, and every
    registered unit is ACTIVE, COMPLETED or RETIRED, never CREATED (a unit
    is started before [create_sub_agent] returns).  A RETIRED unit is in
    the registry only when the client called [retire] on the unit itself:
    in a session without such a call every registered unit is ACTIVE or
    COMPLETED. *)
Theorem registry_invariant {S} (agent_id : string) (default_trust_profile : TrustProfile.t)
    (s : S) (k0 : Clock) (calls : list client_call) (k : Clock) :
  exists fla,
    result_of (FrontLineAgent.new agent_id default_trust_profile s k0) = Return fla
    /\ FrontLineAgent._active_sub_agents fla = ∅
    /\ (forall id a,
          FrontLineAgent._active_sub_agents (client_session calls fla k).1 !! id = Some a ->
          SubAgent._id a = id
          /\ (exists suffix, id = "SA-" +:+ SubAgent._domain a +:+ "-" +:+ suffix)
          /\ (SubAgent._status a = ACTIVE \/ SubAgent._status a = COMPLETED
              \/ SubAgent._status a = RETIRED))
    /\ (no_direct_retire calls ->
        forall id a,
          FrontLineAgent._active_sub_agents (client_session calls fla k).1 !! id = Some a ->
          SubAgent._status a = ACTIVE \/ SubAgent._status a = COMPLETED).
Proof.
  set (started := fun status => status = ACTIVE \/ status = COMPLETED \/ status = RETIRED).
  set (working := fun status => status = ACTIVE \/ status = COMPLETED).
  assert (forall fla k, registry_ok started fla ->
                        registry_ok started (client_session calls fla k).1) as Hstarted.
  { induction calls as [|c rest IH]; intros fla k' Hfla; cbn [client_session fst]; [done|].
    cbv zeta. apply IH. destruct c as [op|unit_id c].
    - apply registry_ok_perform; [by left | by right; left | done].
    - apply registry_ok_unit; [|done].
      intros a k1. apply invoke_started_status. }
  assert (no_direct_retire calls ->
          forall fla k, registry_ok working fla ->
                        registry_ok working (client_session calls fla k).1) as Hworking.
  { clear Hstarted.
    induction calls as [|c rest IH]; intros Hcalls fla k' Hfla; cbn [client_session fst];
      [done|].
    apply Forall_cons in Hcalls as [Hc Hrest].
    cbv zeta. apply IH; [done|]. destruct c as [op|unit_id c].
    - apply registry_ok_perform; [by left | by right | done].
    - apply registry_ok_unit; [|done].
      intros a k1. by apply invoke_working_status. }
  unfold FrontLineAgent.new. unfold_M. cbn [result_of fst]. eexists.
  split; [reflexivity|]. split; [done|]. split.
  - apply Hstarted. intros id a Hid. cbn in Hid. by rewrite lookup_empty in Hid.
  - intros Hcalls id a Hid.
    eapply Hworking; [done | | exact Hid].
    intros id' a' Hid'. cbn in Hid'. by rewrite lookup_empty in Hid'.
Qed.

(** A unit the client retires itself stays in the registry, RETIRED. *)
Example direct_retire_stays_registered :
  SubAgent._status <$>
    (FrontLineAgent._active_sub_agents
       (client_session [OnAgent (CreateSubAgent "0a" "Research" None);
                        OnUnit "SA-Research-0a" Retire]
          (FrontLineAgent.Mk "FLA-001" convergent_profile ∅ [] []) (frozen_clock 0)).1
     !! "SA-Research-0a")
  = Some RETIRED.
Proof. by vm_compute. Qed.

Lemma next_authorized_rescope {S S'} (rescope : CommunicationAuthorization.t -> list string)
    auths (from_id to_id : string) (s : S) (s' : S') k :
  exists o k',
    FrontLineAgent.next_authorized auths from_id to_id s k = (Return o, s, k')
    /\ FrontLineAgent.next_authorized (map (fun g => with_scopes g (rescope g)) auths)
         from_id to_id s' k
       = (Return ((fun g => with_scopes g (rescope g)) <$> o), s', k').
Proof.
  revert k. induction auths as [|g rest IH]; intros k;
    cbn [map FrontLineAgent.next_authorized].
  - by eexists None, _.
  - unfold mbind at 1 2, M_bind at 1 2, bind at 1 2. rewrite !is_authorized_at.
    change (authorized_at (with_scopes g (rescope g)) from_id to_id (ticks k (reads k)))
      with (authorized_at g from_id to_id (ticks k (reads k))).
    change (clock_reads (with_scopes g (rescope g))) with (clock_reads g).
    destruct (authorized_at g from_id to_id (ticks k (reads k))).
    + by eexists (Some g), _.
    + apply IH.
Qed.

(** X24. The data scopes of a grant are recorded but not enforced:
    replacing the scopes of the stored grants by any others changes
    neither the result of [mediate_communication] nor the units, the
    event log or the clock readings it makes. *)
Theorem scopes_are_not_enforced fla (rescope : CommunicationAuthorization.t -> list string)
    (from_id to_id information : string) k :
  let fla' :=
    with_authorizations fla
      (map (fun g => with_scopes g (rescope g))
         (FrontLineAgent._communication_authorizations fla)) in
  let r := FrontLineAgent.mediate_communication from_id to_id information fla k in
  let r' := FrontLineAgent.mediate_communication from_id to_id information fla' k in
  result_of r' = result_of r
  /\ FrontLineAgent._active_sub_agents (state_of r')
     = FrontLineAgent._active_sub_agents (state_of r)
  /\ FrontLineAgent._event_log (state_of r') = FrontLineAgent._event_log (state_of r)
  /\ clock_of r' = clock_of r.
Proof.
  cbv zeta.
  set (fla' := with_authorizations fla _).
  destruct (next_authorized_rescope rescope (FrontLineAgent._communication_authorizations fla)
              from_id to_id fla fla' k) as (o & k1 & Hscan & Hscan').
  unfold FrontLineAgent.mediate_communication, FrontLineAgent._log_event,
    FrontLineAgent.call.
  unfold_M. cbn beta.
  change (FrontLineAgent._communication_authorizations fla')
    with (map (fun g => with_scopes g (rescope g))
            (FrontLineAgent._communication_authorizations fla)).
  change (FrontLineAgent._active_sub_agents fla')
    with (FrontLineAgent._active_sub_agents fla).
  rewrite Hscan, Hscan'.
  destruct o as [g|]; cbn [fmap option_fmap option_map]; [|done].
  destruct (FrontLineAgent._active_sub_agents fla !! from_id) as [sender|]; [|done].
  destruct (FrontLineAgent._active_sub_agents fla !! to_id) as [receiver|]; [|done].
  destruct (SubAgent.send_information to_id information sender k1)
    as [[[[|]|e] sender'] k2]; cbn [negb]; try done.
  by destruct (SubAgent.receive_information from_id information
                 (if decide (from_id = to_id) then sender' else receiver) k2)
    as [[[b|e] receiver''] k3].
Qed.

Lemma next_authorized_app_some {S S'} auths more h (from_id to_id : string)
    (s : S) (s' : S') k k' :
  FrontLineAgent.next_authorized auths from_id to_id s k = (Return (Some h), s, k') ->
  FrontLineAgent.next_authorized (auths ++ more) from_id to_id s' k
  = (Return (Some h), s', k').
Proof.
  revert k. induction auths as [|g rest IH]; intros k;
    cbn [app FrontLineAgent.next_authorized]; [done|].
  unfold mbind at 1 2, M_bind at 1 2, bind at 1 2. rewrite !is_authorized_at.
  destruct (authorized_at g from_id to_id (ticks k (reads k))).
  - by intros [= -> ->].
  - apply IH.
Qed.

(** X28. Grants are additive: there is no deny rule.  A mediation that
    succeeds still succeeds, with the same effect on the units, when
    further grants of any kind are stored after the existing ones. *)
Theorem grants_are_additive fla (more : list CommunicationAuthorization.t)
    (from_id to_id information : string) k :
  let fla' :=
    with_authorizations fla (FrontLineAgent._communication_authorizations fla ++ more) in
  let r := FrontLineAgent.mediate_communication from_id to_id information fla k in
  let r' := FrontLineAgent.mediate_communication from_id to_id information fla' k in
  result_of r = Return true ->
  result_of r' = Return true
  /\ FrontLineAgent._active_sub_agents (state_of r')
     = FrontLineAgent._active_sub_agents (state_of r).
Proof.
  cbv zeta.
  set (fla' := with_authorizations fla _).
  destruct (next_authorized_run (FrontLineAgent._communication_authorizations fla)
              from_id to_id fla k) as (o & k1 & Hscan & _ & _).
  unfold FrontLineAgent.mediate_communication, FrontLineAgent._log_event,
    FrontLineAgent.call.
  unfold_M. cbn beta.
  change (FrontLineAgent._communication_authorizations fla')
    with (FrontLineAgent._communication_authorizations fla ++ more).
  change (FrontLineAgent._active_sub_agents fla')
    with (FrontLineAgent._active_sub_agents fla).
  rewrite Hscan.
  destruct o as [h|]; [|by cbn].
  rewrite (next_authorized_app_some _ more h from_id to_id fla fla' k k1 Hscan).
  destruct (FrontLineAgent._active_sub_agents fla !! from_id) as [sender|]; [|by cbn].
  destruct (FrontLineAgent._active_sub_agents fla !! to_id) as [receiver|]; [|by cbn].
  destruct (SubAgent.send_information to_id information sender k1)
    as [[[[|]|e] sender'] k2]; cbn [negb]; try by cbn.
  by destruct (SubAgent.receive_information from_id information
                 (if decide (from_id = to_id) then sender' else receiver) k2)
    as [[[b|e] receiver''] k3].
Qed.

Lemma grants_are_additive_witness :
  result_of (FrontLineAgent.mediate_communication "SA-Research-0a" "SA-Analysis-0b" "findings"
               (with_authorizations granted_fla
                  (FrontLineAgent._communication_authorizations granted_fla
                   ++ [CommunicationAuthorization.Mk "SA-Analysis-0b" "SA-Research-0a" false
                         ["*"%string] 0 (Some (-1))]))
               (frozen_clock 0))
  = Return true.
Proof.
  refine (proj1 (grants_are_additive granted_fla
                   [CommunicationAuthorization.Mk "SA-Analysis-0b" "SA-Research-0a" false
                      ["*"%string] 0 (Some (-1))]
                   "SA-Research-0a" "SA-Analysis-0b" "findings" (frozen_clock 0) _)).
  vm_compute. reflexivity.
Defined.

End FlaSessions.
